(** * Booking conflict detection and slot allocation

    A shallow embedding of the availability engine of the booking system:
    the business-hours helpers of [src/types/index.ts], the
    [ConflictDetectionService] of [src/services/barberService.ts], the
    [CalendarService] and the parts of [BookingService] that call them.

    Conventions of the embedding.
    - A JavaScript [Date] that is a valid date is its epoch value in
      milliseconds, an integer ([Z]), read on the single store-local clock
      (offset zero); the dates of the tables and the clock are such.  The
      start time of a request is any [Date] object ([JSDate]): a valid date
      or [Invalid Date].
    - A [number] that holds minutes is an integer; [None] stands for [NaN]
      where a computation can produce it.
    - A Prisma table is the list of its rows in storage order; [findFirst]
      returns the first matching row and [findMany] all of them in order.
    - Every Prisma call is recorded in a query log, so that "which queries
      ran" is part of what a function returns. *)

From Stdlib Require Import ZArith List String Ascii Bool Lia QArith.
From Stdlib Require Import DecimalString Decimal DecimalPos Sorted Permutation.
Import ListNotations.
Open Scope string_scope.
Open Scope list_scope.
Open Scope Z_scope.

(** ** Temporal utilities ([src/types/index.ts]) *)

Module Temporal.

(** [Number(text)] on the texts the time format uses: a run of decimal
    digits (the empty text is 0); anything else is [NaN].  Texts with a
    sign, blanks, a fraction or an exponent do not occur in an "HH:mm"
    field and are read as [NaN] here. *)
Definition digit_of_ascii (c : ascii) : option Z :=
  let n := Z.of_nat (nat_of_ascii c) in
  if (48 <=? n) && (n <=? 57) then Some (n - 48) else None.

Fixpoint digits_value (acc : Z) (s : string) : option Z :=
  match s with
  | EmptyString => Some acc
  | String c r =>
      match digit_of_ascii c with
      | Some d => digits_value (acc * 10 + d) r
      | None => None
      end
  end.

Definition Number (s : string) : option Z := digits_value 0 s.

(** [text.split(':')] *)
Fixpoint split_colon_aux (cur : string) (s : string) : list string :=
  match s with
  | EmptyString => [cur]
  | String c r =>
      if Ascii.eqb c ":"%char then cur :: split_colon_aux EmptyString r
      else split_colon_aux (cur ++ String c EmptyString)%string r
  end.

Definition split_colon (s : string) : list string := split_colon_aux EmptyString s.

(** [timeToMinutes]: [const [hours, minutes] = timeString.split(':').map(Number);
    return hours * 60 + minutes].  A missing second field is [undefined],
    which makes the sum [NaN]. *)
Definition timeToMinutes (timeString : string) : option Z :=
  match map Number (split_colon timeString) with
  | Some hours :: Some minutes :: _ => Some (hours * 60 + minutes)
  | _ => None
  end.

(** [n.toString()] for an integer. *)
Definition toString (n : Z) : string := NilZero.string_of_int (Z.to_int n).

(** [text.padStart(2, '0')] *)
Definition padStart2 (s : string) : string :=
  match String.length s with
  | O => "00"
  | S O => ("0" ++ s)%string
  | _ => s
  end.

(** [minutesToTime]: [Math.floor(minutes / 60)] and the remainder
    [minutes % 60], which takes the sign of [minutes]. *)
Definition minutesToTime (minutes : Z) : string :=
  let hours := minutes / 60 in
  let mins := Z.rem minutes 60 in
  (padStart2 (toString hours) ++ ":" ++ padStart2 (toString mins))%string.

(** The [BusinessHours] interface. *)
Record BusinessHours := mkBusinessHours {
  bh_id : string;
  bh_storeId : string;
  bh_dayOfWeek : Z;
  bh_openTime : string;
  bh_closeTime : string;
  bh_isClosed : bool
}.

(** A comparison with [NaN] on either side is false. *)
Definition nan_ltb (a b : option Z) : bool :=
  match a, b with
  | Some x, Some y => x <? y
  | _, _ => false
  end.

Definition nan_leb (a b : option Z) : bool :=
  match a, b with
  | Some x, Some y => x <=? y
  | _, _ => false
  end.

(** [isTimeWithinBusinessHours] *)
Definition isTimeWithinBusinessHours (timeString : string) (businessHours : BusinessHours) : bool :=
  if bh_isClosed businessHours then false
  else
    let timeMinutes := timeToMinutes timeString in
    let openMinutes := timeToMinutes (bh_openTime businessHours) in
    let closeMinutes := timeToMinutes (bh_closeTime businessHours) in
    nan_leb openMinutes timeMinutes && nan_leb timeMinutes closeMinutes.

(** [isTimeRangeOverlap] *)
Definition isTimeRangeOverlap (start1 end1 start2 end2 : string) : bool :=
  let start1Minutes := timeToMinutes start1 in
  let end1Minutes := timeToMinutes end1 in
  let start2Minutes := timeToMinutes start2 in
  let end2Minutes := timeToMinutes end2 in
  nan_ltb start1Minutes end2Minutes && nan_ltb start2Minutes end1Minutes.

(** The loop of [getAvailableTimeSlots]:
    [for (let minutes = openMinutes; minutes + serviceDuration <= closeMinutes;
          minutes += slotInterval) slots.push(minutesToTime(minutes))].
    The loop is bounded by [fuel] iterations; [None] means the bound was
    reached with the loop condition still true. *)
Fixpoint slots_loop (fuel : nat) (minutes serviceDuration closeMinutes slotInterval : Z)
  : option (list string) :=
  if minutes + serviceDuration <=? closeMinutes then
    match fuel with
    | O => None
    | S fuel' =>
        option_map (cons (minutesToTime minutes))
          (slots_loop fuel' (minutes + slotInterval) serviceDuration closeMinutes slotInterval)
    end
  else Some [].

Definition getAvailableTimeSlots_fuel (fuel : nat) (businessHours : BusinessHours)
    (serviceDuration slotInterval : Z) : option (list string) :=
  if bh_isClosed businessHours then Some []
  else
    match timeToMinutes (bh_openTime businessHours),
          timeToMinutes (bh_closeTime businessHours) with
    | Some openMinutes, Some closeMinutes =>
        slots_loop fuel openMinutes serviceDuration closeMinutes slotInterval
    | _, _ => Some []  (* a NaN bound makes the loop condition false at once *)
    end.

(** Enough iterations for every positive step: the loop variable grows by
    at least one per round. *)
Definition slots_fuel (businessHours : BusinessHours) (serviceDuration : Z) : nat :=
  match timeToMinutes (bh_openTime businessHours),
        timeToMinutes (bh_closeTime businessHours) with
  | Some o, Some c => Z.to_nat (c - serviceDuration - o + 1)
  | _, _ => O
  end.

(** Number of rounds of the loop from [minutes] on, for a positive step. *)
Definition slotCount (minutes serviceDuration closeMinutes slotInterval : Z) : nat :=
  if minutes + serviceDuration <=? closeMinutes
  then Z.to_nat ((closeMinutes - serviceDuration - minutes) / slotInterval + 1)
  else O.

Definition getAvailableTimeSlots (businessHours : BusinessHours)
    (serviceDuration slotInterval : Z) : option (list string) :=
  getAvailableTimeSlots_fuel (slots_fuel businessHours serviceDuration)
    businessHours serviceDuration slotInterval.

End Temporal.

(** ** Dates ([date-fns] on the store-local clock) *)

Module DateFns.

Definition Date := Z.

Definition msPerMinute : Z := 60000.
Definition msPerDay : Z := 86400000.

(** [addMinutes(date, amount)] *)
Definition addMinutes (date : Date) (amount : Z) : Date := date + amount * msPerMinute.

(** [date.getDay()]: 0 is Sunday; day 0 of the epoch was a Thursday. *)
Definition getDay (date : Date) : Z := (date / msPerDay + 4) mod 7.

(** [startOfDay(date)] and [endOfDay(date)].  The text
    [format(date, 'yyyy-MM-dd')] names the same calendar day, and is
    represented by its first millisecond. *)
Definition startOfDay (date : Date) : Date := (date / msPerDay) * msPerDay.
Definition endOfDay (date : Date) : Date := startOfDay date + msPerDay - 1.

(** [format(date, 'HH:mm')] *)
Definition format_HHmm (date : Date) : string :=
  Temporal.minutesToTime ((date mod msPerDay) / msPerMinute).

(** The time field of [parseISO(`${dateStr}T${time}:00`)] for a [time] text
    in the "HH:mm" format of the business-hours table: two digits, a colon,
    two digits, with the hour at most 24 (24 only with minute 0) and the
    minute below 60.  [None] is [Invalid Date]; texts in another format are
    read as [Invalid Date] here. *)
Definition parseHHmm (time : string) : option Z :=
  match time with
  | String h1 (String h2 (String c (String m1 (String m2 EmptyString)))) =>
      match Temporal.digit_of_ascii h1, Temporal.digit_of_ascii h2,
            Temporal.digit_of_ascii m1, Temporal.digit_of_ascii m2 with
      | Some a, Some b, Some x, Some y =>
          let hours := a * 10 + b in
          let minutes := x * 10 + y in
          if Ascii.eqb c ":"%char && (minutes <? 60)
             && ((hours <? 24) || ((hours =? 24) && (minutes =? 0)))
          then Some (hours * 60 + minutes) else None
      | _, _, _, _ => None
      end
  | _ => None
  end.

(** [parseISO(`${dateStr}T${time}:00`)], with [dateStr] given by the first
    millisecond of its day. *)
Definition parseISO_on (dayStart : Date) (time : string) : option Date :=
  option_map (fun m => dayStart + m * msPerMinute) (parseHHmm time).

(** [isWithinInterval(date, { start, end })] of date-fns 2: it throws a
    [RangeError] unless [start <= end] (so also when a bound is
    [Invalid Date]); [None] is that exception. *)
Definition isWithinInterval (date : Date) (start end_ : option Date) : option bool :=
  match start, end_ with
  | Some s, Some e =>
      if s <=? e then Some ((s <=? date) && (date <=? e)) else None
  | _, _ => None
  end.

(** A JS [Date] object as a request carries it: a time value, or
    [Invalid Date], whose time value is [NaN] (as [new Date("undefinedT10:00:00")]
    gives).  The columns of the tables and [new Date()] hold valid dates. *)
Inductive JSDate := ValidDate (t : Date) | InvalidDate.

(** [date.getTime()], which [<] and [>] compare; [None] is [NaN]. *)
Definition getTime (date : JSDate) : option Z :=
  match date with
  | ValidDate t => Some t
  | InvalidDate => None
  end.

End DateFns.

(** ** The Prisma tables and the query log *)

Module Prisma.

Inductive BookingStatus := confirmed | cancelled | completed.

Definition status_eqb (a b : BookingStatus) : bool :=
  match a, b with
  | confirmed, confirmed | cancelled, cancelled | completed, completed => true
  | _, _ => false
  end.

Inductive ContactType := line | email.

Record Service := mkService {
  service_id : string;
  service_storeId : string;
  service_name : string;
  service_duration : Z;
  service_isActive : bool
}.

Record Barber := mkBarber {
  barber_id : string;
  barber_storeId : string;
  barber_name : string;
  barber_isActive : bool
}.

Record Booking := mkBooking {
  booking_id : string;
  booking_storeId : string;
  booking_barberId : string;
  booking_serviceId : string;
  booking_customerName : string;
  booking_customerContact : string;
  booking_contactType : ContactType;
  booking_startTime : DateFns.Date;
  booking_endTime : DateFns.Date;
  booking_status : BookingStatus;
  booking_notes : option string
}.

Record DB := mkDB {
  services : list Service;
  businessHours : list Temporal.BusinessHours;
  barbers : list Barber;
  bookings : list Booking
}.

(** One entry per Prisma call, with the arguments of its [where]. *)
Inductive Query :=
| service_findFirst (storeId serviceId : string) (activeOnly : bool)
| businessHours_findFirst (storeId : string) (dayOfWeek : Z) (openOnly : bool)
| barber_findFirst (storeId barberId : string)
| barber_findMany (storeId : string) (id : option string)
| booking_findMany_overlap (storeId barberId : string)
    (startTime endTime : DateFns.Date) (excludeId : option string)
| booking_findMany_day (storeId : string) (barberIds : list string)
    (startOfDate endOfDate : DateFns.Date)
| booking_findUnique (id : string)
| booking_create (id : string)
| booking_update (id : string).

(** A computation returns its value and the queries it ran, in order. *)
Definition M (A : Type) : Type := (A * list Query)%type.

Definition ret {A} (a : A) : M A := (a, []).

Definition bind {A B} (m : M A) (f : A -> M B) : M B :=
  let (a, l1) := m in
  let (b, l2) := f a in
  (b, l1 ++ l2).

Definition query {A} (q : Query) (answer : A) : M A := (answer, [q]).

Definition value {A} (m : M A) : A := fst m.
Definition queries {A} (m : M A) : list Query := snd m.

(** JavaScript truthiness of an optional text: [undefined] and the empty
    text are falsy. *)
Definition truthy (o : option string) : bool :=
  match o with
  | Some s => negb (String.eqb s EmptyString)
  | None => false
  end.

End Prisma.

Declare Scope prisma_scope.
Notation "x <- c ;; k" := (Prisma.bind c (fun x => k))
  (at level 61, c at next level, right associativity) : prisma_scope.
Open Scope prisma_scope.

(** ** ConflictDetectionService ([src/services/barberService.ts]) *)

Module ConflictDetectionService.
Import Prisma DateFns.

Inductive ConflictType :=
| time_overlap | outside_business_hours | barber_unavailable | service_unavailable.

Record Alternative := mkAlternative {
  alt_barberId : string;
  alt_barberName : string;
  alt_startTime : Date;
  alt_endTime : Date
}.

Record ConflictCheckResult := mkConflictCheckResult {
  hasConflict : bool;
  conflictType : option ConflictType;
  conflictDetails : option string;
  suggestedAlternatives : option (list Alternative)
}.

Record BookingConflictCheck := mkBookingConflictCheck {
  check_storeId : string;
  check_barberId : option string;
  check_serviceId : string;
  check_startTime : Date;
  check_endTime : Date;
  check_excludeBookingId : option string
}.

(** The result shape [{ isAvailable, reason? }] (and [{ isWithinHours,
    reason? }], [{ isValid, error? }]). *)
Record Verdict := mkVerdict {
  ok : bool;
  reason : option string
}.

(** [checkServiceAvailability] *)
Definition checkServiceAvailability (db : DB) (storeId serviceId : string) : M Verdict :=
  service <- query (service_findFirst storeId serviceId false)
               (find (fun s => String.eqb (service_id s) serviceId
                               && String.eqb (service_storeId s) storeId)
                     (services db)) ;;
  match service with
  | None => ret (mkVerdict false (Some "找不到指定的服務項目"))
  | Some service =>
      if negb (service_isActive service)
      then ret (mkVerdict false (Some "該服務項目目前暫停提供"))
      else ret (mkVerdict true None)
  end.

(** [checkBusinessHours]; [None] is the [RangeError] of [isWithinInterval]. *)
Definition checkBusinessHours (db : DB) (storeId : string) (startTime endTime : Date)
  : M (option Verdict) :=
  let dayOfWeek := getDay startTime in
  let dateStr := startOfDay startTime in
  businessHours <- query (businessHours_findFirst storeId dayOfWeek false)
                     (find (fun h => String.eqb (Temporal.bh_storeId h) storeId
                                     && (Temporal.bh_dayOfWeek h =? dayOfWeek))
                           (businessHours db)) ;;
  match businessHours with
  | None => ret (Some (mkVerdict false (Some "該日期沒有設定營業時間")))
  | Some businessHours =>
      if Temporal.bh_isClosed businessHours
      then ret (Some (mkVerdict false (Some "該日期為休息日")))
      else
        let businessStart := parseISO_on dateStr (Temporal.bh_openTime businessHours) in
        let businessEnd := parseISO_on dateStr (Temporal.bh_closeTime businessHours) in
        match isWithinInterval startTime businessStart businessEnd,
              isWithinInterval endTime businessStart businessEnd with
        | Some isStartWithinHours, Some isEndWithinHours =>
            if negb isStartWithinHours || negb isEndWithinHours
            then ret (Some (mkVerdict false
                       (Some ("營業時間為 " ++ Temporal.bh_openTime businessHours
                              ++ " - " ++ Temporal.bh_closeTime businessHours)%string)))
            else ret (Some (mkVerdict true None))
        | _, _ => ret None
        end
  end.

(** The [OR] of the conflict query, on one booking row. *)
Definition overlapClause (startTime endTime : Date) (b : Booking) : bool :=
  ((booking_startTime b <=? startTime) && (startTime <? booking_endTime b))
  || ((booking_startTime b <? endTime) && (endTime <=? booking_endTime b))
  || ((startTime <=? booking_startTime b) && (booking_endTime b <=? endTime)).

(** The whole [whereClause] of [checkBarberAvailability], with the
    [id: { not: excludeBookingId }] added when [excludeBookingId] is truthy. *)
Definition whereClause (storeId barberId : string) (startTime endTime : Date)
    (excludeBookingId : option string) (b : Booking) : bool :=
  String.eqb (booking_storeId b) storeId
  && String.eqb (booking_barberId b) barberId
  && negb (status_eqb (booking_status b) cancelled)
  && overlapClause startTime endTime b
  && (if truthy excludeBookingId
      then match excludeBookingId with
           | Some ex => negb (String.eqb (booking_id b) ex)
           | None => true
           end
      else true).

(** [checkBarberAvailability] *)
Definition checkBarberAvailability (db : DB) (storeId barberId : string)
    (startTime endTime : Date) (excludeBookingId : option string) : M Verdict :=
  barber <- query (barber_findFirst storeId barberId)
              (find (fun b => String.eqb (barber_id b) barberId
                              && String.eqb (barber_storeId b) storeId)
                    (barbers db)) ;;
  match barber with
  | None => ret (mkVerdict false (Some "找不到指定的理髮師"))
  | Some barber =>
      if negb (barber_isActive barber)
      then ret (mkVerdict false (Some "該理髮師目前暫停服務"))
      else
        conflictingBookings <-
          query (booking_findMany_overlap storeId barberId startTime endTime
                   (if truthy excludeBookingId then excludeBookingId else None))
                (filter (whereClause storeId barberId startTime endTime excludeBookingId)
                        (bookings db)) ;;
        match conflictingBookings with
        | first :: _ =>
            let conflictTime := format_HHmm (booking_startTime first) in
            ret (mkVerdict false
                   (Some ("該理髮師在 " ++ conflictTime ++ " 已有其他預約")%string))
        | [] => ret (mkVerdict true None)
        end
  end.

(** The [for (const barber of barbers)] loop of [findAvailableBarbers]. *)
Fixpoint scanBarbers (db : DB) (storeId : string) (barbers : list Barber)
    (startTime endTime : Date) (excludeBookingId : option string)
  : M (list Alternative) :=
  match barbers with
  | [] => ret []
  | barber :: rest =>
      availability <- checkBarberAvailability db storeId (barber_id barber)
                        startTime endTime excludeBookingId ;;
      others <- scanBarbers db storeId rest startTime endTime excludeBookingId ;;
      if ok availability
      then ret (mkAlternative (barber_id barber) (barber_name barber) startTime endTime
                  :: others)
      else ret others
  end.

(** [findAvailableBarbers] *)
Definition findAvailableBarbers (db : DB) (storeId : string)
    (startTime endTime : Date) (excludeBookingId : option string)
  : M (list Alternative) :=
  barbers <- query (barber_findMany storeId None)
               (filter (fun b => String.eqb (barber_storeId b) storeId
                                 && barber_isActive b)
                       (barbers db)) ;;
  scanBarbers db storeId barbers startTime endTime excludeBookingId.

(** The [for (const slot of timeSlots)] loop of [findAlternativeBarbers],
    with its [break] once five alternatives are held. *)
Fixpoint scanSlots (db : DB) (storeId : string) (excludeBookingId : option string)
    (timeSlots : list (Date * Date)) (alternatives : list Alternative)
  : M (list Alternative) :=
  match timeSlots with
  | [] => ret alternatives
  | slot :: rest =>
      slotAlternatives <- findAvailableBarbers db storeId (fst slot) (snd slot)
                            excludeBookingId ;;
      let alternatives := alternatives ++ slotAlternatives in
      if (5 <=? List.length alternatives)%nat then ret alternatives
      else scanSlots db storeId excludeBookingId rest alternatives
  end.

Definition timeSlots (preferredStartTime preferredEndTime : Date) : list (Date * Date) :=
  [ (addMinutes preferredStartTime (-30), addMinutes preferredEndTime (-30));
    (addMinutes preferredStartTime 30, addMinutes preferredEndTime 30);
    (addMinutes preferredStartTime (-60), addMinutes preferredEndTime (-60));
    (addMinutes preferredStartTime 60, addMinutes preferredEndTime 60) ].

(** [findAlternativeBarbers] *)
Definition findAlternativeBarbers (db : DB) (storeId : string)
    (preferredStartTime preferredEndTime : Date) (excludeBookingId : option string)
  : M (list Alternative) :=
  sameTimeAlternatives <- findAvailableBarbers db storeId preferredStartTime
                            preferredEndTime excludeBookingId ;;
  let alternatives := [] ++ sameTimeAlternatives in
  alternatives <-
    (if (List.length alternatives =? 0)%nat
     then scanSlots db storeId excludeBookingId
            (timeSlots preferredStartTime preferredEndTime) alternatives
     else ret alternatives) ;;
  ret (firstn 5 alternatives).

(** [checkBookingConflicts]; the [catch] answers the [RangeError] of
    [checkBusinessHours]. *)
Definition checkBookingConflicts (db : DB) (check : BookingConflictCheck)
  : M ConflictCheckResult :=
  let storeId := check_storeId check in
  let barberId := check_barberId check in
  let serviceId := check_serviceId check in
  let startTime := check_startTime check in
  let endTime := check_endTime check in
  let excludeBookingId := check_excludeBookingId check in
  serviceCheck <- checkServiceAvailability db storeId serviceId ;;
  if negb (ok serviceCheck)
  then ret (mkConflictCheckResult true (Some service_unavailable)
              (reason serviceCheck) None)
  else
    businessHoursCheck <- checkBusinessHours db storeId startTime endTime ;;
    match businessHoursCheck with
    | None => ret (mkConflictCheckResult true (Some time_overlap)
                     (Some "檢查預約衝突時發生錯誤") None)
    | Some businessHoursCheck =>
        if negb (ok businessHoursCheck)
        then ret (mkConflictCheckResult true (Some outside_business_hours)
                    (reason businessHoursCheck) None)
        else
          match barberId with
          | Some theBarber =>
              if truthy barberId then
                barberCheck <- checkBarberAvailability db storeId theBarber
                                 startTime endTime excludeBookingId ;;
                if negb (ok barberCheck) then
                  alternatives <- findAlternativeBarbers db storeId startTime endTime
                                    excludeBookingId ;;
                  ret (mkConflictCheckResult true (Some barber_unavailable)
                         (reason barberCheck) (Some alternatives))
                else ret (mkConflictCheckResult false None None None)
              else
                availableBarbers <- findAvailableBarbers db storeId startTime endTime
                                      excludeBookingId ;;
                if (List.length availableBarbers =? 0)%nat
                then ret (mkConflictCheckResult true (Some time_overlap)
                            (Some "該時段所有理髮師都已被預約") None)
                else ret (mkConflictCheckResult false None None None)
          | None =>
              availableBarbers <- findAvailableBarbers db storeId startTime endTime
                                    excludeBookingId ;;
              if (List.length availableBarbers =? 0)%nat
              then ret (mkConflictCheckResult true (Some time_overlap)
                          (Some "該時段所有理髮師都已被預約") None)
              else ret (mkConflictCheckResult false None None None)
          end
    end.

(** A JavaScript [number]: a finite value (every double is a rational), or
    one of the three values that are not finite. *)
Inductive number := Finite (q : Q) | NaN | Infinity | NegInfinity.

(** [Number.isInteger(n)] *)
Definition Number_isInteger (n : number) : bool :=
  match n with
  | Finite q => (Z.pos (Qden (Qred q)) =? 1)
  | _ => false
  end.

(** [n <= k] and [n > k] for a finite constant [k]. *)
Definition number_leb (n : number) (k : Q) : bool :=
  match n with
  | Finite q => Qle_bool q k
  | NegInfinity => true
  | NaN | Infinity => false
  end.

Definition number_gtb (n : number) (k : Q) : bool :=
  match n with
  | Finite q => negb (Qle_bool q k)
  | Infinity => true
  | NaN | NegInfinity => false
  end.

(** [n % k !== 0] for a positive constant [k]: the remainder of the
    truncated division; it is [NaN] when [n] is not finite. *)
Definition Q_rem (q k : Q) : Q :=
  let t := (q / k)%Q in
  (q - k * inject_Z (Z.quot (Qnum t) (Z.pos (Qden t))))%Q.

Definition number_rem_nonzero (n : number) (k : Q) : bool :=
  match n with
  | Finite q => negb (Qeq_bool (Q_rem q k) 0)
  | _ => true
  end.

(** [validateServiceTime] *)
Definition validateServiceTime (duration : number) : Verdict :=
  if negb (Number_isInteger duration)
  then mkVerdict false (Some "服務時間必須是整數分鐘")
  else if number_leb duration 0
  then mkVerdict false (Some "服務時間必須大於0分鐘")
  else if number_gtb duration 480
  then mkVerdict false (Some "服務時間不能超過8小時")
  else if number_rem_nonzero duration 15
  then mkVerdict false (Some "服務時間必須是15分鐘的倍數")
  else mkVerdict true None.

(** [validateBookingTime]; [now] is the value of [new Date()]. *)
Definition validateBookingTime (now : Date) (startTime : JSDate) : Verdict :=
  let minBookingTime := addMinutes now 30 in
  if Temporal.nan_ltb (getTime startTime) (Some minBookingTime)
  then mkVerdict false (Some "預約時間必須至少提前30分鐘")
  else
    let maxBookingTime := addMinutes now (90 * 24 * 60) in
    if Temporal.nan_ltb (Some maxBookingTime) (getTime startTime)
    then mkVerdict false (Some "預約時間不能超過3個月")
    else mkVerdict true None.

(** [checkBookingConflicts] when [check.startTime] is an [Invalid Date]: the
    service check runs as usual; then [checkBusinessHours] calls
    [format(startTime, 'yyyy-MM-dd')], which throws a [RangeError] before
    the hours are read, and the [catch] of [checkBookingConflicts] answers
    the conflict below. *)
Definition checkBookingConflicts_invalidDate (db : DB) (storeId serviceId : string)
  : M ConflictCheckResult :=
  serviceCheck <- checkServiceAvailability db storeId serviceId ;;
  if negb (ok serviceCheck)
  then ret (mkConflictCheckResult true (Some service_unavailable)
              (reason serviceCheck) None)
  else ret (mkConflictCheckResult true (Some time_overlap)
              (Some "檢查預約衝突時發生錯誤") None).

End ConflictDetectionService.

(** ** CalendarService *)

Module CalendarService.
Import Prisma DateFns.

Record TimeSlot := mkTimeSlot {
  slot_startTime : Date;
  slot_endTime : Date;
  slot_barberId : string;
  slot_barberName : string;
  slot_isAvailable : bool
}.

(** [AvailabilityQuery]; the [date] text "YYYY-MM-DD" is given by the first
    millisecond of its day. *)
Record AvailabilityQuery := mkAvailabilityQuery {
  q_storeId : string;
  q_date : Date;
  q_serviceId : string;
  q_barberId : option string;
  q_duration : option Z
}.

(** [getBusinessHours]: the open and close texts, or [null]. *)
Definition getBusinessHours (db : DB) (storeId : string) (date : Date)
  : M (option (string * string)) :=
  let dayOfWeek := getDay date in
  businessHours <- query (businessHours_findFirst storeId dayOfWeek true)
                     (find (fun h => String.eqb (Temporal.bh_storeId h) storeId
                                     && (Temporal.bh_dayOfWeek h =? dayOfWeek)
                                     && negb (Temporal.bh_isClosed h))
                           (businessHours db)) ;;
  match businessHours with
  | None => ret None
  | Some businessHours =>
      ret (Some (Temporal.bh_openTime businessHours, Temporal.bh_closeTime businessHours))
  end.

(** [getAvailableBarbers] *)
Definition getAvailableBarbers (db : DB) (storeId : string) (barberId : option string)
  : M (list Barber) :=
  query (barber_findMany storeId (if truthy barberId then barberId else None))
        (filter (fun b => String.eqb (barber_storeId b) storeId
                          && barber_isActive b
                          && (if truthy barberId
                              then match barberId with
                                   | Some id => String.eqb (barber_id b) id
                                   | None => true
                                   end
                              else true))
                (barbers db)).

(** [getExistingBookings] *)
Definition getExistingBookings (db : DB) (storeId : string) (date : Date)
    (barberIds : list string) : M (list Booking) :=
  let startOfDate := startOfDay date in
  let endOfDate := endOfDay date in
  query (booking_findMany_day storeId barberIds startOfDate endOfDate)
        (filter (fun b => String.eqb (booking_storeId b) storeId
                          && existsb (String.eqb (booking_barberId b)) barberIds
                          && negb (status_eqb (booking_status b) cancelled)
                          && (startOfDate <=? booking_startTime b)
                          && (booking_startTime b <=? endOfDate))
                (bookings db)).

(** The test of [generateBarberTimeSlots] against one existing booking:
    [currentTime < booking.endTime && slotEnd > booking.startTime]. *)
Definition slotOverlaps (currentTime slotEnd : Date) (booking : Booking) : bool :=
  (currentTime <? booking_endTime booking) && (booking_startTime booking <? slotEnd).

(** The [while (currentTime < businessEnd)] loop of [generateBarberTimeSlots];
    [fuel] bounds the number of rounds. *)
Fixpoint slotsFrom (fuel : nat) (barber : Barber) (currentTime businessEnd : Date)
    (serviceDuration : Z) (existingBookings : list Booking) : list TimeSlot :=
  match fuel with
  | O => []
  | S fuel' =>
      if currentTime <? businessEnd then
        let slotEnd := addMinutes currentTime serviceDuration in
        let rest := slotsFrom fuel' barber (addMinutes currentTime 30) businessEnd
                      serviceDuration existingBookings in
        if slotEnd <=? businessEnd then
          let hasConflict := existsb (slotOverlaps currentTime slotEnd) existingBookings in
          mkTimeSlot currentTime slotEnd (barber_id barber) (barber_name barber)
            (negb hasConflict) :: rest
        else rest
      else []
  end.

(** The rounds the loop can take: one per 30 minutes of the window. *)
Definition roundsBetween (businessStart businessEnd : Date) : nat :=
  Z.to_nat ((businessEnd - businessStart) / (30 * msPerMinute) + 1).

(** [generateBarberTimeSlots]; with an [Invalid Date] bound the loop
    condition is false at once. *)
Definition generateBarberTimeSlots (barber : Barber) (date : Date)
    (businessHours : string * string) (serviceDuration : Z)
    (existingBookings : list Booking) : list TimeSlot :=
  match parseISO_on date (fst businessHours), parseISO_on date (snd businessHours) with
  | Some businessStart, Some businessEnd =>
      slotsFrom (roundsBetween businessStart businessEnd) barber businessStart
        businessEnd serviceDuration existingBookings
  | _, _ => []
  end.

(** [array.sort((a, b) => a.startTime.getTime() - b.startTime.getTime())]:
    a stable sort by start time. *)
Fixpoint insertSlot (x : TimeSlot) (l : list TimeSlot) : list TimeSlot :=
  match l with
  | [] => [x]
  | y :: r =>
      if slot_startTime x <? slot_startTime y then x :: y :: r
      else y :: insertSlot x r
  end.

Definition sortSlots (l : list TimeSlot) : list TimeSlot :=
  fold_left (fun acc x => insertSlot x acc) l [].

(** [getAvailableTimeSlots]; [None] is the thrown [Error('Service not found')]. *)
Definition getAvailableTimeSlots (db : DB) (q : AvailabilityQuery)
  : M (option (list TimeSlot)) :=
  let storeId := q_storeId q in
  let date := q_date q in
  service <- query (service_findFirst storeId (q_serviceId q) true)
               (find (fun s => String.eqb (service_id s) (q_serviceId q)
                               && String.eqb (service_storeId s) storeId
                               && service_isActive s)
                     (services db)) ;;
  match service with
  | None => ret None
  | Some service =>
      let serviceDuration :=
        match q_duration q with
        | Some d => if d =? 0 then service_duration service else d
        | None => service_duration service
        end in
      businessHours <- getBusinessHours db storeId date ;;
      match businessHours with
      | None => ret (Some [])
      | Some businessHours =>
          barbers <- getAvailableBarbers db storeId (q_barberId q) ;;
          if (List.length barbers =? 0)%nat then ret (Some [])
          else
            existingBookings <- getExistingBookings db storeId date
                                  (map barber_id barbers) ;;
            let availableSlots :=
              flat_map (fun barber =>
                          generateBarberTimeSlots barber date businessHours serviceDuration
                            (filter (fun b => String.eqb (booking_barberId b)
                                                (barber_id barber))
                                    existingBookings))
                       barbers in
            ret (Some (sortSlots availableSlots))
      end
  end.

(** [isTimeSlotAvailable]; the [catch] turns the [RangeError] into [false]. *)
Definition isTimeSlotAvailable (db : DB) (storeId barberId : string)
    (startTime endTime : Date) : M bool :=
  let dateStr := startOfDay startTime in
  businessHours <- getBusinessHours db storeId dateStr ;;
  match businessHours with
  | None => ret false
  | Some businessHours =>
      let businessStart := parseISO_on dateStr (fst businessHours) in
      let businessEnd := parseISO_on dateStr (snd businessHours) in
      match isWithinInterval startTime businessStart businessEnd with
      | None => ret false
      | Some startWithin =>
          if negb startWithin then ret false
          else
            match isWithinInterval endTime businessStart businessEnd with
            | None => ret false
            | Some endWithin =>
                if negb endWithin then ret false
                else
                  conflictingBookings <-
                    query (booking_findMany_overlap storeId barberId startTime endTime None)
                          (filter (ConflictDetectionService.whereClause storeId barberId
                                     startTime endTime None)
                                  (bookings db)) ;;
                  ret (List.length conflictingBookings =? 0)%nat
            end
      end
  end.

End CalendarService.

(** ** BookingService ([src/services/bookingService.ts]) *)

Module BookingService.
Import Prisma DateFns.
Import ConflictDetectionService.

Record CreateBookingRequest := mkCreateBookingRequest {
  create_storeId : string;
  create_barberId : option string;
  create_serviceId : string;
  create_startTime : JSDate;
  create_customerName : string;
  create_customerContact : string;
  create_contactType : ContactType;
  create_notes : option string
}.

Record UpdateBookingRequest := mkUpdateBookingRequest {
  update_bookingId : string;
  update_barberId : option string;
  update_serviceId : option string;
  update_startTime : option JSDate;
  update_customerName : option string;
  update_customerContact : option string;
  update_notes : option string;
  update_status : option BookingStatus
}.

Record BookingView := mkBookingView {
  view_id : string;
  view_barberId : string;
  view_barberName : string;
  view_serviceName : string;
  view_startTime : Date;
  view_endTime : Date;
  view_customerName : string;
  view_status : BookingStatus
}.

Record BookingResult := mkBookingResult {
  success : bool;
  booking : option BookingView;
  error : option string;
  alternatives : option (list Alternative)
}.

Definition failure (error : option string) : BookingResult :=
  mkBookingResult false None error None.

(** The [include: { barber: { select: { name } }, service: { select: { name } } }]
    of a booking row: the rows its foreign keys name. *)
Definition includeNames (db : DB) (b : Booking) : option BookingView :=
  match find (fun x => String.eqb (barber_id x) (booking_barberId b)) (barbers db),
        find (fun x => String.eqb (service_id x) (booking_serviceId b)) (services db) with
  | Some barber, Some service =>
      Some (mkBookingView (booking_id b) (booking_barberId b) (barber_name barber)
              (service_name service) (booking_startTime b) (booking_endTime b)
              (booking_customerName b) (booking_status b))
  | _, _ => None
  end.

(** [findAvailableBarber] *)
Fixpoint scanCalendar (db : DB) (storeId : string) (barbers : list Barber)
    (startTime endTime : Date) : M (list (string * string)) :=
  match barbers with
  | [] => ret []
  | barber :: rest =>
      isAvailable <- CalendarService.isTimeSlotAvailable db storeId (barber_id barber)
                       startTime endTime ;;
      others <- scanCalendar db storeId rest startTime endTime ;;
      if isAvailable then ret ((barber_id barber, barber_name barber) :: others)
      else ret others
  end.

Definition findAvailableBarber (db : DB) (storeId : string) (startTime endTime : Date)
  : M (list (string * string)) :=
  barbers <- query (barber_findMany storeId None)
               (filter (fun b => String.eqb (barber_storeId b) storeId
                                 && barber_isActive b)
                       (barbers db)) ;;
  scanCalendar db storeId barbers startTime endTime.

(** [findAvailableBarber] when the start time is an [Invalid Date]: the
    barbers are read, and for each of them
    [CalendarService.isTimeSlotAvailable] throws in
    [format(startTime, 'yyyy-MM-dd')] before any query; its [catch] answers
    false, so no barber is kept. *)
Definition findAvailableBarber_invalidDate (db : DB) (storeId : string)
  : M (list (string * string)) :=
  barbers <- query (barber_findMany storeId None)
               (filter (fun b => String.eqb (barber_storeId b) storeId
                                 && barber_isActive b)
                       (barbers db)) ;;
  ret (map (fun b => (barber_id b, barber_name b)) (filter (fun _ => false) barbers)).

(** [createBooking]; [now] is the clock and [newId] the key the store gives
    the new row.  The value is the result and the tables afterwards.  After
    the time validation the steps are written once for a start time that is
    a valid date and once for an [Invalid Date], for which
    [addMinutes(startTime, service.duration)] is an [Invalid Date] too and
    [prisma.booking.create] would throw. *)
Definition createBooking (db : DB) (now : Date) (newId : string)
    (request : CreateBookingRequest) : M (BookingResult * DB) :=
  let storeId := create_storeId request in
  let serviceId := create_serviceId request in
  let startTime := create_startTime request in
  service <- query (service_findFirst storeId serviceId true)
               (find (fun s => String.eqb (service_id s) serviceId
                               && String.eqb (service_storeId s) storeId
                               && service_isActive s)
                     (services db)) ;;
  match service with
  | None => ret (failure (Some "找不到指定的服務項目"), db)
  | Some service =>
      let timeValidation := validateBookingTime now startTime in
      if negb (ok timeValidation) then ret (failure (reason timeValidation), db)
      else
        match startTime with
        | ValidDate startTime =>
            let endTime := addMinutes startTime (service_duration service) in
            assigned <-
              (if truthy (create_barberId request)
               then ret (Some (create_barberId request))
               else
                 availableBarbers <- findAvailableBarber db storeId startTime endTime ;;
                 match availableBarbers with
                 | [] => ret None
                 | first :: _ => ret (Some (Some (fst first)))
                 end) ;;
            match assigned with
            | None => ret (failure (Some "該時段沒有可用的理髮師"), db)
            | Some assignedBarberId =>
                conflictCheck <- checkBookingConflicts db
                                   (mkBookingConflictCheck storeId assignedBarberId
                                      serviceId startTime endTime None) ;;
                if hasConflict conflictCheck
                then ret (mkBookingResult false None (conflictDetails conflictCheck)
                            (suggestedAlternatives conflictCheck), db)
                else
                  match assignedBarberId with
                  | None => ret (failure (Some "創建預約時發生錯誤"), db)
                  | Some barberId =>
                      let row := mkBooking newId storeId barberId serviceId
                                   (create_customerName request)
                                   (create_customerContact request)
                                   (create_contactType request)
                                   startTime endTime confirmed (create_notes request) in
                      match includeNames db row with
                      | None => ret (failure (Some "創建預約時發生錯誤"), db)
                      | Some view =>
                          query (booking_create newId)
                            (mkBookingResult true (Some view) None None,
                             mkDB (services db) (businessHours db) (barbers db)
                                  (bookings db ++ [row]))
                      end
                  end
            end
        | InvalidDate =>
            assigned <-
              (if truthy (create_barberId request)
               then ret (Some (create_barberId request))
               else
                 availableBarbers <- findAvailableBarber_invalidDate db storeId ;;
                 match availableBarbers with
                 | [] => ret None
                 | first :: _ => ret (Some (Some (fst first)))
                 end) ;;
            match assigned with
            | None => ret (failure (Some "該時段沒有可用的理髮師"), db)
            | Some assignedBarberId =>
                conflictCheck <- checkBookingConflicts_invalidDate db storeId serviceId ;;
                if hasConflict conflictCheck
                then ret (mkBookingResult false None (conflictDetails conflictCheck)
                            (suggestedAlternatives conflictCheck), db)
                else ret (failure (Some "創建預約時發生錯誤"), db)
            end
        end
  end.

(** The row after [prisma.booking.update({ data: updateData })]. *)
Record UpdateData := mkUpdateData {
  data_customerName : option string;
  data_customerContact : option string;
  data_notes : option string;
  data_status : option BookingStatus;
  data_serviceId : option string;
  data_startTime : option Date;
  data_barberId : option string;
  data_endTime : option Date
}.

Definition orElse {A} (o : option A) (d : A) : A :=
  match o with Some a => a | None => d end.

Definition applyUpdate (d : UpdateData) (b : Booking) : Booking :=
  mkBooking (booking_id b) (booking_storeId b)
    (orElse (data_barberId d) (booking_barberId b))
    (orElse (data_serviceId d) (booking_serviceId b))
    (orElse (data_customerName d) (booking_customerName b))
    (orElse (data_customerContact d) (booking_customerContact b))
    (booking_contactType b)
    (orElse (data_startTime d) (booking_startTime b))
    (orElse (data_endTime d) (booking_endTime b))
    (orElse (data_status d) (booking_status b))
    (match data_notes d with Some n => Some n | None => booking_notes b end).

Definition keepTruthy (o : option string) : option string :=
  if truthy o then o else None.

(** The start time written by the update: the one of the request, which is
    a valid date whenever the update is reached. *)
Definition validTime (o : option JSDate) : option Date :=
  match o with
  | Some (ValidDate t) => Some t
  | _ => None
  end.

(** The conflict check of [updateBooking], run when the request names a
    service, a start time or a barber: the new values, the end time derived
    from them and the call to [checkBookingConflicts] that excludes the
    booking itself.  [inl] is an early failure.  With an [Invalid Date] the
    end time is an [Invalid Date] too and [prisma.booking.update] would
    throw. *)
Definition updateCheck (db : DB) (now : Date) (request : UpdateBookingRequest)
    (existingBooking : Booking) (existingService : Service)
  : M (BookingResult + (Date * Date * ConflictCheckResult)) :=
  found <-
    (if truthy (update_serviceId request) then
       foundService <-
         query (service_findFirst (booking_storeId existingBooking)
                  (orElse (update_serviceId request) EmptyString) true)
               (find (fun s => String.eqb (service_id s)
                                 (orElse (update_serviceId request) EmptyString)
                               && String.eqb (service_storeId s)
                                    (booking_storeId existingBooking)
                               && service_isActive s)
                     (services db)) ;;
       ret foundService
     else ret (Some existingService)) ;;
  match found with
  | None => ret (inl (failure (Some "找不到指定的服務項目")))
  | Some newService =>
      let timeValidation :=
        match update_startTime request with
        | Some startTime => validateBookingTime now startTime
        | None => mkVerdict true None
        end in
      if negb (ok timeValidation) then ret (inl (failure (reason timeValidation)))
      else
        let newBarberId :=
          orElse (keepTruthy (update_barberId request))
                 (booking_barberId existingBooking) in
        match orElse (update_startTime request)
                (ValidDate (booking_startTime existingBooking)) with
        | ValidDate newStartTime =>
            let newEndTime := addMinutes newStartTime (service_duration newService) in
            conflictCheck <- checkBookingConflicts db
                               (mkBookingConflictCheck (booking_storeId existingBooking)
                                  (Some newBarberId) (service_id newService)
                                  newStartTime newEndTime
                                  (Some (update_bookingId request))) ;;
            ret (inr (newStartTime, newEndTime, conflictCheck))
        | InvalidDate =>
            conflictCheck <- checkBookingConflicts_invalidDate db
                               (booking_storeId existingBooking)
                               (service_id newService) ;;
            if hasConflict conflictCheck
            then ret (inl (mkBookingResult false None (conflictDetails conflictCheck)
                             (suggestedAlternatives conflictCheck)))
            else ret (inl (failure (Some "更新預約時發生錯誤")))
        end
  end.

(** [updateBooking] *)
Definition updateBooking (db : DB) (now : Date) (request : UpdateBookingRequest)
  : M (BookingResult * DB) :=
  let bookingId := update_bookingId request in
  existingBooking <- query (booking_findUnique bookingId)
                       (find (fun b => String.eqb (booking_id b) bookingId)
                             (bookings db)) ;;
  match existingBooking with
  | None => ret (failure (Some "找不到指定的預約"), db)
  | Some existingBooking =>
      match find (fun s => String.eqb (service_id s) (booking_serviceId existingBooking))
                 (services db) with
      | None => ret (failure (Some "更新預約時發生錯誤"), db)
      | Some existingService =>
          let updateData :=
            mkUpdateData (keepTruthy (update_customerName request))
              (keepTruthy (update_customerContact request))
              (update_notes request) (update_status request)
              None None None None in
          checked <-
            (if truthy (update_serviceId request)
                || (match update_startTime request with Some _ => true | None => false end)
                || truthy (update_barberId request)
             then
               r <- updateCheck db now request existingBooking existingService ;;
               match r with
               | inl early => ret (inl early)
               | inr (newStartTime, newEndTime, conflictCheck) =>
                   if hasConflict conflictCheck
                   then ret (inl (mkBookingResult false None
                                    (conflictDetails conflictCheck)
                                    (suggestedAlternatives conflictCheck)))
                   else ret (inr (mkUpdateData (data_customerName updateData)
                                    (data_customerContact updateData)
                                    (data_notes updateData) (data_status updateData)
                                    (keepTruthy (update_serviceId request))
                                    (validTime (update_startTime request))
                                    (keepTruthy (update_barberId request))
                                    (Some newEndTime)))
               end
             else ret (inr updateData)) ;;
          match checked with
          | inl early => ret (early, db)
          | inr updateData =>
              let row := applyUpdate updateData existingBooking in
              match includeNames db row with
              | None => ret (failure (Some "更新預約時發生錯誤"), db)
              | Some view =>
                  query (booking_update bookingId)
                    (mkBookingResult true (Some view) None None,
                     mkDB (services db) (businessHours db) (barbers db)
                          (map (fun b => if String.eqb (booking_id b) bookingId
                                         then row else b)
                               (bookings db)))
              end
          end
      end
  end.

End BookingService.

(** ** The alternative search as the specification words it *)

Module SpecWords.
Import Prisma DateFns ConflictDetectionService.

(** "If still short of 5, try offset windows in this fixed order ..., each
    time re-running the full staff-availability scan": before each shifted
    interval the number collected so far is compared with 5, and the
    interval is scanned only when fewer are held. *)
Fixpoint ladder (db : DB) (storeId : string) (excludeBookingId : option string)
    (windows : list (Date * Date)) (collected : list Alternative)
  : M (list Alternative) :=
  match windows with
  | [] => ret collected
  | window :: rest =>
      if (List.length collected <? 5)%nat then
        found <- findAvailableBarbers db storeId (fst window) (snd window)
                   excludeBookingId ;;
        ladder db storeId excludeBookingId rest (collected ++ found)
      else ret collected
  end.

(** The search of section 4.7: the exact interval first, then the ladder,
    then the cut to five entries. *)
Definition findAlternativeBarbers_spec (db : DB) (storeId : string)
    (preferredStartTime preferredEndTime : Date) (excludeBookingId : option string)
  : M (list Alternative) :=
  sameTime <- findAvailableBarbers db storeId preferredStartTime preferredEndTime
                excludeBookingId ;;
  collected <- ladder db storeId excludeBookingId
                 (timeSlots preferredStartTime preferredEndTime) sameTime ;;
  ret (firstn 5 collected).

(** The same search with the ladder entered only when the exact interval
    gave no alternative at all. *)
Definition findAlternativeBarbers_amended (db : DB) (storeId : string)
    (preferredStartTime preferredEndTime : Date) (excludeBookingId : option string)
  : M (list Alternative) :=
  sameTime <- findAvailableBarbers db storeId preferredStartTime preferredEndTime
                excludeBookingId ;;
  collected <-
    match sameTime with
    | [] => ladder db storeId excludeBookingId
              (timeSlots preferredStartTime preferredEndTime) []
    | _ :: _ => ret sameTime
    end ;;
  ret (firstn 5 collected).

(** The tables without the booking row [bookingId]. *)
Definition withoutBooking (bookingId : string) (db : DB) : DB :=
  mkDB (services db) (businessHours db) (barbers db)
       (filter (fun b => negb (String.eqb (booking_id b) bookingId)) (bookings db)).

(** The requested start time lies in the booking window of [now]. *)
Definition inBookingWindow (now startTime : Date) : Prop :=
  addMinutes now 30 <= startTime <= addMinutes now (90 * 24 * 60).

(** The texts of a time of day, written digit by digit: "HH:mm", and "H:mm"
    for the hours below ten, which the business-hours format allows as
    well. *)
Definition digitChar (n : Z) : ascii := ascii_of_N (Z.to_N (48 + n)).

Definition twoDigits (n : Z) : string :=
  String (digitChar (n / 10)) (String (digitChar (n mod 10)) EmptyString).

Definition clockText (minutes : Z) : string :=
  (twoDigits (minutes / 60) ++ String ":" (twoDigits (minutes mod 60)))%string.

Definition shortClockText (minutes : Z) : string :=
  String (digitChar (minutes / 60)) (String ":" (twoDigits (minutes mod 60))).

(** [text] is a time of day in that format, [minutes] after midnight. *)
Definition readsAs (text : string) (minutes : Z) : Prop :=
  0 <= minutes < 24 * 60
  /\ (text = clockText minutes
      \/ (minutes < 10 * 60 /\ text = shortClockText minutes)).

End SpecWords.

(** ** Concrete stores *)

Module Scenarios.
Import Prisma DateFns ConflictDetectionService.

(** Monday 2024-01-01, day 19723 of the epoch. *)
Definition monday : Date := 19723 * msPerDay.

Definition at_ (hours minutes : Z) : Date :=
  monday + (hours * 60 + minutes) * msPerMinute.

Definition hoursMonday : Temporal.BusinessHours :=
  Temporal.mkBusinessHours "hours-1" "store-1" 1 "09:00" "18:00" false.

Definition haircut : Service := mkService "service-1" "store-1" "haircut" 30 true.

Definition barberA : Barber := mkBarber "barber-A" "store-1" "A" true.
Definition barberB : Barber := mkBarber "barber-B" "store-1" "B" true.

Definition bookingOf (id barberId : string) (startTime endTime : Date)
    (status : BookingStatus) : Booking :=
  mkBooking id "store-1" barberId "service-1" "customer" "contact" line
    startTime endTime status None.

(** One barber, whose last half hour of the day is booked. *)
Definition dbClosing : DB :=
  mkDB [haircut] [hoursMonday] [barberA]
       [bookingOf "booking-1" "barber-A" (at_ 17 30) (at_ 18 0) confirmed].

Definition requestClosing : BookingConflictCheck :=
  mkBookingConflictCheck "store-1" (Some "barber-A") "service-1"
    (at_ 17 30) (at_ 18 0) None.

(** Two barbers; A is booked 10:00-10:30, B is free all day. *)
Definition dbTwoBarbers : DB :=
  mkDB [haircut] [hoursMonday] [barberA; barberB]
       [bookingOf "booking-1" "barber-A" (at_ 10 0) (at_ 10 30) confirmed].

Definition requestTwoBarbers : BookingConflictCheck :=
  mkBookingConflictCheck "store-1" (Some "barber-A") "service-1"
    (at_ 10 0) (at_ 10 30) None.

(** One barber, booked 10:00-10:30; the request names no barber. *)
Definition dbOneBusy : DB :=
  mkDB [haircut] [hoursMonday] [barberA]
       [bookingOf "booking-1" "barber-A" (at_ 10 0) (at_ 10 30) confirmed].

Definition requestNoBarber : BookingConflictCheck :=
  mkBookingConflictCheck "store-1" None "service-1" (at_ 10 0) (at_ 10 30) None.

(** One barber whose only booking, 10:00-10:30, is completed. *)
Definition completedBooking : Booking :=
  bookingOf "booking-1" "barber-A" (at_ 10 0) (at_ 10 30) completed.

Definition dbCompleted : DB :=
  mkDB [haircut] [hoursMonday] [barberA] [completedBooking].

(** One barber and no booking. *)
Definition dbFree : DB := mkDB [haircut] [hoursMonday] [barberA] [].

Definition queryFree : CalendarService.AvailabilityQuery :=
  CalendarService.mkAvailabilityQuery "store-1" monday "service-1" None None.

(** Eight hours of opening, 09:00-17:00. *)
Definition hoursEight : Temporal.BusinessHours :=
  Temporal.mkBusinessHours "hours-1" "store-1" 1 "09:00" "17:00" false.

(** A booking that starts when the interval 10:00-10:30 ends. *)
Definition bookingAfter : Booking :=
  bookingOf "booking-3" "barber-A" (at_ 10 30) (at_ 11 0) confirmed.

(** Booking "booking-1" of [dbOneBusy] checked against its own time. *)
Definition requestRescheduleSame : BookingConflictCheck :=
  mkBookingConflictCheck "store-1" (Some "barber-A") "service-1"
    (at_ 10 0) (at_ 10 30) (Some "booking-1").

Definition updateSameTime : BookingService.UpdateBookingRequest :=
  BookingService.mkUpdateBookingRequest "booking-1" None None
    (Some (ValidDate (at_ 10 0))) None None None None.

(** Requests made at 08:00 for 08:20 the same day. *)
Definition createTooSoon : BookingService.CreateBookingRequest :=
  BookingService.mkCreateBookingRequest "store-1" (Some "barber-A") "service-1"
    (ValidDate (at_ 8 20)) "customer" "contact" line None.

Definition updateTooSoon : BookingService.UpdateBookingRequest :=
  BookingService.mkUpdateBookingRequest "booking-1" None None
    (Some (ValidDate (at_ 8 20))) None None None None.

End Scenarios.

(** ** More helpers of [src/types/index.ts] *)

Module BusinessHoursUtils.
Import Temporal.

(** [validateBusinessHoursLogic]: one message per open day whose opening
    minutes are not below its closing minutes. *)
Fixpoint validateBusinessHoursLogic (businessHours : list BusinessHours) : list string :=
  match businessHours with
  | [] => []
  | hours :: rest =>
      (if negb (bh_isClosed hours) then
         let openMinutes := timeToMinutes (bh_openTime hours) in
         let closeMinutes := timeToMinutes (bh_closeTime hours) in
         if nan_leb closeMinutes openMinutes
         then [("第 " ++ toString (bh_dayOfWeek hours)
                ++ " 天的開始時間不能晚於或等於結束時間")%string]
         else []
       else [])
      ++ validateBusinessHoursLogic rest
  end.

(** A text without the separator of [split(':')]. *)
Fixpoint noColon (s : string) : bool :=
  match s with
  | EmptyString => true
  | String c r => negb (Ascii.eqb c ":"%char) && noColon r
  end.

End BusinessHoursUtils.

Module ServiceTime.
Import DateFns ConflictDetectionService.

(** [isValidServiceDuration]:
    [Number.isInteger(duration) && duration > 0 && duration <= 480] *)
Definition isValidServiceDuration (duration : number) : bool :=
  Number_isInteger duration && number_gtb duration 0 && number_leb duration 480.

(** [date.getMinutes()] and [date.setMinutes(m)] on the store-local clock:
    the minute field is replaced and the time value renormalised, the
    seconds and milliseconds are kept. *)
Definition getMinutes (date : Date) : Z := (date / msPerMinute) mod 60.

Definition setMinutes (date : Date) (minutes : Z) : Date :=
  date - getMinutes date * msPerMinute + minutes * msPerMinute.

(** [calculateServiceEndTime] *)
Definition calculateServiceEndTime (startTime : Date) (durationMinutes : Z) : Date :=
  let endTime := startTime in
  setMinutes endTime (getMinutes endTime + durationMinutes).

(** [canServiceFitInTimeSlot]: the division is the exact one. *)
Definition canServiceFitInTimeSlot (startTime endTime : Date) (serviceDuration : Z) : bool :=
  let availableMinutes := (inject_Z (endTime - startTime) / inject_Z (1000 * 60))%Q in
  Qle_bool (inject_Z serviceDuration) availableMinutes.

End ServiceTime.

(** ** Cancelling ([BookingService.cancelBooking]) *)

Module BookingCancel.
Import Prisma DateFns ConflictDetectionService BookingService.

(** The line feed of the template text. *)
Definition newline : string := String (ascii_of_nat 10) EmptyString.

(** [cancelBooking]: the status becomes [cancelled]; a truthy [reason] is
    appended to the notes, or becomes the notes when there are none. *)
Definition cancelBooking (db : DB) (bookingId : string) (reason : option string)
  : M (BookingResult * DB) :=
  booking <- query (booking_findUnique bookingId)
               (find (fun b => String.eqb (booking_id b) bookingId) (bookings db)) ;;
  match booking with
  | None => ret (failure (Some "找不到指定的預約"), db)
  | Some booking =>
      if status_eqb (booking_status booking) cancelled
      then ret (failure (Some "預約已經被取消"), db)
      else
        let notes :=
          if truthy reason then
            Some (if truthy (booking_notes booking)
                  then (orElse (booking_notes booking) EmptyString ++ newline
                        ++ "取消原因: " ++ orElse reason EmptyString)%string
                  else ("取消原因: " ++ orElse reason EmptyString)%string)
          else None in
        let updateData := mkUpdateData None None notes (Some cancelled)
                            None None None None in
        let row := applyUpdate updateData booking in
        match includeNames db row with
        | None => ret (failure (Some "取消預約時發生錯誤"), db)
        | Some view =>
            query (booking_update bookingId)
              (mkBookingResult true (Some view) None None,
               mkDB (services db) (businessHours db) (barbers db)
                    (map (fun b => if String.eqb (booking_id b) bookingId
                                   then row else b)
                         (bookings db)))
        end
  end.

End BookingCancel.

(** ** Statements about the tables *)

Module Tables.
Import Prisma DateFns CalendarService.

(** The bookings that are not cancelled, in storage order. *)
Definition liveBookings (db : DB) : list Booking :=
  filter (fun b => negb (status_eqb (booking_status b) cancelled)) (bookings db).

(** Two states of the tables that differ at most in cancelled bookings. *)
Definition sameLive (db1 db2 : DB) : Prop :=
  services db1 = services db2
  /\ businessHours db1 = businessHours db2
  /\ barbers db1 = barbers db2
  /\ liveBookings db1 = liveBookings db2.

(** Strict overlap of the intervals of two bookings. *)
Definition bookingsOverlap (a b : Booking) : Prop :=
  booking_startTime a < booking_endTime b /\ booking_startTime b < booking_endTime a.

(** No two bookings of one barber of one store that are not cancelled
    overlap. *)
Definition noDoubleBooking (l : list Booking) : Prop :=
  forall i j a b,
    nth_error l i = Some a ->
    nth_error l j = Some b ->
    i <> j ->
    booking_storeId a = booking_storeId b ->
    booking_barberId a = booking_barberId b ->
    booking_status a <> cancelled ->
    booking_status b <> cancelled ->
    ~ bookingsOverlap a b.

(** Order of slots by start time. *)
Definition startsNotAfter (a b : TimeSlot) : Prop := slot_startTime a <= slot_startTime b.

End Tables.

(** ** More concrete stores *)

Module MoreScenarios.
Import Prisma DateFns ConflictDetectionService Scenarios.

(** The tables of [dbOneBusy] after its booking was cancelled. *)
Definition dbCancelled : DB :=
  mkDB [haircut] [hoursMonday] [barberA]
       [bookingOf "booking-1" "barber-A" (at_ 10 0) (at_ 10 30) cancelled].

(** A request made at 08:00 for 09:00 with barber A. *)
Definition createAtNine : BookingService.CreateBookingRequest :=
  BookingService.mkCreateBookingRequest "store-1" (Some "barber-A") "service-1"
    (ValidDate (at_ 9 0)) "customer" "contact" line None.

(** The same request without a barber. *)
Definition createAtNineAnyBarber : BookingService.CreateBookingRequest :=
  BookingService.mkCreateBookingRequest "store-1" None "service-1"
    (ValidDate (at_ 9 0)) "customer" "contact" line None.

Definition requestAtNine : BookingConflictCheck :=
  mkBookingConflictCheck "store-1" (Some "barber-A") "service-1"
    (at_ 9 0) (at_ 9 30) None.

(** Barber A with two bookings in a row, 10:00-10:30 and 10:30-11:00. *)
Definition dbTwoBookings : DB :=
  mkDB [haircut] [hoursMonday] [barberA]
       [bookingOf "booking-1" "barber-A" (at_ 10 0) (at_ 10 30) confirmed;
        bookingAfter].

(** Moving "booking-1" to 11:00. *)
Definition updateToEleven : BookingService.UpdateBookingRequest :=
  BookingService.mkUpdateBookingRequest "booking-1" None None
    (Some (ValidDate (at_ 11 0))) None None None None.

(** Requests whose start time is an [Invalid Date], as
    [new Date(`${body.date}T${startTimeStr}:00`)] gives for a body without
    [date]. *)
Definition createInvalidDate : BookingService.CreateBookingRequest :=
  BookingService.mkCreateBookingRequest "store-1" (Some "barber-A") "service-1"
    InvalidDate "customer" "contact" email None.

Definition createInvalidDateAnyBarber : BookingService.CreateBookingRequest :=
  BookingService.mkCreateBookingRequest "store-1" None "service-1"
    InvalidDate "customer" "contact" email None.

Definition updateInvalidDate : BookingService.UpdateBookingRequest :=
  BookingService.mkUpdateBookingRequest "booking-1" None None
    (Some InvalidDate) None None None None.

(** Barber A on Monday: a cancelled booking at 10:00, a completed one at
    11:00 and a confirmed one at 12:00. *)
Definition dbMixed : DB :=
  mkDB [haircut] [hoursMonday] [barberA]
       [bookingOf "booking-1" "barber-A" (at_ 10 0) (at_ 10 30) cancelled;
        bookingOf "booking-2" "barber-A" (at_ 11 0) (at_ 11 30) completed;
        bookingOf "booking-3" "barber-A" (at_ 12 0) (at_ 12 30) confirmed].

(** Completing "booking-1" with a note. *)
Definition updateNotes : BookingService.UpdateBookingRequest :=
  BookingService.mkUpdateBookingRequest "booking-1" None None None
    None None (Some "window seat") (Some completed).

End MoreScenarios.

(** * Properties *)

(** ** Interval overlap *)

Section Overlap.
Import Prisma ConflictDetectionService.

Lemma overlapClause_spec (startTime endTime : Z) (b : Booking) :
  overlapClause startTime endTime b = true <->
  (booking_startTime b <= startTime < booking_endTime b)
  \/ (booking_startTime b < endTime <= booking_endTime b)
  \/ (startTime <= booking_startTime b /\ booking_endTime b <= endTime).
Proof.
  unfold overlapClause.
  rewrite !orb_true_iff, !andb_true_iff, !Z.leb_le, !Z.ltb_lt. tauto.
Qed.

(** [isTimeRangeOverlap] is the strict test on the minutes its texts hold. *)
Lemma isTimeRangeOverlap_strict (start1 end1 start2 end2 : string) (a b c d : Z) :
  Temporal.timeToMinutes start1 = Some a ->
  Temporal.timeToMinutes end1 = Some b ->
  Temporal.timeToMinutes start2 = Some c ->
  Temporal.timeToMinutes end2 = Some d ->
  Temporal.isTimeRangeOverlap start1 end1 start2 end2 = ((a <? d) && (c <? b)).
Proof.
  intros Ha Hb Hc Hd. unfold Temporal.isTimeRangeOverlap.
  rewrite Ha, Hb, Hc, Hd. reflexivity.
Qed.

(** C4: for two intervals that are not empty, the three-clause condition of
    the conflict query holds exactly when the strict overlap test
    [aStart < bEnd && bStart < aEnd] holds, which is also the test of the
    slot listing, and neither holds for intervals that only touch at an end
    point. *)
Theorem overlapClause_iff_strict_overlap :
  forall (aStart aEnd : Z) (b : Booking),
    aStart < aEnd ->
    booking_startTime b < booking_endTime b ->
    overlapClause aStart aEnd b
      = ((aStart <? booking_endTime b) && (booking_startTime b <? aEnd))
    /\ overlapClause aStart aEnd b = CalendarService.slotOverlaps aStart aEnd b
    /\ (booking_endTime b = aStart \/ booking_startTime b = aEnd ->
        overlapClause aStart aEnd b = false
        /\ ((aStart <? booking_endTime b) && (booking_startTime b <? aEnd)) = false).
Proof.
  intros aStart aEnd b Ha Hb.
  assert (E : overlapClause aStart aEnd b
              = ((aStart <? booking_endTime b) && (booking_startTime b <? aEnd))).
  { apply eq_true_iff_eq.
    rewrite overlapClause_spec, andb_true_iff, !Z.ltb_lt. lia. }
  split; [exact E|]. split; [exact E|].
  intros Htouch. rewrite E. split; apply andb_false_iff;
    rewrite !Z.ltb_ge; lia.
Qed.

Lemma overlapClause_iff_strict_overlap_witness :
  overlapClause (Scenarios.at_ 10 0) (Scenarios.at_ 10 30) Scenarios.bookingAfter = false
  /\ ((Scenarios.at_ 10 0 <? booking_endTime Scenarios.bookingAfter)
      && (booking_startTime Scenarios.bookingAfter <? Scenarios.at_ 10 30)) = false.
Proof.
  apply (proj2 (proj2 (overlapClause_iff_strict_overlap (Scenarios.at_ 10 0)
                         (Scenarios.at_ 10 30) Scenarios.bookingAfter eq_refl eq_refl))).
  right. reflexivity.
Defined.

End Overlap.

(** ** The slot enumerator of [src/types/index.ts] *)

Section SlotEnumerator.
Import Temporal.

(** The expectations of the unit tests of the business-hours helpers. *)
Example timeToMinutes_examples :
  map timeToMinutes ["09:00"; "12:30"; "18:45"; "00:00"; "23:59"]
  = [Some 540; Some 750; Some 1125; Some 0; Some 1439].
Proof. reflexivity. Qed.

Example minutesToTime_examples :
  map minutesToTime [540; 750; 1125; 0; 1439]
  = ["09:00"; "12:30"; "18:45"; "00:00"; "23:59"].
Proof. reflexivity. Qed.

Example getAvailableTimeSlots_examples :
  let businessHours := mkBusinessHours "hours-1" "store-1" 1 "09:00" "12:00" false in
  let closedDay := mkBusinessHours "hours-1" "store-1" 1 "09:00" "12:00" true in
  getAvailableTimeSlots businessHours 60 30
    = Some ["09:00"; "09:30"; "10:00"; "10:30"; "11:00"]
  /\ getAvailableTimeSlots closedDay 60 30 = Some []
  /\ getAvailableTimeSlots businessHours 240 30 = Some [].
Proof. repeat split; reflexivity. Qed.

Lemma slotCount_step (m d c s : Z) :
  0 < s -> m + d <= c ->
  slotCount m d c s = S (slotCount (m + s) d c s).
Proof.
  intros Hs Hm. unfold slotCount.
  destruct (Z.leb_spec (m + d) c) as [_|]; [|lia].
  destruct (Z.leb_spec (m + s + d) c) as [H|H].
  - replace (c - d - m) with ((c - d - (m + s)) + 1 * s) by lia.
    rewrite Z.div_add by lia.
    assert (0 <= (c - d - (m + s)) / s) by (apply Z.div_pos; lia).
    lia.
  - rewrite Z.div_small by lia. reflexivity.
Qed.

Lemma slotCount_bound (m d c s : Z) (k : nat) :
  0 < s ->
  (k < slotCount m d c s)%nat <-> m + Z.of_nat k * s + d <= c.
Proof.
  intros Hs. unfold slotCount.
  destruct (Z.leb_spec (m + d) c) as [H|H].
  - assert (0 <= (c - d - m) / s) by (apply Z.div_pos; lia).
    split; intros Hk.
    + assert (Z.of_nat k <= (c - d - m) / s) by lia.
      assert (s * ((c - d - m) / s) <= c - d - m) by (apply Z.mul_div_le; lia).
      nia.
    + assert (Z.of_nat k <= (c - d - m) / s)
        by (apply Z.div_le_lower_bound; lia).
      lia.
  - split; intros Hk; [lia|]. nia.
Qed.

Lemma slots_loop_lattice (fuel : nat) :
  forall m d c s,
    0 < s ->
    (Z.to_nat (c - d - m + 1) <= fuel)%nat ->
    slots_loop fuel m d c s
    = Some (map (fun k => minutesToTime (m + Z.of_nat k * s))
                (seq 0 (slotCount m d c s))).
Proof.
  induction fuel as [|fuel IH]; intros m d c s Hs Hfuel.
  - simpl. destruct (Z.leb_spec (m + d) c) as [H|H]; [lia|].
    unfold slotCount. destruct (Z.leb_spec (m + d) c); [lia|reflexivity].
  - simpl. destruct (Z.leb_spec (m + d) c) as [H|H].
    + rewrite IH by lia.
      rewrite (slotCount_step m d c s Hs H). simpl.
      rewrite <- seq_shift, map_map. do 2 f_equal.
      * f_equal. lia.
      * apply map_ext. intros k. f_equal. lia.
    + unfold slotCount. destruct (Z.leb_spec (m + d) c); [lia|reflexivity].
Qed.

(** With a step that is not positive the loop never ends once it is
    entered: no bound on the rounds is enough. *)
Lemma slots_loop_diverges (fuel : nat) :
  forall m d c s, s <= 0 -> m + d <= c -> slots_loop fuel m d c s = None.
Proof.
  induction fuel as [|fuel IH]; intros m d c s Hs Hm; simpl;
    destruct (Z.leb_spec (m + d) c); try lia; [reflexivity|].
  rewrite IH by lia. reflexivity.
Qed.

(** The times of day as the statements below write them. *)
Example clockText_examples :
  map SpecWords.clockText [0; 540; 570; 765; 1439]
  = ["00:00"; "09:00"; "09:30"; "12:45"; "23:59"]
  /\ SpecWords.shortClockText 540 = "9:00".
Proof. split; reflexivity. Qed.

(** A property checked on every number below a bound holds below it. *)
Lemma forallb_below (P : Z -> bool) (n : nat) :
  forallb P (map Z.of_nat (seq 0 n)) = true ->
  forall m, 0 <= m < Z.of_nat n -> P m = true.
Proof.
  intros Hall m Hm. rewrite forallb_forall in Hall. apply Hall.
  apply in_map_iff. exists (Z.to_nat m). split; [lia|].
  apply in_seq. lia.
Qed.

Lemma timeToMinutes_clockText (m : Z) :
  0 <= m < 24 * 60 -> timeToMinutes (SpecWords.clockText m) = Some m.
Proof.
  intros Hm.
  assert (Hall : forallb (fun m => match timeToMinutes (SpecWords.clockText m) with
                                   | Some x => x =? m
                                   | None => false
                                   end)
                         (map Z.of_nat (seq 0 1440)) = true)
    by (vm_compute; reflexivity).
  assert (H := forallb_below _ _ Hall m). cbv beta in H.
  specialize (H ltac:(lia)). destruct (timeToMinutes (SpecWords.clockText m)) as [x|];
    [|discriminate].
  apply Z.eqb_eq in H. congruence.
Qed.

Lemma timeToMinutes_shortClockText (m : Z) :
  0 <= m < 10 * 60 -> timeToMinutes (SpecWords.shortClockText m) = Some m.
Proof.
  intros Hm.
  assert (Hall : forallb (fun m => match timeToMinutes (SpecWords.shortClockText m) with
                                   | Some x => x =? m
                                   | None => false
                                   end)
                         (map Z.of_nat (seq 0 600)) = true)
    by (vm_compute; reflexivity).
  assert (H := forallb_below _ _ Hall m). cbv beta in H.
  specialize (H ltac:(lia)). destruct (timeToMinutes (SpecWords.shortClockText m)) as [x|];
    [|discriminate].
  apply Z.eqb_eq in H. congruence.
Qed.

Lemma timeToMinutes_readsAs (text : string) (m : Z) :
  SpecWords.readsAs text m -> timeToMinutes text = Some m.
Proof.
  intros [Hm [->|[Hshort ->]]].
  - apply timeToMinutes_clockText. exact Hm.
  - apply timeToMinutes_shortClockText. lia.
Qed.

Lemma minutesToTime_clockText (m : Z) :
  0 <= m < 24 * 60 -> minutesToTime m = SpecWords.clockText m.
Proof.
  intros Hm. apply String.eqb_eq.
  assert (Hall : forallb (fun m => String.eqb (minutesToTime m) (SpecWords.clockText m))
                         (map Z.of_nat (seq 0 1440)) = true)
    by (vm_compute; reflexivity).
  assert (H := forallb_below _ _ Hall m). cbv beta in H. apply H. lia.
Qed.

(** C7: on an open day whose hours are the times of day [open] and [close],
    for a duration that is not negative and a positive step (whole
    minutes), the enumerator returns the texts "HH:mm" of [open + k*step]
    for [k = 0, 1, ..., n-1], in this order, where [k < n] exactly when
    [open + k*step + duration <= close]; it returns the empty list, and does
    not throw, when the day is closed and when the duration exceeds
    [close - open]; and a 480-minute service on 09:00-17:00 with step 30
    gives the one slot "09:00". *)
Theorem getAvailableTimeSlots_lattice :
  forall (businessHours : BusinessHours) (serviceDuration slotInterval : Z),
    0 < slotInterval ->
    (bh_isClosed businessHours = true ->
     getAvailableTimeSlots businessHours serviceDuration slotInterval = Some [])
    /\ (forall openMinutes closeMinutes,
          bh_isClosed businessHours = false ->
          SpecWords.readsAs (bh_openTime businessHours) openMinutes ->
          SpecWords.readsAs (bh_closeTime businessHours) closeMinutes ->
          0 <= serviceDuration ->
          (exists n : nat,
              getAvailableTimeSlots businessHours serviceDuration slotInterval
              = Some (map (fun k => SpecWords.clockText
                                      (openMinutes + Z.of_nat k * slotInterval))
                          (seq 0 n))
              /\ forall k : nat,
                  (k < n)%nat <->
                  openMinutes + Z.of_nat k * slotInterval + serviceDuration
                    <= closeMinutes)
          /\ (closeMinutes - openMinutes < serviceDuration ->
              getAvailableTimeSlots businessHours serviceDuration slotInterval
              = Some []))
    /\ getAvailableTimeSlots (mkBusinessHours "hours-1" "store-1" 1 "09:00" "17:00" false)
         480 30 = Some ["09:00"].
Proof.
  intros bh d s Hs. split; [|split].
  - intros Hclosed. unfold getAvailableTimeSlots, getAvailableTimeSlots_fuel.
    rewrite Hclosed. reflexivity.
  - intros o c Hopen Ho Hc Hd.
    assert (Ho' := timeToMinutes_readsAs _ _ Ho).
    assert (Hc' := timeToMinutes_readsAs _ _ Hc).
    destruct Ho as [Ho _]. destruct Hc as [Hc _].
    assert (E : getAvailableTimeSlots bh d s
                = Some (map (fun k => minutesToTime (o + Z.of_nat k * s))
                            (seq 0 (slotCount o d c s)))).
    { unfold getAvailableTimeSlots, getAvailableTimeSlots_fuel, slots_fuel.
      rewrite Hopen, Ho', Hc'. apply slots_loop_lattice; [exact Hs|lia]. }
    split.
    + exists (slotCount o d c s). split.
      * rewrite E. f_equal. apply map_ext_in. intros k Hk.
        apply in_seq in Hk.
        assert (Hbound : o + Z.of_nat k * s + d <= c)
          by (apply slotCount_bound; [exact Hs|lia]).
        apply minutesToTime_clockText. nia.
      * intros k. apply slotCount_bound. exact Hs.
    + intros Hlong. rewrite E. unfold slotCount.
      destruct (Z.leb_spec (o + d) c); [lia|reflexivity].
  - reflexivity.
Qed.

(** The hours 09:30-12:45 with a 60-minute service every 30 minutes. *)
Lemma getAvailableTimeSlots_lattice_witness :
  exists n : nat,
    getAvailableTimeSlots
      (mkBusinessHours "hours-1" "store-1" 1 "09:30" "12:45" false) 60 30
    = Some (map (fun k => SpecWords.clockText (570 + Z.of_nat k * 30)) (seq 0 n))
    /\ forall k : nat, (k < n)%nat <-> 570 + Z.of_nat k * 30 + 60 <= 765.
Proof.
  refine (proj1 (proj1 (proj2 (getAvailableTimeSlots_lattice
                                 (mkBusinessHours "hours-1" "store-1" 1 "09:30" "12:45"
                                    false)
                                 60 30 eq_refl))
                   570 765 eq_refl _ _ _)).
  - split; [lia|left; reflexivity].
  - split; [lia|left; reflexivity].
  - lia.
Defined.

End SlotEnumerator.

(** ** The query log *)

Section QueryLog.
Import Prisma.

Lemma value_bind {A B} (m : M A) (f : A -> M B) :
  value (bind m f) = value (f (value m)).
Proof. destruct m as [a l]. simpl. destruct (f a). reflexivity. Qed.

Lemma queries_bind {A B} (m : M A) (f : A -> M B) :
  queries (bind m f) = queries m ++ queries (f (value m)).
Proof. destruct m as [a l]. simpl. destruct (f a). reflexivity. Qed.

Lemma run_ext {A} (m n : M A) :
  value m = value n -> queries m = queries n -> m = n.
Proof. destruct m, n. simpl. congruence. Qed.

Lemma bind_ext {A B} (m m' : M A) (f g : A -> M B) :
  m = m' -> (forall a, f a = g a) -> bind m f = bind m' g.
Proof. intros <- H. destruct m as [a l]. simpl. rewrite H. reflexivity. Qed.

Lemma bind_congr {A B} (m : M A) (f g : A -> M B) :
  f (value m) = g (value m) -> bind m f = bind m g.
Proof. destruct m as [a l]. simpl. intros ->. reflexivity. Qed.

Lemma In_firstn {A} (n : nat) (l : list A) (x : A) :
  In x (firstn n l) -> In x l.
Proof.
  intros H. rewrite <- (firstn_skipn n l). apply in_or_app. left. exact H.
Qed.

Lemma status_eqb_eq (a b : BookingStatus) : status_eqb a b = true <-> a = b.
Proof. destruct a, b; simpl; split; congruence. Qed.

End QueryLog.

(** ** The alternative search *)

Section AlternativeSearch.
Import Prisma DateFns ConflictDetectionService SpecWords Scenarios.

Lemma ladder_full (db : DB) (storeId : string) (ex : option string)
    (windows : list (Date * Date)) (collected : list Alternative) :
  (5 <= List.length collected)%nat ->
  ladder db storeId ex windows collected = ret collected.
Proof.
  intros H. destruct windows as [|w rest]; cbn [ladder]; [reflexivity|].
  destruct (Nat.ltb_spec (List.length collected) 5); [lia|reflexivity].
Qed.

Lemma scanSlots_ladder (db : DB) (storeId : string) (ex : option string)
    (windows : list (Date * Date)) :
  forall collected,
    (List.length collected < 5)%nat ->
    scanSlots db storeId ex windows collected = ladder db storeId ex windows collected.
Proof.
  induction windows as [|w rest IH]; intros collected Hlen;
    cbn [scanSlots ladder]; [reflexivity|].
  destruct (Nat.ltb_spec (List.length collected) 5) as [_|]; [|lia].
  apply bind_congr.
  destruct (Nat.leb_spec 5 (List.length (collected ++ value
              (findAvailableBarbers db storeId (fst w) (snd w) ex)))) as [H|H].
  - rewrite ladder_full by exact H. reflexivity.
  - apply IH. exact H.
Qed.

Lemma scanBarbers_In (db : DB) (storeId : string) (s e : Date) (ex : option string)
    (a : Alternative) :
  forall roster,
    In a (value (scanBarbers db storeId roster s e ex)) ->
    exists b, In b roster
              /\ a = mkAlternative (barber_id b) (barber_name b) s e
              /\ ok (value (checkBarberAvailability db storeId (barber_id b) s e ex)) = true.
Proof.
  induction roster as [|b rest IH]; cbn [scanBarbers]; intros H.
  - contradiction.
  - rewrite !value_bind in H.
    destruct (ok (value (checkBarberAvailability db storeId (barber_id b) s e ex)))
      eqn:Hok; cbn [ret value fst] in H.
    + destruct H as [H|H].
      * exists b. repeat split; [left; reflexivity|congruence|exact Hok].
      * destruct (IH H) as (b' & Hin & Hrest). exists b'. split; [right|]; assumption.
    + destruct (IH H) as (b' & Hin & Hrest). exists b'. split; [right|]; assumption.
Qed.

Lemma findAvailableBarbers_In (db : DB) (storeId : string) (s e : Date)
    (ex : option string) (a : Alternative) :
  In a (value (findAvailableBarbers db storeId s e ex)) ->
  exists b, In b (barbers db)
            /\ barber_storeId b = storeId
            /\ barber_isActive b = true
            /\ a = mkAlternative (barber_id b) (barber_name b) s e
            /\ ok (value (checkBarberAvailability db storeId (barber_id b) s e ex)) = true.
Proof.
  unfold findAvailableBarbers. rewrite value_bind. cbn [query value fst].
  intros H. apply scanBarbers_In in H. destruct H as (b & Hin & Ha & Hok).
  apply filter_In in Hin. destruct Hin as [Hin Hb].
  apply andb_true_iff in Hb. destruct Hb as [Hstore Hactive].
  apply String.eqb_eq in Hstore.
  exists b. repeat split; assumption.
Qed.

Lemma scanSlots_In (db : DB) (storeId : string) (ex : option string) (a : Alternative) :
  forall windows collected,
    In a (value (scanSlots db storeId ex windows collected)) ->
    In a collected
    \/ exists w, In w windows
                 /\ In a (value (findAvailableBarbers db storeId (fst w) (snd w) ex)).
Proof.
  induction windows as [|w rest IH]; intros collected; cbn [scanSlots]; intros H.
  - left. exact H.
  - rewrite value_bind in H.
    set (found := value (findAvailableBarbers db storeId (fst w) (snd w) ex)) in *.
    assert (Hcase : In a (collected ++ found)
                    \/ exists w', In w' rest
                         /\ In a (value (findAvailableBarbers db storeId (fst w') (snd w') ex))).
    { destruct (5 <=? List.length (collected ++ found))%nat.
      - left. exact H.
      - apply IH. exact H. }
    destruct Hcase as [Hin|(w' & Hw' & Hin)].
    + apply in_app_or in Hin. destruct Hin as [Hin|Hin]; [left; exact Hin|].
      right. exists w. split; [left; reflexivity|exact Hin].
    + right. exists w'. split; [right; exact Hw'|exact Hin].
Qed.

(** Every alternative comes from one availability scan, at the preferred
    interval or at one of the four shifted ones. *)
Lemma findAlternativeBarbers_In (db : DB) (storeId : string) (ps pe : Date)
    (ex : option string) (a : Alternative) :
  In a (value (findAlternativeBarbers db storeId ps pe ex)) ->
  exists w, In w ((ps, pe) :: timeSlots ps pe)
            /\ In a (value (findAvailableBarbers db storeId (fst w) (snd w) ex)).
Proof.
  unfold findAlternativeBarbers. rewrite !value_bind. cbn [ret value fst].
  intros H. apply In_firstn in H. rewrite !app_nil_l in H.
  destruct (List.length (value (findAvailableBarbers db storeId ps pe ex)) =? 0)%nat.
  - apply scanSlots_In in H. destruct H as [H|(w & Hw & H)].
    + exists (ps, pe). split; [left; reflexivity|exact H].
    + exists w. split; [right; exact Hw|exact H].
  - exists (ps, pe). split; [left; reflexivity|exact H].
Qed.

(** The part of C1 that holds: every alternative names an active barber of
    the store who has no conflicting booking in the returned interval. *)
Lemma findAlternativeBarbers_available (db : DB) (storeId : string) (ps pe : Date)
    (ex : option string) (a : Alternative) :
  In a (value (findAlternativeBarbers db storeId ps pe ex)) ->
  ok (value (checkBarberAvailability db storeId (alt_barberId a)
               (alt_startTime a) (alt_endTime a) ex)) = true.
Proof.
  intros H. apply findAlternativeBarbers_In in H. destruct H as (w & _ & H).
  apply findAvailableBarbers_In in H. destruct H as (b & _ & _ & _ & -> & Hok).
  exact Hok.
Qed.

(** C1 fails on the code: with the last half hour of the day (17:30-18:00)
    booked, the alternatives offered for it include 18:00-18:30, which the
    business-hours check of the same service rejects, and which the
    calendar's own availability test calls unavailable. *)
Theorem findAlternativeBarbers_outside_hours :
  suggestedAlternatives (value (checkBookingConflicts dbClosing requestClosing))
    = Some [mkAlternative "barber-A" "A" (at_ 17 0) (at_ 17 30);
            mkAlternative "barber-A" "A" (at_ 18 0) (at_ 18 30);
            mkAlternative "barber-A" "A" (at_ 16 30) (at_ 17 0);
            mkAlternative "barber-A" "A" (at_ 18 30) (at_ 19 0)]
  /\ value (checkBusinessHours dbClosing "store-1" (at_ 18 0) (at_ 18 30))
     = Some (mkVerdict false (Some "營業時間為 09:00 - 18:00"))
  /\ conflictType (value (checkBookingConflicts dbClosing
                            (mkBookingConflictCheck "store-1" (Some "barber-A")
                               "service-1" (at_ 18 0) (at_ 18 30) None)))
     = Some outside_business_hours
  /\ value (CalendarService.isTimeSlotAvailable dbClosing "store-1" "barber-A"
              (at_ 18 0) (at_ 18 30)) = false.
Proof. repeat split; vm_compute; reflexivity. Qed.

Lemma scanSlots_firstn (db : DB) (storeId : string) (ex : option string)
    (windows : list (Date * Date)) :
  forall collected,
    firstn 5 (value (scanSlots db storeId ex windows collected))
    = firstn 5 (collected
                ++ flat_map (fun w => value (findAvailableBarbers db storeId
                                               (fst w) (snd w) ex))
                            windows).
Proof.
  induction windows as [|w rest IH]; intros collected; cbn [scanSlots flat_map].
  - cbn [ret value fst]. rewrite app_nil_r. reflexivity.
  - rewrite value_bind.
    set (found := value (findAvailableBarbers db storeId (fst w) (snd w) ex)).
    rewrite app_assoc.
    destruct (Nat.leb_spec 5 (List.length (collected ++ found))) as [H|H].
    + cbn [ret value fst]. rewrite (firstn_app 5 (collected ++ found)).
      replace (5 - List.length (collected ++ found))%nat with O by lia.
      rewrite firstn_0, app_nil_r. reflexivity.
    + apply IH.
Qed.

(** C2, as the code has it: the shifted intervals are tried only when the
    exact interval gave no alternative; they are then tried in the order
    -30, +30, -60, +60 while fewer than five are held, and at most five
    entries are returned, the first five found in that order.  When the
    exact interval gives an alternative, no other interval is queried. *)
Theorem findAlternativeBarbers_amended_refines :
  forall (db : DB) (storeId : string) (preferredStartTime preferredEndTime : Date)
         (excludeBookingId : option string),
    findAlternativeBarbers db storeId preferredStartTime preferredEndTime excludeBookingId
    = findAlternativeBarbers_amended db storeId preferredStartTime preferredEndTime
        excludeBookingId
    /\ (List.length (value (findAlternativeBarbers db storeId preferredStartTime
                              preferredEndTime excludeBookingId)) <= 5)%nat
    /\ (value (findAvailableBarbers db storeId preferredStartTime preferredEndTime
                 excludeBookingId) <> [] ->
        findAlternativeBarbers db storeId preferredStartTime preferredEndTime
          excludeBookingId
        = (firstn 5 (value (findAvailableBarbers db storeId preferredStartTime
                              preferredEndTime excludeBookingId)),
           queries (findAvailableBarbers db storeId preferredStartTime
                      preferredEndTime excludeBookingId)))
    /\ (value (findAvailableBarbers db storeId preferredStartTime preferredEndTime
                 excludeBookingId) = [] ->
        value (findAlternativeBarbers db storeId preferredStartTime preferredEndTime
                 excludeBookingId)
        = firstn 5
            (flat_map (fun w => value (findAvailableBarbers db storeId (fst w) (snd w)
                                         excludeBookingId))
               [ (addMinutes preferredStartTime (-30), addMinutes preferredEndTime (-30));
                 (addMinutes preferredStartTime 30, addMinutes preferredEndTime 30);
                 (addMinutes preferredStartTime (-60), addMinutes preferredEndTime (-60));
                 (addMinutes preferredStartTime 60, addMinutes preferredEndTime 60) ])).
Proof.
  intros db storeId ps pe ex. split; [|split; [|split]].
  - unfold findAlternativeBarbers, findAlternativeBarbers_amended.
    apply bind_congr. cbn [app].
    destruct (value (findAvailableBarbers db storeId ps pe ex)) as [|a same];
      cbn [List.length Nat.eqb].
    + rewrite scanSlots_ladder by (simpl; lia). reflexivity.
    + reflexivity.
  - unfold findAlternativeBarbers. rewrite !value_bind.
    cbv [ret value fst]. rewrite length_firstn. lia.
  - intros Hsame. unfold findAlternativeBarbers.
    apply run_ext.
    + rewrite !value_bind. cbn [app].
      destruct (value (findAvailableBarbers db storeId ps pe ex)) as [|a same];
        [congruence|reflexivity].
    + rewrite !queries_bind, ?value_bind. cbn [app].
      destruct (value (findAvailableBarbers db storeId ps pe ex)) as [|a same];
        [congruence|]. simpl. rewrite !app_nil_r. reflexivity.
  - intros Hnone. unfold findAlternativeBarbers.
    rewrite !value_bind, Hnone. rewrite !app_nil_l.
    cbn [List.length Nat.eqb ret value fst].
    rewrite scanSlots_firstn. reflexivity.
Qed.

(** C2 fails as stated: with barber A booked at 10:00-10:30 and barber B
    free, the request for A gets the single alternative B at 10:00, while
    the search of the specification goes on to 09:30 and 10:30 and returns
    five entries. *)
Lemma findAlternativeBarbers_skips_ladder :
  conflictType (value (checkBookingConflicts dbTwoBarbers requestTwoBarbers))
    = Some barber_unavailable
  /\ suggestedAlternatives (value (checkBookingConflicts dbTwoBarbers requestTwoBarbers))
     = Some [mkAlternative "barber-B" "B" (at_ 10 0) (at_ 10 30)]
  /\ value (findAlternativeBarbers dbTwoBarbers "store-1" (at_ 10 0) (at_ 10 30) None)
     = [mkAlternative "barber-B" "B" (at_ 10 0) (at_ 10 30)]
  /\ value (findAlternativeBarbers_spec dbTwoBarbers "store-1" (at_ 10 0) (at_ 10 30) None)
     = [mkAlternative "barber-B" "B" (at_ 10 0) (at_ 10 30);
        mkAlternative "barber-A" "A" (at_ 9 30) (at_ 10 0);
        mkAlternative "barber-B" "B" (at_ 9 30) (at_ 10 0);
        mkAlternative "barber-A" "A" (at_ 10 30) (at_ 11 0);
        mkAlternative "barber-B" "B" (at_ 10 30) (at_ 11 0)]
  /\ value (findAlternativeBarbers dbTwoBarbers "store-1" (at_ 10 0) (at_ 10 30) None)
     <> value (findAlternativeBarbers_spec dbTwoBarbers "store-1" (at_ 10 0) (at_ 10 30)
                 None).
Proof.
  repeat split; try (vm_compute; reflexivity).
  vm_compute. intros H. discriminate H.
Qed.

Lemma findAlternativeBarbers_amended_refines_witness :
  findAlternativeBarbers dbTwoBarbers "store-1" (at_ 10 0) (at_ 10 30) None
  = (firstn 5 (value (findAvailableBarbers dbTwoBarbers "store-1" (at_ 10 0)
                        (at_ 10 30) None)),
     queries (findAvailableBarbers dbTwoBarbers "store-1" (at_ 10 0) (at_ 10 30) None)).
Proof.
  apply (proj1 (proj2 (proj2 (findAlternativeBarbers_amended_refines dbTwoBarbers
                                "store-1" (at_ 10 0) (at_ 10 30) None)))).
  vm_compute. intros H. discriminate H.
Defined.

End AlternativeSearch.

(** ** The conflict detector *)

Section ConflictDetector.
Import Prisma DateFns ConflictDetectionService SpecWords Scenarios.

(** C3, as the code has it: for a request that names no barber and passes
    the service and business-hours checks, when the scan of the active
    barbers finds nobody free, the result is a [time_overlap] conflict
    saying that every barber is booked, it carries no alternatives, and the
    only queries run are those of the two checks and of that one scan. *)
Theorem checkBookingConflicts_no_barber_free :
  forall (db : DB) (check : BookingConflictCheck),
    truthy (check_barberId check) = false ->
    ok (value (checkServiceAvailability db (check_storeId check)
                 (check_serviceId check))) = true ->
    (exists v, value (checkBusinessHours db (check_storeId check)
                        (check_startTime check) (check_endTime check)) = Some v
               /\ ok v = true) ->
    value (findAvailableBarbers db (check_storeId check) (check_startTime check)
             (check_endTime check) (check_excludeBookingId check)) = [] ->
    value (checkBookingConflicts db check)
    = mkConflictCheckResult true (Some time_overlap)
        (Some "該時段所有理髮師都已被預約") None
    /\ queries (checkBookingConflicts db check)
       = queries (checkServiceAvailability db (check_storeId check)
                    (check_serviceId check))
         ++ queries (checkBusinessHours db (check_storeId check)
                       (check_startTime check) (check_endTime check))
         ++ queries (findAvailableBarbers db (check_storeId check)
                       (check_startTime check) (check_endTime check)
                       (check_excludeBookingId check)).
Proof.
  intros db check Hbarber Hservice (v & Hhours & Hv) Hnone.
  unfold checkBookingConflicts. cbv zeta.
  split.
  - rewrite value_bind, Hservice. cbn [negb].
    rewrite value_bind, Hhours, Hv. cbn [negb].
    destruct (check_barberId check) as [theBarber|]; [rewrite Hbarber|];
      rewrite value_bind, Hnone; reflexivity.
  - rewrite queries_bind, Hservice. cbn [negb].
    rewrite queries_bind, Hhours, Hv. cbn [negb].
    destruct (check_barberId check) as [theBarber|]; [rewrite Hbarber|];
      rewrite queries_bind, Hnone; cbn [List.length Nat.eqb ret queries snd];
      rewrite app_nil_r; reflexivity.
Qed.

(** C3 fails as stated: the only barber is booked at 10:00-10:30, the
    request names no barber, and the result carries no alternatives although
    the alternative search would find the barber free at 09:30 and 10:30. *)
Lemma checkBookingConflicts_no_alternatives :
  check_barberId requestNoBarber = None
  /\ value (findAvailableBarbers dbOneBusy "store-1" (at_ 10 0) (at_ 10 30) None) = []
  /\ conflictType (value (checkBookingConflicts dbOneBusy requestNoBarber))
     = Some time_overlap
  /\ suggestedAlternatives (value (checkBookingConflicts dbOneBusy requestNoBarber)) = None
  /\ value (findAlternativeBarbers dbOneBusy "store-1" (at_ 10 0) (at_ 10 30) None)
     = [mkAlternative "barber-A" "A" (at_ 9 30) (at_ 10 0);
        mkAlternative "barber-A" "A" (at_ 10 30) (at_ 11 0);
        mkAlternative "barber-A" "A" (at_ 9 0) (at_ 9 30);
        mkAlternative "barber-A" "A" (at_ 11 0) (at_ 11 30)]
  /\ suggestedAlternatives (value (checkBookingConflicts dbOneBusy requestNoBarber))
     <> Some (value (findAlternativeBarbers dbOneBusy "store-1" (at_ 10 0) (at_ 10 30)
                       None)).
Proof.
  repeat split; try (vm_compute; reflexivity).
  vm_compute. intros H. discriminate H.
Qed.

Lemma checkBookingConflicts_no_barber_free_witness :
  value (checkBookingConflicts dbOneBusy requestNoBarber)
  = mkConflictCheckResult true (Some time_overlap)
      (Some "該時段所有理髮師都已被預約") None
  /\ queries (checkBookingConflicts dbOneBusy requestNoBarber)
     = queries (checkServiceAvailability dbOneBusy "store-1" "service-1")
       ++ queries (checkBusinessHours dbOneBusy "store-1" (at_ 10 0) (at_ 10 30))
       ++ queries (findAvailableBarbers dbOneBusy "store-1" (at_ 10 0) (at_ 10 30) None).
Proof.
  apply (checkBookingConflicts_no_barber_free dbOneBusy requestNoBarber).
  - reflexivity.
  - vm_compute. reflexivity.
  - exists (mkVerdict true None). split; vm_compute; reflexivity.
  - vm_compute. reflexivity.
Defined.

End ConflictDetector.

(** ** Which bookings take part in a conflict check *)

Section Candidates.
Import Prisma DateFns ConflictDetectionService SpecWords Scenarios.

Lemma excluded_spec (ex : option string) (id : string) :
  (if truthy ex
   then match ex with
        | Some x => negb (String.eqb id x)
        | None => true
        end
   else true) = true
  <-> (truthy ex = true -> ex <> Some id).
Proof.
  destruct ex as [x|]; simpl.
  - destruct (String.eqb_spec x EmptyString); simpl.
    + split; [discriminate|reflexivity].
    + rewrite negb_true_iff. destruct (String.eqb_spec id x); split; try congruence.
      intros H. exfalso. apply (H eq_refl). congruence.
  - split; [discriminate|reflexivity].
Qed.

Lemma whereClause_spec (storeId barberId : string) (s e : Date) (ex : option string)
    (b : Booking) :
  whereClause storeId barberId s e ex b = true
  <-> booking_storeId b = storeId
      /\ booking_barberId b = barberId
      /\ booking_status b <> cancelled
      /\ overlapClause s e b = true
      /\ (truthy ex = true -> ex <> Some (booking_id b)).
Proof.
  unfold whereClause.
  rewrite !andb_true_iff, !String.eqb_eq, negb_true_iff, excluded_spec.
  assert (Hst : status_eqb (booking_status b) cancelled = false
                <-> booking_status b <> cancelled).
  { rewrite <- status_eqb_eq. destruct (status_eqb (booking_status b) cancelled);
      split; congruence. }
  rewrite Hst. tauto.
Qed.

Lemma checkBarberAvailability_available_iff (db : DB) (storeId barberId : string)
    (s e : Date) (ex : option string) (barber : Barber) :
  find (fun x => String.eqb (barber_id x) barberId
                 && String.eqb (barber_storeId x) storeId)
       (barbers db) = Some barber ->
  barber_isActive barber = true ->
  (ok (value (checkBarberAvailability db storeId barberId s e ex)) = true
   <-> filter (whereClause storeId barberId s e ex) (bookings db) = []).
Proof.
  intros Hfind Hactive. unfold checkBarberAvailability.
  rewrite value_bind. cbn [query value fst]. rewrite Hfind, Hactive. cbn [negb].
  rewrite value_bind. cbn [query value fst].
  destruct (filter (whereClause storeId barberId s e ex) (bookings db));
    cbn [ret value fst ok]; split; try reflexivity; discriminate.
Qed.

Lemma filter_nil_iff {A} (f : A -> bool) (l : list A) :
  filter f l = [] <-> forall x, In x l -> f x = false.
Proof.
  induction l as [|a l IH]; cbn [filter].
  - split; [intros _ x []|reflexivity].
  - destruct (f a) eqn:Ha.
    + split; [discriminate|]. intros H. rewrite (H a) in Ha by (left; reflexivity).
      discriminate.
    + rewrite IH. split.
      * intros H x [<-|Hx]; [exact Ha|apply H; exact Hx].
      * intros H x Hx. apply H. right. exact Hx.
Qed.

End Candidates.

(** ** Bounds on what is offered *)

Section Offers.
Import Prisma DateFns ConflictDetectionService SpecWords Scenarios.
Import CalendarService.

Lemma slotsFrom_In (barber : Barber) (businessEnd : Date) (d : Z)
    (existing : list Booking) (slot : TimeSlot) :
  forall fuel currentTime,
    In slot (slotsFrom fuel barber currentTime businessEnd d existing) ->
    slot_barberId slot = barber_id barber
    /\ slot_barberName slot = barber_name barber
    /\ currentTime <= slot_startTime slot
    /\ slot_endTime slot = addMinutes (slot_startTime slot) d
    /\ slot_endTime slot <= businessEnd.
Proof.
  induction fuel as [|fuel IH]; intros currentTime; cbn [slotsFrom]; intros H.
  - contradiction.
  - destruct (Z.ltb_spec currentTime businessEnd) as [Hlt|Hge]; [|contradiction].
    assert (Hrest : In slot (slotsFrom fuel barber (addMinutes currentTime 30)
                               businessEnd d existing) ->
                    slot_barberId slot = barber_id barber
                    /\ slot_barberName slot = barber_name barber
                    /\ currentTime <= slot_startTime slot
                    /\ slot_endTime slot = addMinutes (slot_startTime slot) d
                    /\ slot_endTime slot <= businessEnd).
    { intros Hin. destruct (IH _ Hin) as (H1 & H2 & H3 & H4 & H5).
      repeat split; try assumption.
      unfold addMinutes, msPerMinute in H3. lia. }
    destruct (Z.leb_spec (addMinutes currentTime d) businessEnd) as [Hfit|Hout].
    + destruct H as [H|H]; [|exact (Hrest H)].
      subst slot. cbn. repeat split; try reflexivity; lia.
    + exact (Hrest H).
Qed.

(** The bound on the rounds of the slot loop is never reached: more rounds
    give the same slots. *)
Lemma slotsFrom_enough (barber : Barber) (businessEnd : Date) (d : Z)
    (existing : list Booking) :
  forall fuel extra currentTime,
    (roundsBetween currentTime businessEnd <= fuel)%nat ->
    slotsFrom (fuel + extra) barber currentTime businessEnd d existing
    = slotsFrom fuel barber currentTime businessEnd d existing.
Proof.
  assert (Hstep : forall c, c < businessEnd ->
            (S (roundsBetween (addMinutes c 30) businessEnd)
             <= roundsBetween c businessEnd)%nat).
  { intros c Hc. unfold roundsBetween, addMinutes, msPerMinute.
    replace (businessEnd - c)
      with ((businessEnd - (c + 30 * 60000)) + 1 * (30 * 60000)) by lia.
    rewrite Z.div_add by lia.
    assert (-1 <= (businessEnd - (c + 30 * 60000)) / (30 * 60000)).
    { apply Z.div_le_lower_bound; lia. }
    lia. }
  induction fuel as [|fuel IH]; intros extra currentTime Hfuel.
  - destruct extra as [|extra]; [reflexivity|]. cbn [Nat.add slotsFrom].
    destruct (Z.ltb_spec currentTime businessEnd) as [Hlt|Hge]; [|reflexivity].
    specialize (Hstep _ Hlt). lia.
  - cbn [Nat.add slotsFrom].
    destruct (Z.ltb_spec currentTime businessEnd) as [Hlt|Hge]; [|reflexivity].
    specialize (Hstep _ Hlt). rewrite IH by lia. reflexivity.
Qed.

Lemma insertSlot_In (x y : TimeSlot) (l : list TimeSlot) :
  In x (insertSlot y l) <-> x = y \/ In x l.
Proof.
  induction l as [|z r IH]; cbn [insertSlot].
  - simpl. intuition congruence.
  - destruct (slot_startTime y <? slot_startTime z); simpl in *; intuition congruence.
Qed.

Lemma sortSlots_In (x : TimeSlot) (l : list TimeSlot) :
  In x (sortSlots l) <-> In x l.
Proof.
  unfold sortSlots.
  assert (H : forall acc, In x (fold_left (fun acc y => insertSlot y acc) l acc)
                          <-> In x l \/ In x acc).
  { induction l as [|y r IH]; intros acc; cbn [fold_left].
    - simpl. tauto.
    - rewrite IH, insertSlot_In. simpl. intuition congruence. }
  rewrite H. simpl. tauto.
Qed.

(** C6, as the code has it: the alternative search returns at most five
    entries, each for an active barber of the store; the slot listing
    returns slots of active barbers of the store only, and puts no bound
    on their number. *)
Theorem offers_are_for_active_barbers :
  forall (db : DB) (storeId : string) (preferredStartTime preferredEndTime : Date)
         (excludeBookingId : option string) (q : AvailabilityQuery),
    (List.length (value (findAlternativeBarbers db storeId preferredStartTime
                           preferredEndTime excludeBookingId)) <= 5)%nat
    /\ (forall a,
          In a (value (findAlternativeBarbers db storeId preferredStartTime
                         preferredEndTime excludeBookingId)) ->
          exists b, In b (barbers db)
                    /\ barber_id b = alt_barberId a
                    /\ barber_storeId b = storeId
                    /\ barber_isActive b = true)
    /\ (forall slots slot,
          value (getAvailableTimeSlots db q) = Some slots ->
          In slot slots ->
          exists b, In b (barbers db)
                    /\ barber_id b = slot_barberId slot
                    /\ barber_storeId b = q_storeId q
                    /\ barber_isActive b = true).
Proof.
  intros db storeId ps pe ex q. split; [|split].
  - unfold findAlternativeBarbers. rewrite !value_bind.
    cbv [ret value fst]. rewrite length_firstn. lia.
  - intros a Ha. apply findAlternativeBarbers_In in Ha. destruct Ha as (w & _ & Ha).
    apply findAvailableBarbers_In in Ha.
    destruct Ha as (b & Hin & Hstore & Hactive & -> & _).
    exists b. repeat split; assumption.
  - intros slots slot Hrun Hslot. unfold getAvailableTimeSlots in Hrun.
    cbv zeta in Hrun. rewrite value_bind in Hrun. cbn [query value fst] in Hrun.
    destruct (find _ (services db)) as [service|];
      [|cbn [ret value fst] in Hrun; discriminate].
    rewrite value_bind in Hrun.
    destruct (value (getBusinessHours db (q_storeId q) (q_date q))) as [hours|].
    2:{ cbn [ret value fst] in Hrun. injection Hrun as <-. contradiction. }
    rewrite value_bind in Hrun.
    set (roster := value (getAvailableBarbers db (q_storeId q) (q_barberId q))) in *.
    destruct (List.length roster =? 0)%nat.
    { cbn [ret value fst] in Hrun. injection Hrun as <-. contradiction. }
    rewrite value_bind in Hrun. cbn [ret value fst] in Hrun.
    injection Hrun as <-. apply (proj1 (sortSlots_In _ _)) in Hslot.
    apply in_flat_map in Hslot. destruct Hslot as (b & Hb & Hslot).
    unfold generateBarberTimeSlots in Hslot.
    destruct (parseISO_on (q_date q) (fst hours)) as [businessStart|]; [|contradiction].
    destruct (parseISO_on (q_date q) (snd hours)) as [businessEnd|]; [|contradiction].
    apply slotsFrom_In in Hslot. destruct Hslot as (Hid & _).
    unfold roster, getAvailableBarbers in Hb. cbn [query value fst] in Hb.
    apply filter_In in Hb. destruct Hb as [Hin Hb].
    rewrite !andb_true_iff in Hb. destruct Hb as [[Hstore Hactive] _].
    apply String.eqb_eq in Hstore.
    exists b. repeat split; try assumption. symmetry. exact Hid.
Qed.

(** C6 fails as stated: for one active barber, a 30-minute service and the
    hours 09:00-18:00 the slot listing returns 18 slots. *)
Lemma getAvailableTimeSlots_more_than_five :
  exists slots,
    value (getAvailableTimeSlots dbFree queryFree) = Some slots
    /\ List.length slots = 18%nat
    /\ (5 < List.length slots)%nat.
Proof.
  eexists. split; [vm_compute; reflexivity|]. split; [reflexivity|].
  simpl. lia.
Qed.

Lemma offers_are_for_active_barbers_witness :
  exists b, In b (barbers dbFree)
            /\ barber_id b = "barber-A"
            /\ barber_storeId b = "store-1"
            /\ barber_isActive b = true.
Proof.
  destruct (offers_are_for_active_barbers dbFree "store-1" (at_ 10 0) (at_ 10 30)
              None queryFree) as (_ & _ & H).
  apply (H (sortSlots (generateBarberTimeSlots barberA monday ("09:00", "18:00") 30 []))
           (mkTimeSlot (at_ 9 0) (at_ 9 30) "barber-A" "A" true)).
  - vm_compute. reflexivity.
  - vm_compute. left. reflexivity.
Defined.

End Offers.

(** ** Rescheduling a booking *)

Section Reschedule.
Import Prisma DateFns ConflictDetectionService BookingService SpecWords Scenarios.

Variable db : DB.
Variable B : string.
Hypothesis B_truthy : B <> EmptyString.

Lemma filter_withoutBooking (storeId barberId : string) (s e : Date) :
  filter (whereClause storeId barberId s e (Some B)) (bookings (withoutBooking B db))
  = filter (whereClause storeId barberId s e (Some B)) (bookings db).
Proof.
  cbn [withoutBooking bookings].
  induction (bookings db) as [|x l IH]; [reflexivity|].
  cbn [filter]. destruct (String.eqb_spec (booking_id x) B) as [Heq|Hne]; cbn [negb].
  - rewrite IH.
    assert (Hx : whereClause storeId barberId s e (Some B) x = false).
    { destruct (whereClause storeId barberId s e (Some B) x) eqn:Hw; [|reflexivity].
      apply whereClause_spec in Hw. destruct Hw as (_ & _ & _ & _ & Hex).
      exfalso. apply Hex; [|congruence].
      simpl. destruct (String.eqb_spec B EmptyString); [contradiction|reflexivity]. }
    rewrite Hx. reflexivity.
  - cbn [filter]. rewrite IH. reflexivity.
Qed.

Lemma checkBarberAvailability_withoutBooking (storeId barberId : string) (s e : Date) :
  checkBarberAvailability (withoutBooking B db) storeId barberId s e (Some B)
  = checkBarberAvailability db storeId barberId s e (Some B).
Proof.
  unfold checkBarberAvailability.
  apply bind_ext; [reflexivity|]. intros [barber|]; [|reflexivity].
  destruct (negb (barber_isActive barber)); [reflexivity|].
  apply bind_ext; [|reflexivity].
  unfold query. rewrite filter_withoutBooking. reflexivity.
Qed.

Lemma scanBarbers_withoutBooking (storeId : string) (s e : Date) (roster : list Barber) :
  scanBarbers (withoutBooking B db) storeId roster s e (Some B)
  = scanBarbers db storeId roster s e (Some B).
Proof.
  induction roster as [|b rest IH]; cbn [scanBarbers]; [reflexivity|].
  apply bind_ext; [apply checkBarberAvailability_withoutBooking|]. intros availability.
  apply bind_ext; [exact IH|]. reflexivity.
Qed.

Lemma findAvailableBarbers_withoutBooking (storeId : string) (s e : Date) :
  findAvailableBarbers (withoutBooking B db) storeId s e (Some B)
  = findAvailableBarbers db storeId s e (Some B).
Proof.
  unfold findAvailableBarbers.
  apply bind_ext; [reflexivity|]. intros roster. apply scanBarbers_withoutBooking.
Qed.

Lemma scanSlots_withoutBooking (storeId : string) (windows : list (Date * Date)) :
  forall collected,
    scanSlots (withoutBooking B db) storeId (Some B) windows collected
    = scanSlots db storeId (Some B) windows collected.
Proof.
  induction windows as [|w rest IH]; intros collected; cbn [scanSlots]; [reflexivity|].
  apply bind_ext; [apply findAvailableBarbers_withoutBooking|]. intros found.
  destruct (5 <=? List.length (collected ++ found))%nat; [reflexivity|apply IH].
Qed.

Lemma findAlternativeBarbers_withoutBooking (storeId : string) (s e : Date) :
  findAlternativeBarbers (withoutBooking B db) storeId s e (Some B)
  = findAlternativeBarbers db storeId s e (Some B).
Proof.
  unfold findAlternativeBarbers.
  apply bind_ext; [apply findAvailableBarbers_withoutBooking|]. intros same.
  apply bind_ext; [|reflexivity].
  destruct (List.length ([] ++ same) =? 0)%nat;
    [apply scanSlots_withoutBooking|reflexivity].
Qed.

Lemma checkBookingConflicts_withoutBooking (check : BookingConflictCheck) :
  check_excludeBookingId check = Some B ->
  checkBookingConflicts (withoutBooking B db) check = checkBookingConflicts db check.
Proof.
  intros Hex. unfold checkBookingConflicts. cbv zeta. rewrite Hex.
  apply bind_ext; [reflexivity|]. intros serviceCheck.
  destruct (negb (ok serviceCheck)); [reflexivity|].
  apply bind_ext; [reflexivity|]. intros [hoursCheck|]; [|reflexivity].
  destruct (negb (ok hoursCheck)); [reflexivity|].
  destruct (check_barberId check) as [theBarber|].
  - destruct (truthy (Some theBarber)).
    + apply bind_ext; [apply checkBarberAvailability_withoutBooking|]. intros barberCheck.
      destruct (negb (ok barberCheck)); [|reflexivity].
      apply bind_ext; [apply findAlternativeBarbers_withoutBooking|]. reflexivity.
    + apply bind_ext; [apply findAvailableBarbers_withoutBooking|]. reflexivity.
  - apply bind_ext; [apply findAvailableBarbers_withoutBooking|]. reflexivity.
Qed.

Lemma updateCheck_withoutBooking (now : Date) (request : UpdateBookingRequest)
    (existingBooking : Booking) (existingService : Service) :
  update_bookingId request = B ->
  updateCheck (withoutBooking B db) now request existingBooking existingService
  = updateCheck db now request existingBooking existingService.
Proof.
  intros Hid. unfold updateCheck.
  apply bind_ext; [reflexivity|]. intros [newService|]; [|reflexivity].
  destruct (negb (ok _)); [reflexivity|].
  destruct (orElse (update_startTime request) _) as [newStartTime|]; [|reflexivity].
  apply bind_ext; [|reflexivity].
  apply checkBookingConflicts_withoutBooking. cbn. congruence.
Qed.

End Reschedule.

Section RescheduleClaim.
Import Prisma DateFns ConflictDetectionService BookingService SpecWords Scenarios.

(** C8: with [excludeBookingId = B] (a booking key, so not the empty text)
    no overlap query returns the row of [B]; a barber whose only overlapping
    bookings that are not cancelled are [B] itself is available; the whole
    conflict check gives the result and runs the queries it would without
    that row, and so does the conflict check that [updateBooking] runs for
    booking [B]. *)
Theorem excluded_booking_never_conflicts :
  forall (db : DB) (B : string),
    B <> EmptyString ->
    (forall storeId barberId s e b,
        In b (filter (whereClause storeId barberId s e (Some B)) (bookings db)) ->
        booking_id b <> B)
    /\ (forall storeId barberId s e barber,
          find (fun x => String.eqb (barber_id x) barberId
                         && String.eqb (barber_storeId x) storeId)
               (barbers db) = Some barber ->
          barber_isActive barber = true ->
          (forall b,
              In b (bookings db) ->
              booking_storeId b = storeId ->
              booking_barberId b = barberId ->
              booking_status b <> cancelled ->
              overlapClause s e b = true ->
              booking_id b = B) ->
          ok (value (checkBarberAvailability db storeId barberId s e (Some B))) = true)
    /\ (forall check,
          check_excludeBookingId check = Some B ->
          checkBookingConflicts db check
          = checkBookingConflicts (withoutBooking B db) check)
    /\ (forall now request existingBooking existingService,
          update_bookingId request = B ->
          updateCheck db now request existingBooking existingService
          = updateCheck (withoutBooking B db) now request existingBooking
              existingService).
Proof.
  intros db B HB.
  assert (Htruthy : truthy (Some B) = true).
  { simpl. destruct (String.eqb_spec B EmptyString); [contradiction|reflexivity]. }
  split; [|split; [|split]].
  - intros storeId barberId s e b Hin.
    apply filter_In in Hin. destruct Hin as [_ Hw].
    apply whereClause_spec in Hw. destruct Hw as (_ & _ & _ & _ & Hex).
    intros Heq. apply Hex; [exact Htruthy|congruence].
  - intros storeId barberId s e barber Hfind Hactive Honly.
    apply (checkBarberAvailability_available_iff db storeId barberId s e (Some B)
             barber Hfind Hactive).
    apply filter_nil_iff. intros b Hin.
    destruct (whereClause storeId barberId s e (Some B) b) eqn:Hw; [|reflexivity].
    apply whereClause_spec in Hw. destruct Hw as (H1 & H2 & H3 & H4 & H5).
    exfalso. apply (H5 Htruthy). f_equal. symmetry. apply Honly; assumption.
  - intros check Hex. symmetry.
    apply checkBookingConflicts_withoutBooking; assumption.
  - intros now request existingBooking existingService Hid. symmetry.
    apply updateCheck_withoutBooking; assumption.
Qed.

Lemma excluded_booking_never_conflicts_witness :
  checkBookingConflicts dbOneBusy requestRescheduleSame
  = checkBookingConflicts (withoutBooking "booking-1" dbOneBusy) requestRescheduleSame.
Proof.
  apply (proj1 (proj2 (proj2 (excluded_booking_never_conflicts dbOneBusy "booking-1"
                                ltac:(discriminate))))).
  reflexivity.
Defined.

(** Booking "booking-1" moved to its own time at 08:00 the same day: the
    conflict check passes and the update succeeds. *)
Lemma reschedule_same_time_succeeds :
  value (checkBookingConflicts dbOneBusy requestRescheduleSame)
    = mkConflictCheckResult false None None None
  /\ success (fst (value (updateBooking dbOneBusy (at_ 8 0) updateSameTime))) = true
  /\ hasConflict (value (checkBookingConflicts dbOneBusy requestTwoBarbers)) = true.
Proof. repeat split; vm_compute; reflexivity. Qed.

End RescheduleClaim.

(** ** The validators *)

Section Validators.
Import Prisma DateFns ConflictDetectionService BookingService SpecWords Scenarios.

Lemma Qred_inject_Z (z : Z) : Qred (inject_Z z) = inject_Z z.
Proof.
  unfold Qred, inject_Z.
  generalize (Z.ggcd_gcd z 1) (Z.ggcd_correct_divisors z 1).
  destruct (Z.ggcd z 1) as (g, (r1, r2)). simpl.
  intros Hg [H1 H2]. rewrite Z.gcd_1_r in Hg. subst g.
  rewrite Z.mul_1_l in H1, H2. subst z r2. reflexivity.
Qed.

Lemma Number_isInteger_spec (q : Q) :
  Number_isInteger (Finite q) = true <-> exists z, (q == inject_Z z)%Q.
Proof.
  unfold Number_isInteger. rewrite Z.eqb_eq. split.
  - intros Hden. exists (Qnum (Qred q)).
    rewrite <- (Qred_correct q) at 1.
    destruct (Qred q) as [a b]. simpl in *.
    injection Hden as ->. reflexivity.
  - intros (z & Hz).
    rewrite (Qred_complete _ _ Hz), Qred_inject_Z. reflexivity.
Qed.



Lemma validateBookingTime_spec (now startTime : Date) :
  ok (validateBookingTime now (ValidDate startTime)) = true
  <-> inBookingWindow now startTime.
Proof.
  unfold validateBookingTime, inBookingWindow. cbv zeta.
  cbn [getTime Temporal.nan_ltb].
  destruct (Z.ltb_spec startTime (addMinutes now 30)) as [H1|H1]; cbn [ok].
  - split; [discriminate|lia].
  - destruct (Z.ltb_spec (addMinutes now (90 * 24 * 60)) startTime) as [H2|H2]; cbn [ok].
    + split; [discriminate|lia].
    + split; [lia|reflexivity].
Qed.

(** C10 fails on the code for a start time that is an [Invalid Date]: both
    comparisons of the time validation are false for it, so it is accepted
    although it is not in the booking window.  [createBooking] then goes on:
    with a barber named it runs the conflict check, whose service query is
    in the log, and fails with the error of a failed conflict check, not
    with a validation error; without a barber it reads the barbers and
    reports that none is free.  An update to such a start time fails in the
    conflict check as well. *)
Theorem validateBookingTime_accepts_invalid_date :
  (forall now, validateBookingTime now InvalidDate = mkVerdict true None)
  /\ createBooking dbFree (at_ 8 0) "booking-9" MoreScenarios.createInvalidDate
     = ((mkBookingResult false None (Some "檢查預約衝突時發生錯誤") None, dbFree),
        [service_findFirst "store-1" "service-1" true;
         service_findFirst "store-1" "service-1" false])
  /\ createBooking dbFree (at_ 8 0) "booking-9" MoreScenarios.createInvalidDateAnyBarber
     = ((failure (Some "該時段沒有可用的理髮師"), dbFree),
        [service_findFirst "store-1" "service-1" true;
         barber_findMany "store-1" None])
  /\ updateBooking dbOneBusy (at_ 8 0) MoreScenarios.updateInvalidDate
     = ((mkBookingResult false None (Some "檢查預約衝突時發生錯誤") None, dbOneBusy),
        [booking_findUnique "booking-1";
         service_findFirst "store-1" "service-1" false]).
Proof. split; [reflexivity|]. repeat split. Qed.

End Validators.

(** ** Time texts *)

Section TimeTexts.
Import Temporal BusinessHoursUtils.

Ltac eval_digit :=
  match goal with
  | |- context [digit_of_ascii ?c] =>
      let v := eval vm_compute in (digit_of_ascii c) in
      change (digit_of_ascii c) with v
  end; cbv iota beta.

Lemma digits_value_acc (d : Decimal.uint) :
  forall p : positive,
    digits_value (Z.pos p) (NilEmpty.string_of_uint d) = Some (Z.pos (Pos.of_uint_acc d p)).
Proof.
  induction d; intros p; cbn [NilEmpty.string_of_uint digits_value Pos.of_uint_acc];
    try reflexivity; eval_digit; rewrite <- IHd; f_equal; lia.
Qed.

Lemma digits_value_uint (d : Decimal.uint) :
  digits_value 0 (NilEmpty.string_of_uint d) = Some (Z.of_N (Pos.of_uint d)).
Proof.
  induction d; cbn [NilEmpty.string_of_uint digits_value Pos.of_uint];
    try reflexivity; eval_digit; try exact IHd;
    cbn [Z.of_N]; rewrite <- digits_value_acc; reflexivity.
Qed.

(** The decimal text of a natural number reads back as that number. *)
Lemma Number_toString (z : Z) : 0 <= z -> Number (toString z) = Some z.
Proof.
  intros Hz. unfold Number, toString.
  destruct z as [|p|p]; [reflexivity| |lia].
  cbn [Z.to_int NilZero.string_of_int]. unfold NilZero.string_of_uint.
  pose proof (DecimalPos.Unsigned.of_to p) as Hp.
  destruct (Pos.to_uint p) eqn:Hd; try (rewrite <- Hd, digits_value_uint, Hd, Hp; reflexivity).
  simpl in Hp. discriminate Hp.
Qed.

Lemma digits_value_nonneg (s : string) :
  forall acc v, 0 <= acc -> digits_value acc s = Some v -> 0 <= v.
Proof.
  induction s as [|c r IH]; intros acc v Hacc H; cbn [digits_value] in H.
  - injection H as <-. exact Hacc.
  - unfold digit_of_ascii in H. cbv zeta in H.
    destruct ((48 <=? Z.of_nat (nat_of_ascii c)) && (Z.of_nat (nat_of_ascii c) <=? 57))
      eqn:Hd; [|discriminate].
    apply andb_true_iff in Hd. destruct Hd as [H1 H2].
    apply Z.leb_le in H1. eapply IH; [|exact H]. lia.
Qed.

Lemma timeToMinutes_nonneg (text : string) (m : Z) :
  timeToMinutes text = Some m -> 0 <= m.
Proof.
  unfold timeToMinutes.
  destruct (split_colon text) as [|a [|b l]]; cbn [map]; try discriminate.
  - destruct (Number a); discriminate.
  - destruct (Number a) as [h|] eqn:Ha; [|discriminate].
    destruct (Number b) as [mi|] eqn:Hb; [|discriminate].
    intros H. injection H as <-.
    apply digits_value_nonneg in Ha; [|lia]. apply digits_value_nonneg in Hb; [|lia].
    lia.
Qed.

Lemma digits_noColon (s : string) :
  forall acc v, digits_value acc s = Some v -> noColon s = true.
Proof.
  induction s as [|c r IH]; intros acc v H; cbn [digits_value noColon] in *.
  - reflexivity.
  - destruct (Ascii.eqb_spec c ":"%char) as [->|_].
    + vm_compute in H. discriminate H.
    + destruct (digit_of_ascii c); [|discriminate]. cbn [negb andb]. exact (IH _ _ H).
Qed.

Lemma append_empty_r (s : string) : (s ++ EmptyString)%string = s.
Proof. induction s as [|c r IH]; simpl; congruence. Qed.

Lemma append_snoc (a r : string) (c : ascii) :
  ((a ++ String c EmptyString) ++ r)%string = (a ++ String c r)%string.
Proof. induction a as [|x a IH]; simpl; congruence. Qed.

Lemma split_colon_aux_noColon (s : string) :
  forall cur, noColon s = true -> split_colon_aux cur s = [(cur ++ s)%string].
Proof.
  induction s as [|c r IH]; intros cur H; cbn [split_colon_aux noColon] in *.
  - rewrite append_empty_r. reflexivity.
  - apply andb_true_iff in H. destruct H as [Hc Hr].
    destruct (Ascii.eqb c ":"%char); [discriminate|].
    rewrite IH by exact Hr. rewrite append_snoc. reflexivity.
Qed.

Lemma split_colon_aux_app (a b : string) :
  forall cur, noColon a = true ->
    split_colon_aux cur (a ++ String ":"%char b)
    = (cur ++ a)%string :: split_colon_aux EmptyString b.
Proof.
  induction a as [|c r IH]; intros cur H; cbn [split_colon_aux noColon append] in *.
  - rewrite append_empty_r. reflexivity.
  - apply andb_true_iff in H. destruct H as [Hc Hr].
    destruct (Ascii.eqb c ":"%char); [discriminate|].
    rewrite IH by exact Hr. rewrite append_snoc. reflexivity.
Qed.

Lemma Number_padStart2 (s : string) (v : Z) :
  Number s = Some v -> Number (padStart2 s) = Some v.
Proof.
  unfold padStart2. destruct s as [|c [|c' r]]; cbn [String.length]; intros H.
  - vm_compute in H. injection H as <-. reflexivity.
  - exact H.
  - exact H.
Qed.

(** X1: the text written by [minutesToTime] for a number of minutes that is
    not negative is read back by [timeToMinutes] as that number. *)
Theorem timeToMinutes_minutesToTime :
  forall minutes : Z, 0 <= minutes -> timeToMinutes (minutesToTime minutes) = Some minutes.
Proof.
  intros m Hm. unfold timeToMinutes, minutesToTime. cbv zeta.
  assert (Hh : Number (padStart2 (toString (m / 60))) = Some (m / 60)).
  { apply Number_padStart2, Number_toString. apply Z.div_pos; lia. }
  assert (Hr : Number (padStart2 (toString (Z.rem m 60))) = Some (Z.rem m 60)).
  { apply Number_padStart2, Number_toString. apply Z.rem_nonneg; lia. }
  unfold split_colon.
  change (padStart2 (toString (m / 60)) ++ ":" ++ padStart2 (toString (Z.rem m 60)))%string
    with (padStart2 (toString (m / 60))
          ++ String ":"%char (padStart2 (toString (Z.rem m 60))))%string.
  rewrite split_colon_aux_app by (eapply digits_noColon; exact Hh).
  rewrite split_colon_aux_noColon by (eapply digits_noColon; exact Hr).
  cbn [map append]. rewrite Hh, Hr. f_equal.
  rewrite Z.rem_mod_nonneg by lia. pose proof (Z.div_mod m 60). lia.
Qed.

End TimeTexts.

Section SlotTexts.
Import Temporal BusinessHoursUtils.

Lemma timeToMinutes_minutesToTime_witness :
  timeToMinutes (minutesToTime 1439) = Some 1439.
Proof. apply (timeToMinutes_minutesToTime 1439). lia. Defined.

Lemma getAvailableTimeSlots_open_day (bh : BusinessHours) (d s o c : Z) :
  bh_isClosed bh = false ->
  timeToMinutes (bh_openTime bh) = Some o ->
  timeToMinutes (bh_closeTime bh) = Some c ->
  0 < s ->
  getAvailableTimeSlots bh d s
  = Some (map (fun k => minutesToTime (o + Z.of_nat k * s)) (seq 0 (slotCount o d c s))).
Proof.
  intros Hopen Ho Hc Hs.
  unfold getAvailableTimeSlots, getAvailableTimeSlots_fuel, slots_fuel.
  rewrite Hopen, Ho, Hc. apply slots_loop_lattice; [exact Hs|lia].
Qed.

(** X2: with a positive step and a duration that is not negative, every
    slot text the enumerator returns passes [isTimeWithinBusinessHours] for
    the same day, and the service started then ends by closing time. *)
Theorem getAvailableTimeSlots_within_hours :
  forall (businessHours : BusinessHours) (serviceDuration slotInterval : Z)
         (slots : list string) (slot : string),
    0 < slotInterval ->
    0 <= serviceDuration ->
    getAvailableTimeSlots businessHours serviceDuration slotInterval = Some slots ->
    In slot slots ->
    isTimeWithinBusinessHours slot businessHours = true
    /\ exists start close,
        timeToMinutes slot = Some start
        /\ timeToMinutes (bh_closeTime businessHours) = Some close
        /\ start + serviceDuration <= close.
Proof.
  intros bh d s slots slot Hs Hd Hrun Hin.
  destruct (bh_isClosed bh) eqn:Hclosed.
  { unfold getAvailableTimeSlots, getAvailableTimeSlots_fuel in Hrun.
    rewrite Hclosed in Hrun. injection Hrun as <-. contradiction. }
  destruct (timeToMinutes (bh_openTime bh)) as [o|] eqn:Ho.
  2:{ unfold getAvailableTimeSlots, getAvailableTimeSlots_fuel in Hrun.
      rewrite Hclosed, Ho in Hrun. injection Hrun as <-. contradiction. }
  destruct (timeToMinutes (bh_closeTime bh)) as [c|] eqn:Hc.
  2:{ unfold getAvailableTimeSlots, getAvailableTimeSlots_fuel in Hrun.
      rewrite Hclosed, Ho, Hc in Hrun. injection Hrun as <-. contradiction. }
  rewrite (getAvailableTimeSlots_open_day bh d s o c Hclosed Ho Hc Hs) in Hrun.
  injection Hrun as <-. apply in_map_iff in Hin. destruct Hin as (k & <- & Hk).
  apply in_seq in Hk. destruct Hk as [_ Hk]. cbn [Nat.add] in Hk.
  apply slotCount_bound in Hk; [|exact Hs].
  pose proof (timeToMinutes_nonneg _ _ Ho) as Ho0.
  assert (Hstart : timeToMinutes (minutesToTime (o + Z.of_nat k * s))
                   = Some (o + Z.of_nat k * s))
    by (apply timeToMinutes_minutesToTime; nia).
  split.
  - unfold isTimeWithinBusinessHours. rewrite Hclosed, Ho, Hc, Hstart.
    cbn [nan_leb]. apply andb_true_iff. split; apply Z.leb_le; nia.
  - exists (o + Z.of_nat k * s), c. repeat split; [exact Hstart|exact Hk].
Qed.

Lemma getAvailableTimeSlots_within_hours_witness :
  isTimeWithinBusinessHours "09:30" Scenarios.hoursMonday = true
  /\ exists start close,
      timeToMinutes "09:30" = Some start
      /\ timeToMinutes (bh_closeTime Scenarios.hoursMonday) = Some close
      /\ start + 60 <= close.
Proof.
  apply (getAvailableTimeSlots_within_hours Scenarios.hoursMonday 60 30
           (map (fun k => minutesToTime (540 + Z.of_nat k * 30)) (seq 0 17)) "09:30").
  - lia.
  - lia.
  - vm_compute. reflexivity.
  - vm_compute. right. left. reflexivity.
Defined.

Lemma validateBusinessHoursLogic_nil_iff (l : list BusinessHours) :
  validateBusinessHoursLogic l = []
  <-> forall h, In h l -> bh_isClosed h = false ->
        nan_leb (timeToMinutes (bh_closeTime h)) (timeToMinutes (bh_openTime h)) = false.
Proof.
  induction l as [|h l IH]; cbn [validateBusinessHoursLogic].
  - split; [intros _ h []|reflexivity].
  - split.
    + intros H. apply app_eq_nil in H. destruct H as [Hh Hl].
      intros h' [<-|Hin] Hc.
      * rewrite Hc in Hh. cbn [negb] in Hh. cbv zeta in Hh.
        destruct (nan_leb _ _); [discriminate|reflexivity].
      * apply IH; assumption.
    + intros H.
      assert (Hl : validateBusinessHoursLogic l = []).
      { apply IH. intros h' Hin. apply H. right. exact Hin. }
      rewrite Hl, app_nil_r.
      destruct (bh_isClosed h) eqn:Hc; cbn [negb]; [reflexivity|].
      cbv zeta. rewrite (H h (or_introl eq_refl) Hc). reflexivity.
Qed.

(** X3: for days whose opening and closing texts are well formed,
    [validateBusinessHoursLogic] returns no message exactly when every day
    that is not closed opens strictly before it closes; a closed day never
    gives a message. *)
Theorem validateBusinessHoursLogic_accepts :
  forall businessHours : list BusinessHours,
    (forall h, In h businessHours ->
       exists o c, timeToMinutes (bh_openTime h) = Some o
                   /\ timeToMinutes (bh_closeTime h) = Some c) ->
    (validateBusinessHoursLogic businessHours = []
     <-> forall h o c,
         In h businessHours ->
         bh_isClosed h = false ->
         timeToMinutes (bh_openTime h) = Some o ->
         timeToMinutes (bh_closeTime h) = Some c ->
         o < c).
Proof.
  intros l Hwf. rewrite validateBusinessHoursLogic_nil_iff. split.
  - intros H h o c Hin Hc Ho Hcl. specialize (H h Hin Hc).
    rewrite Ho, Hcl in H. cbn [nan_leb] in H. apply Z.leb_gt in H. exact H.
  - intros H h Hin Hc. destruct (Hwf h Hin) as (o & c & Ho & Hcl).
    rewrite Ho, Hcl. cbn [nan_leb]. apply Z.leb_gt. apply (H h o c); assumption.
Qed.

Lemma validateBusinessHoursLogic_accepts_witness :
  validateBusinessHoursLogic [Scenarios.hoursMonday] = []
  <-> forall h o c,
      In h [Scenarios.hoursMonday] ->
      bh_isClosed h = false ->
      timeToMinutes (bh_openTime h) = Some o ->
      timeToMinutes (bh_closeTime h) = Some c ->
      o < c.
Proof.
  apply (validateBusinessHoursLogic_accepts [Scenarios.hoursMonday]).
  intros h [<-|[]]. exists 540, 1080. split; reflexivity.
Defined.

End SlotTexts.

(** ** Service durations *)

Section ServiceDurations.
Import DateFns ConflictDetectionService ServiceTime.

Lemma isValidServiceDuration_spec (duration : number) :
  isValidServiceDuration duration = true
  <-> exists z q, duration = Finite q /\ (q == inject_Z z)%Q /\ 1 <= z <= 480.
Proof.
  unfold isValidServiceDuration. rewrite !andb_true_iff. split.
  - intros [[Hint Hpos] Hmax].
    destruct duration as [q| | |]; try discriminate Hint.
    apply Number_isInteger_spec in Hint. destruct Hint as (z & Hz).
    exists z, q. split; [reflexivity|]. split; [exact Hz|].
    cbn [number_gtb number_leb] in Hpos, Hmax.
    apply negb_true_iff in Hpos.
    apply Qle_bool_iff in Hmax. rewrite Hz in Hmax.
    change 480%Q with (inject_Z 480) in Hmax. rewrite <- Zle_Qle in Hmax.
    assert (Hpos' : ~ (q <= 0)%Q).
    { intros H. apply Qle_bool_iff in H. congruence. }
    rewrite Hz in Hpos'. change 0%Q with (inject_Z 0) in Hpos'.
    rewrite <- Zle_Qle in Hpos'. lia.
  - intros (z & q & -> & Hz & Hrange). cbn [number_gtb number_leb].
    repeat split.
    + apply Number_isInteger_spec. exists z. exact Hz.
    + apply negb_true_iff. destruct (Qle_bool q 0) eqn:H; [|reflexivity].
      apply Qle_bool_iff in H. rewrite Hz in H. change 0%Q with (inject_Z 0) in H.
      rewrite <- Zle_Qle in H. lia.
    + apply Qle_bool_iff. rewrite Hz. change 480%Q with (inject_Z 480).
      rewrite <- Zle_Qle. lia.
Qed.

(** X4: [isValidServiceDuration] accepts exactly the integers from 1 to
    480, and it accepts every duration that [validateServiceTime] accepts;
    the converse fails, 20 being accepted by the first and rejected by the
    second. *)
Theorem isValidServiceDuration_accepts :
  forall duration : number,
    (isValidServiceDuration duration = true
     <-> exists z q, duration = Finite q /\ (q == inject_Z z)%Q /\ 1 <= z <= 480)
    /\ (ok (validateServiceTime duration) = true ->
        isValidServiceDuration duration = true)
    /\ (isValidServiceDuration (Finite (inject_Z 20)) = true
        /\ ok (validateServiceTime (Finite (inject_Z 20))) = false).
Proof.
  intros duration. split; [apply isValidServiceDuration_spec|]. split.
  - unfold validateServiceTime, isValidServiceDuration.
    destruct (Number_isInteger duration); cbn [negb ok andb]; [|discriminate].
    destruct duration as [q| | |]; cbn [number_leb number_gtb]; try discriminate.
    destruct (Qle_bool q 0); cbn [ok negb andb]; [discriminate|].
    destruct (Qle_bool q 480); cbn [ok negb]; [reflexivity|discriminate].
  - split; vm_compute; reflexivity.
Qed.

Lemma isValidServiceDuration_accepts_witness :
  isValidServiceDuration (Finite (inject_Z 45)) = true.
Proof.
  apply (proj1 (proj2 (isValidServiceDuration_accepts (Finite (inject_Z 45))))).
  vm_compute. reflexivity.
Defined.

(** X5: [calculateServiceEndTime] moves the start by the duration, as
    [addMinutes] does in [createBooking], whatever the minute field of the
    start is; and a service fits between a start and the end computed for a
    duration exactly when it is not longer than that duration. *)
Theorem calculateServiceEndTime_fits :
  forall (startTime : Date) (durationMinutes serviceDuration : Z),
    calculateServiceEndTime startTime durationMinutes = addMinutes startTime durationMinutes
    /\ (canServiceFitInTimeSlot startTime
          (calculateServiceEndTime startTime durationMinutes) serviceDuration = true
        <-> serviceDuration <= durationMinutes).
Proof.
  intros startTime d d'.
  assert (E : calculateServiceEndTime startTime d = addMinutes startTime d).
  { unfold calculateServiceEndTime, setMinutes, addMinutes. cbv zeta. lia. }
  split; [exact E|].
  rewrite E. unfold canServiceFitInTimeSlot, addMinutes, msPerMinute. cbv zeta.
  rewrite Qle_bool_iff.
  replace (startTime + d * 60000 - startTime) with (d * (1000 * 60)) by lia.
  rewrite inject_Z_mult, Qdiv_mult_l by (vm_compute; discriminate).
  rewrite <- Zle_Qle. reflexivity.
Qed.

End ServiceDurations.

(** ** The slot listing of the calendar *)

Section SlotListing.
Import Prisma DateFns ConflictDetectionService CalendarService Tables.

Lemma roundsBetween_step (c businessEnd : Date) :
  c < businessEnd ->
  (S (roundsBetween (addMinutes c 30) businessEnd) <= roundsBetween c businessEnd)%nat.
Proof.
  intros Hc. unfold roundsBetween, addMinutes, msPerMinute.
  replace (businessEnd - c)
    with ((businessEnd - (c + 30 * 60000)) + 1 * (30 * 60000)) by lia.
  rewrite Z.div_add by lia.
  assert (-1 <= (businessEnd - (c + 30 * 60000)) / (30 * 60000)).
  { apply Z.div_le_lower_bound; lia. }
  lia.
Qed.

(** The slot of barber [barber] that starts [k] half hours after [from]. *)
Lemma slotsFrom_shape (barber : Barber) (businessEnd : Date) (d : Z)
    (existing : list Booking) (slot : TimeSlot) :
  forall fuel currentTime,
    In slot (slotsFrom fuel barber currentTime businessEnd d existing) ->
    exists k : nat,
      let start := currentTime + Z.of_nat k * (30 * msPerMinute) in
      start < businessEnd
      /\ addMinutes start d <= businessEnd
      /\ slot = mkTimeSlot start (addMinutes start d) (barber_id barber)
                  (barber_name barber)
                  (negb (existsb (slotOverlaps start (addMinutes start d)) existing)).
Proof.
  induction fuel as [|fuel IH]; intros currentTime; cbn [slotsFrom]; intros H.
  - contradiction.
  - destruct (Z.ltb_spec currentTime businessEnd) as [Hlt|Hge]; [|contradiction].
    assert (Hrest : In slot (slotsFrom fuel barber (addMinutes currentTime 30)
                               businessEnd d existing) ->
                    exists k : nat,
                      let start := currentTime + Z.of_nat k * (30 * msPerMinute) in
                      start < businessEnd
                      /\ addMinutes start d <= businessEnd
                      /\ slot = mkTimeSlot start (addMinutes start d) (barber_id barber)
                                  (barber_name barber)
                                  (negb (existsb (slotOverlaps start (addMinutes start d))
                                           existing))).
    { intros Hin. destruct (IH _ Hin) as (k & Hk). exists (S k). cbv zeta in *.
      replace (currentTime + Z.of_nat (S k) * (30 * msPerMinute))
        with (addMinutes currentTime 30 + Z.of_nat k * (30 * msPerMinute))
        by (unfold addMinutes; lia).
      exact Hk. }
    destruct (Z.leb_spec (addMinutes currentTime d) businessEnd) as [Hfit|Hout].
    + destruct H as [H|H]; [|exact (Hrest H)].
      exists O. cbv zeta. rewrite Z.mul_0_l, Z.add_0_r.
      repeat split; [exact Hlt|exact Hfit|symmetry; exact H].
    + exact (Hrest H).
Qed.

Lemma slotsFrom_complete (barber : Barber) (businessEnd : Date) (d : Z)
    (existing : list Booking) :
  forall fuel currentTime (k : nat),
    (roundsBetween currentTime businessEnd <= fuel)%nat ->
    let start := currentTime + Z.of_nat k * (30 * msPerMinute) in
    start < businessEnd ->
    addMinutes start d <= businessEnd ->
    In (mkTimeSlot start (addMinutes start d) (barber_id barber) (barber_name barber)
          (negb (existsb (slotOverlaps start (addMinutes start d)) existing)))
       (slotsFrom fuel barber currentTime businessEnd d existing).
Proof.
  induction fuel as [|fuel IH]; intros currentTime k Hfuel; cbv zeta; intros Hlt Hfit.
  - exfalso. unfold roundsBetween, msPerMinute in *.
    assert (0 <= (businessEnd - currentTime) / (30 * 60000))
      by (apply Z.div_pos; lia).
    lia.
  - cbn [slotsFrom].
    assert (Hcur : currentTime < businessEnd) by (unfold msPerMinute in *; lia).
    destruct (Z.ltb_spec currentTime businessEnd) as [_|]; [|lia].
    pose proof (roundsBetween_step _ _ Hcur) as Hstep.
    destruct k as [|k].
    + rewrite Z.mul_0_l, Z.add_0_r in *.
      destruct (Z.leb_spec (addMinutes currentTime d) businessEnd); [|lia].
      left. reflexivity.
    + assert (Hin : In (mkTimeSlot (addMinutes currentTime 30
                                    + Z.of_nat k * (30 * msPerMinute))
                          (addMinutes (addMinutes currentTime 30
                                       + Z.of_nat k * (30 * msPerMinute)) d)
                          (barber_id barber) (barber_name barber)
                          (negb (existsb
                                   (slotOverlaps
                                      (addMinutes currentTime 30
                                       + Z.of_nat k * (30 * msPerMinute))
                                      (addMinutes (addMinutes currentTime 30
                                                   + Z.of_nat k * (30 * msPerMinute)) d))
                                   existing)))
                       (slotsFrom fuel barber (addMinutes currentTime 30) businessEnd d
                          existing)).
      { apply IH; [lia| |];
          replace (addMinutes currentTime 30 + Z.of_nat k * (30 * msPerMinute))
            with (currentTime + Z.of_nat (S k) * (30 * msPerMinute))
            by (unfold addMinutes; lia); assumption. }
      replace (addMinutes currentTime 30 + Z.of_nat k * (30 * msPerMinute))
        with (currentTime + Z.of_nat (S k) * (30 * msPerMinute)) in Hin
        by (unfold addMinutes; lia).
      destruct (addMinutes currentTime d <=? businessEnd); [right|]; exact Hin.
Qed.

(** X6: for hours that parse, the slots generated for a barber are exactly
    those that start a whole number of half hours after opening, start
    before closing and end, one service later, by closing; each carries the
    barber's key and name, and is marked available exactly when no existing
    booking overlaps it. *)
Theorem generateBarberTimeSlots_lattice :
  forall (barber : Barber) (date : Date) (businessHours : string * string)
         (serviceDuration : Z) (existingBookings : list Booking)
         (businessStart businessEnd : Date) (slot : TimeSlot),
    parseISO_on date (fst businessHours) = Some businessStart ->
    parseISO_on date (snd businessHours) = Some businessEnd ->
    (In slot (generateBarberTimeSlots barber date businessHours serviceDuration
                existingBookings)
     <-> exists k : nat,
         let start := businessStart + Z.of_nat k * (30 * msPerMinute) in
         start < businessEnd
         /\ addMinutes start serviceDuration <= businessEnd
         /\ slot_startTime slot = start
         /\ slot_endTime slot = addMinutes start serviceDuration
         /\ slot_barberId slot = barber_id barber
         /\ slot_barberName slot = barber_name barber
         /\ (slot_isAvailable slot = true
             <-> forall b, In b existingBookings ->
                   ~ (start < booking_endTime b
                      /\ booking_startTime b < addMinutes start serviceDuration))).
Proof.
  intros barber date hours d existing bs be slot Hbs Hbe.
  unfold generateBarberTimeSlots. rewrite Hbs, Hbe.
  assert (Hflag : forall s e,
            negb (existsb (slotOverlaps s e) existing) = true
            <-> forall b, In b existing ->
                  ~ (s < booking_endTime b /\ booking_startTime b < e)).
  { intros s e. rewrite negb_true_iff. split.
    - intros Hnone b Hb [H1 H2].
      assert (Hex : existsb (slotOverlaps s e) existing = true).
      { apply existsb_exists. exists b. split; [exact Hb|].
        unfold slotOverlaps. apply andb_true_iff. split; apply Z.ltb_lt; assumption. }
      congruence.
    - intros Hall. destruct (existsb (slotOverlaps s e) existing) eqn:Hex; [|reflexivity].
      apply existsb_exists in Hex. destruct Hex as (b & Hb & Hov).
      unfold slotOverlaps in Hov. apply andb_true_iff in Hov.
      rewrite !Z.ltb_lt in Hov. exfalso. exact (Hall b Hb Hov). }
  split.
  - intros Hin. apply slotsFrom_shape in Hin. destruct Hin as (k & Hlt & Hfit & ->).
    exists k. cbv zeta. cbn [slot_startTime slot_endTime slot_barberId slot_barberName
                              slot_isAvailable].
    repeat split; try assumption; apply Hflag.
  - intros (k & Hlt & Hfit & Hs & He & Hid & Hname & Havail). cbv zeta in *.
    pose proof (slotsFrom_complete barber be d existing
                  (roundsBetween bs be) bs k (le_n _) Hlt Hfit) as Hin.
    cbv zeta in Hin.
    replace slot with
      (mkTimeSlot (bs + Z.of_nat k * (30 * msPerMinute))
         (addMinutes (bs + Z.of_nat k * (30 * msPerMinute)) d)
         (barber_id barber) (barber_name barber)
         (negb (existsb (slotOverlaps (bs + Z.of_nat k * (30 * msPerMinute))
                           (addMinutes (bs + Z.of_nat k * (30 * msPerMinute)) d))
                        existing))); [exact Hin|].
    destruct slot as [s e i n a].
    cbn [slot_startTime slot_endTime slot_barberId slot_barberName slot_isAvailable]
      in Hs, He, Hid, Hname, Havail.
    subst s e i n.
    f_equal.
    destruct a.
    + apply (proj2 (Hflag _ _)). apply (proj1 Havail). reflexivity.
    + destruct (negb (existsb _ existing)) eqn:Hn; [|reflexivity].
      pose proof (proj2 Havail (proj1 (Hflag _ _) Hn)) as Hno. discriminate Hno.
Qed.

Lemma generateBarberTimeSlots_lattice_witness :
  In (mkTimeSlot (Scenarios.at_ 9 30) (Scenarios.at_ 10 0) "barber-A" "A" true)
     (generateBarberTimeSlots Scenarios.barberA Scenarios.monday ("09:00", "18:00") 30 []).
Proof.
  apply (proj2 (generateBarberTimeSlots_lattice Scenarios.barberA Scenarios.monday
                  ("09:00", "18:00") 30 [] (Scenarios.at_ 9 0) (Scenarios.at_ 18 0)
                  (mkTimeSlot (Scenarios.at_ 9 30) (Scenarios.at_ 10 0) "barber-A" "A" true)
                  eq_refl eq_refl)).
  exists 1%nat. cbv zeta.
  split; [vm_compute; reflexivity|].
  split; [vm_compute; discriminate|].
  split; [vm_compute; reflexivity|].
  split; [vm_compute; reflexivity|].
  split; [reflexivity|]. split; [reflexivity|].
  split; [intros _ b []|intros _; reflexivity].
Defined.

Lemma insertSlot_sorted (x : TimeSlot) (l : list TimeSlot) :
  StronglySorted startsNotAfter l -> StronglySorted startsNotAfter (insertSlot x l).
Proof.
  induction l as [|y r IH]; intros Hs; cbn [insertSlot].
  - constructor; constructor.
  - inversion Hs as [|? ? Hr Hy]; subst.
    destruct (Z.ltb_spec (slot_startTime x) (slot_startTime y)) as [Hlt|Hge].
    + constructor; [exact Hs|]. constructor; [unfold startsNotAfter; lia|].
      eapply Forall_impl; [|exact Hy]. unfold startsNotAfter. intros z Hz. lia.
    + constructor; [apply IH; exact Hr|].
      apply Forall_forall. intros z Hz. apply insertSlot_In in Hz.
      destruct Hz as [->|Hz]; [unfold startsNotAfter; lia|].
      rewrite Forall_forall in Hy. apply Hy. exact Hz.
Qed.

Lemma sortSlots_sorted (l : list TimeSlot) : StronglySorted startsNotAfter (sortSlots l).
Proof.
  unfold sortSlots.
  assert (H : forall acc, StronglySorted startsNotAfter acc ->
                StronglySorted startsNotAfter
                  (fold_left (fun acc x => insertSlot x acc) l acc)).
  { induction l as [|x r IH]; intros acc Hacc; cbn [fold_left]; [exact Hacc|].
    apply IH. apply insertSlot_sorted. exact Hacc. }
  apply H. constructor.
Qed.

Lemma insertSlot_perm (x : TimeSlot) (l : list TimeSlot) :
  Permutation (insertSlot x l) (x :: l).
Proof.
  induction l as [|y r IH]; cbn [insertSlot]; [reflexivity|].
  destruct (slot_startTime x <? slot_startTime y); [reflexivity|].
  rewrite IH. apply perm_swap.
Qed.

Lemma sortSlots_perm (l : list TimeSlot) : Permutation (sortSlots l) l.
Proof.
  unfold sortSlots.
  assert (H : forall acc, Permutation (fold_left (fun acc x => insertSlot x acc) l acc)
                            (acc ++ l)).
  { induction l as [|x r IH]; intros acc; cbn [fold_left].
    - rewrite app_nil_r. reflexivity.
    - rewrite IH, insertSlot_perm. apply Permutation_middle. }
  apply (H []).
Qed.

(** What a listing that did not throw was computed from. *)
Lemma getAvailableTimeSlots_inv (db : DB) (q : AvailabilityQuery) (slots : list TimeSlot) :
  value (getAvailableTimeSlots db q) = Some slots ->
  slots = []
  \/ exists service hours,
      find (fun s => String.eqb (service_id s) (q_serviceId q)
                     && String.eqb (service_storeId s) (q_storeId q)
                     && service_isActive s)
           (services db) = Some service
      /\ value (getBusinessHours db (q_storeId q) (q_date q)) = Some hours
      /\ slots
         = sortSlots
             (flat_map
                (fun barber =>
                   generateBarberTimeSlots barber (q_date q) hours
                     (match q_duration q with
                      | Some d => if d =? 0 then service_duration service else d
                      | None => service_duration service
                      end)
                     (filter (fun b => String.eqb (booking_barberId b) (barber_id barber))
                        (value (getExistingBookings db (q_storeId q) (q_date q)
                                  (map barber_id
                                     (value (getAvailableBarbers db (q_storeId q)
                                               (q_barberId q))))))))
                (value (getAvailableBarbers db (q_storeId q) (q_barberId q)))).
Proof.
  intros Hrun. unfold getAvailableTimeSlots in Hrun.
  cbv zeta in Hrun. rewrite value_bind in Hrun. cbn [query value fst] in Hrun.
  destruct (find _ (services db)) as [service|] eqn:Hservice;
    [|cbn [ret value fst] in Hrun; discriminate].
  rewrite value_bind in Hrun.
  destruct (value (getBusinessHours db (q_storeId q) (q_date q))) as [hours|] eqn:Hhours.
  2:{ cbn [ret value fst] in Hrun. injection Hrun as <-. left. reflexivity. }
  rewrite value_bind in Hrun.
  destruct (List.length (value (getAvailableBarbers db (q_storeId q) (q_barberId q)))
            =? 0)%nat.
  { cbn [ret value fst] in Hrun. injection Hrun as <-. left. reflexivity. }
  rewrite value_bind in Hrun. cbn [ret value fst] in Hrun.
  injection Hrun as <-. right. exists service, hours. repeat split; reflexivity.
Qed.

Lemma getBusinessHours_Some (db : DB) (storeId : string) (date : Date)
    (hours : string * string) :
  value (getBusinessHours db storeId date) = Some hours ->
  exists h, In h (businessHours db)
            /\ Temporal.bh_storeId h = storeId
            /\ Temporal.bh_dayOfWeek h = getDay date
            /\ Temporal.bh_isClosed h = false
            /\ hours = (Temporal.bh_openTime h, Temporal.bh_closeTime h).
Proof.
  unfold getBusinessHours. cbv zeta. rewrite value_bind. cbn [query value fst].
  destruct (find _ (businessHours db)) as [h|] eqn:Hfind; cbn [ret value fst];
    [|discriminate].
  intros H. injection H as <-. apply find_some in Hfind. destruct Hfind as [Hin Hh].
  rewrite !andb_true_iff, String.eqb_eq, Z.eqb_eq, negb_true_iff in Hh.
  exists h. tauto.
Qed.

(** X7: a slot listing that does not throw is in ascending order of start
    time, and every slot in it lies inside the opening hours of an open
    row of that store and weekday and lasts the requested duration (the
    duration of the active service when none, or 0, is requested). *)
Theorem getAvailableTimeSlots_sorted_within_hours :
  forall (db : DB) (q : AvailabilityQuery) (slots : list TimeSlot),
    value (getAvailableTimeSlots db q) = Some slots ->
    StronglySorted startsNotAfter slots
    /\ forall slot,
        In slot slots ->
        exists h service businessStart businessEnd,
          In h (businessHours db)
          /\ Temporal.bh_storeId h = q_storeId q
          /\ Temporal.bh_dayOfWeek h = getDay (q_date q)
          /\ Temporal.bh_isClosed h = false
          /\ parseISO_on (q_date q) (Temporal.bh_openTime h) = Some businessStart
          /\ parseISO_on (q_date q) (Temporal.bh_closeTime h) = Some businessEnd
          /\ In service (services db)
          /\ service_id service = q_serviceId q
          /\ service_isActive service = true
          /\ businessStart <= slot_startTime slot
          /\ slot_endTime slot <= businessEnd
          /\ slot_endTime slot
             = addMinutes (slot_startTime slot)
                 (match q_duration q with
                  | Some d => if d =? 0 then service_duration service else d
                  | None => service_duration service
                  end).
Proof.
  intros db q slots Hrun.
  destruct (getAvailableTimeSlots_inv db q slots Hrun)
    as [->|(service & hours & Hservice & Hhours & ->)].
  { split; [constructor|]. intros slot []. }
  split; [apply sortSlots_sorted|].
  intros slot Hslot. apply (proj1 (sortSlots_In _ _)) in Hslot.
  apply in_flat_map in Hslot. destruct Hslot as (b & _ & Hslot).
  destruct (getBusinessHours_Some _ _ _ _ Hhours) as (h & Hin & Hstore & Hday & Hopen & ->).
  unfold generateBarberTimeSlots in Hslot. cbn [fst snd] in Hslot.
  destruct (parseISO_on (q_date q) (Temporal.bh_openTime h)) as [bs|] eqn:Hbs;
    [|contradiction].
  destruct (parseISO_on (q_date q) (Temporal.bh_closeTime h)) as [be|] eqn:Hbe;
    [|contradiction].
  apply slotsFrom_shape in Hslot. destruct Hslot as (k & Hlt & Hfit & ->).
  apply find_some in Hservice. destruct Hservice as [Hsin Hs].
  rewrite !andb_true_iff, !String.eqb_eq in Hs.
  exists h, service, bs, be.
  cbn [slot_startTime slot_endTime].
  repeat split; try tauto; try assumption.
  unfold msPerMinute. lia.
Qed.

Lemma slotOverlaps_overlapClause (s e : Date) (b : Booking) :
  slotOverlaps s e b = true -> overlapClause s e b = true.
Proof.
  unfold slotOverlaps. rewrite andb_true_iff, !Z.ltb_lt, overlapClause_spec. lia.
Qed.

(** X8: a listed slot for which [isTimeSlotAvailable] answers true is marked
    available in the listing; so a slot the listing marks as taken is never
    accepted by the availability test used for automatic assignment. *)
Theorem listed_slot_consistent :
  forall (db : DB) (q : AvailabilityQuery) (slots : list TimeSlot) (slot : TimeSlot),
    value (getAvailableTimeSlots db q) = Some slots ->
    In slot slots ->
    value (isTimeSlotAvailable db (q_storeId q) (slot_barberId slot)
             (slot_startTime slot) (slot_endTime slot)) = true ->
    slot_isAvailable slot = true.
Proof.
  intros db q slots slot Hrun Hslot Hfree.
  destruct (getAvailableTimeSlots_inv db q slots Hrun)
    as [->|(service & hours & _ & _ & ->)]; [contradiction|].
  apply (proj1 (sortSlots_In _ _)) in Hslot.
  apply in_flat_map in Hslot. destruct Hslot as (b & _ & Hslot).
  unfold generateBarberTimeSlots in Hslot.
  destruct (parseISO_on (q_date q) (fst hours)); [|contradiction].
  destruct (parseISO_on (q_date q) (snd hours)); [|contradiction].
  apply slotsFrom_shape in Hslot. destruct Hslot as (k & _ & _ & ->).
  cbn [slot_startTime slot_endTime slot_barberId slot_isAvailable] in *.
  set (start := d + Z.of_nat k * (30 * msPerMinute)) in *.
  set (stop := addMinutes start _) in *.
  assert (Hnone : filter (whereClause (q_storeId q) (barber_id b) start stop None)
                         (bookings db) = []).
  { unfold isTimeSlotAvailable in Hfree. cbv zeta in Hfree.
    rewrite value_bind in Hfree.
    destruct (value (getBusinessHours db (q_storeId q) (startOfDay start)));
      [|discriminate Hfree].
    destruct (isWithinInterval start _ _) as [[|]|]; try discriminate Hfree.
    cbn [negb] in Hfree.
    destruct (isWithinInterval stop _ _) as [[|]|]; try discriminate Hfree.
    cbn [negb] in Hfree. rewrite value_bind in Hfree.
    cbn [query ret value fst] in Hfree.
    destruct (filter _ (bookings db)); [reflexivity|discriminate Hfree]. }
  apply negb_true_iff.
  destruct (existsb (slotOverlaps start stop) _) eqn:Hex; [|reflexivity].
  apply existsb_exists in Hex. destruct Hex as (x & Hx & Hov).
  apply filter_In in Hx. destruct Hx as [Hx Hbarber].
  unfold getExistingBookings in Hx. cbn [query value fst] in Hx.
  apply filter_In in Hx. destruct Hx as [Hin Hx].
  rewrite !andb_true_iff in Hx. destruct Hx as [[[[Hstore _] Hstatus] _] _].
  assert (Hw : whereClause (q_storeId q) (barber_id b) start stop None x = true).
  { unfold whereClause. rewrite Hstore, Hbarber, Hstatus.
    rewrite (slotOverlaps_overlapClause _ _ _ Hov). reflexivity. }
  assert (Hxin : In x (filter (whereClause (q_storeId q) (barber_id b) start stop None)
                         (bookings db)))
    by (apply filter_In; split; assumption).
  rewrite Hnone in Hxin. contradiction.
Qed.

End SlotListing.

(** ** What an accepted request guarantees *)

Section Acceptance.
Import Prisma DateFns ConflictDetectionService Tables.

Lemma checkServiceAvailability_ok (db : DB) (storeId serviceId : string) :
  ok (value (checkServiceAvailability db storeId serviceId)) = true ->
  exists service, In service (services db)
                  /\ service_id service = serviceId
                  /\ service_storeId service = storeId
                  /\ service_isActive service = true.
Proof.
  unfold checkServiceAvailability. rewrite value_bind. cbn [query value fst].
  destruct (find _ (services db)) as [service|] eqn:Hfind; cbn [ret value fst ok];
    [|discriminate].
  destruct (service_isActive service) eqn:Hactive; cbn [negb ret value fst ok];
    [|discriminate].
  intros _. apply find_some in Hfind. destruct Hfind as [Hin H].
  rewrite andb_true_iff, !String.eqb_eq in H.
  exists service. tauto.
Qed.

Lemma checkServiceAvailability_reason (db : DB) (storeId serviceId : string) :
  ok (value (checkServiceAvailability db storeId serviceId)) = false ->
  reason (value (checkServiceAvailability db storeId serviceId)) <> None.
Proof.
  unfold checkServiceAvailability. rewrite !value_bind. cbn [query value fst].
  destruct (find _ (services db)) as [service|]; cbn [ret value fst ok reason];
    [|discriminate].
  destruct (service_isActive service); cbn [negb ret value fst ok reason]; discriminate.
Qed.

Lemma checkBusinessHours_ok (db : DB) (storeId : string) (s e : Date) (v : Verdict) :
  value (checkBusinessHours db storeId s e) = Some v ->
  ok v = true ->
  exists h businessStart businessEnd,
    In h (businessHours db)
    /\ Temporal.bh_storeId h = storeId
    /\ Temporal.bh_dayOfWeek h = getDay s
    /\ Temporal.bh_isClosed h = false
    /\ parseISO_on (startOfDay s) (Temporal.bh_openTime h) = Some businessStart
    /\ parseISO_on (startOfDay s) (Temporal.bh_closeTime h) = Some businessEnd
    /\ businessStart <= s <= businessEnd
    /\ businessStart <= e <= businessEnd.
Proof.
  unfold checkBusinessHours. cbv zeta. rewrite value_bind. cbn [query value fst].
  destruct (find _ (businessHours db)) as [h|] eqn:Hfind; cbn [ret value fst].
  2:{ intros H. injection H as <-. discriminate. }
  destruct (Temporal.bh_isClosed h) eqn:Hclosed; cbn [ret value fst].
  { intros H. injection H as <-. discriminate. }
  destruct (parseISO_on (startOfDay s) (Temporal.bh_openTime h)) as [bs|] eqn:Hbs;
    cbn [isWithinInterval ret value fst]; [|discriminate].
  destruct (parseISO_on (startOfDay s) (Temporal.bh_closeTime h)) as [be|] eqn:Hbe;
    cbn [isWithinInterval ret value fst]; [|discriminate].
  destruct (bs <=? be); cbn [ret value fst]; [|discriminate].
  destruct ((bs <=? s) && (s <=? be)) eqn:Hs; cbn [negb orb ret value fst].
  2:{ intros H. injection H as <-. discriminate. }
  destruct ((bs <=? e) && (e <=? be)) eqn:He; cbn [negb orb ret value fst].
  2:{ intros H. injection H as <-. discriminate. }
  intros _ _. apply find_some in Hfind. destruct Hfind as [Hin H].
  rewrite andb_true_iff, String.eqb_eq, Z.eqb_eq in H.
  rewrite andb_true_iff, !Z.leb_le in Hs, He.
  exists h, bs, be. tauto.
Qed.

Lemma checkBusinessHours_reason (db : DB) (storeId : string) (s e : Date) (v : Verdict) :
  value (checkBusinessHours db storeId s e) = Some v ->
  ok v = false -> reason v <> None.
Proof.
  unfold checkBusinessHours. cbv zeta. rewrite value_bind. cbn [query value fst].
  destruct (find _ (businessHours db)) as [h|]; cbn [ret value fst].
  2:{ intros H. injection H as <-. discriminate. }
  destruct (Temporal.bh_isClosed h); cbn [ret value fst].
  { intros H. injection H as <-. discriminate. }
  destruct (isWithinInterval s _ _) as [a|]; [|discriminate].
  destruct (isWithinInterval e _ _) as [b|]; [|discriminate].
  destruct (negb a || negb b); cbn [ret value fst]; intros H; injection H as <-;
    discriminate.
Qed.

Lemma checkBarberAvailability_ok (db : DB) (storeId barberId : string) (s e : Date)
    (ex : option string) :
  ok (value (checkBarberAvailability db storeId barberId s e ex)) = true ->
  (exists barber, In barber (barbers db)
                  /\ barber_id barber = barberId
                  /\ barber_storeId barber = storeId
                  /\ barber_isActive barber = true)
  /\ filter (whereClause storeId barberId s e ex) (bookings db) = [].
Proof.
  unfold checkBarberAvailability. rewrite value_bind. cbn [query value fst].
  destruct (find _ (barbers db)) as [barber|] eqn:Hfind; cbn [ret value fst ok];
    [|discriminate].
  destruct (barber_isActive barber) eqn:Hactive; cbn [negb ret value fst ok];
    [|discriminate].
  rewrite value_bind. cbn [query value fst].
  destruct (filter _ (bookings db)); cbn [ret value fst ok]; [|discriminate].
  intros _. apply find_some in Hfind. destruct Hfind as [Hin H].
  rewrite andb_true_iff, !String.eqb_eq in H.
  split; [|reflexivity]. exists barber. tauto.
Qed.

Lemma checkBarberAvailability_reason (db : DB) (storeId barberId : string) (s e : Date)
    (ex : option string) :
  ok (value (checkBarberAvailability db storeId barberId s e ex)) = false ->
  reason (value (checkBarberAvailability db storeId barberId s e ex)) <> None.
Proof.
  unfold checkBarberAvailability. rewrite !value_bind. cbn [query value fst].
  destruct (find _ (barbers db)) as [barber|]; cbn [ret value fst ok reason];
    [|discriminate].
  destruct (barber_isActive barber); cbn [negb ret value fst ok reason];
    [|discriminate].
  rewrite !value_bind. cbn [query value fst].
  destruct (filter _ (bookings db)); cbn [ret value fst ok reason]; discriminate.
Qed.

(** The branches of [checkBookingConflicts] that answer "no conflict". *)
Lemma checkBookingConflicts_accepted (db : DB) (check : BookingConflictCheck) :
  hasConflict (value (checkBookingConflicts db check)) = false ->
  ok (value (checkServiceAvailability db (check_storeId check)
               (check_serviceId check))) = true
  /\ (exists v, value (checkBusinessHours db (check_storeId check)
                         (check_startTime check) (check_endTime check)) = Some v
                /\ ok v = true)
  /\ (forall barberId,
        check_barberId check = Some barberId ->
        barberId <> EmptyString ->
        ok (value (checkBarberAvailability db (check_storeId check) barberId
                     (check_startTime check) (check_endTime check)
                     (check_excludeBookingId check))) = true)
  /\ (truthy (check_barberId check) = false ->
      value (findAvailableBarbers db (check_storeId check) (check_startTime check)
               (check_endTime check) (check_excludeBookingId check)) <> []).
Proof.
  unfold checkBookingConflicts. cbv zeta. rewrite value_bind.
  destruct (ok (value (checkServiceAvailability db _ _))) eqn:Hservice;
    cbn [negb ret value fst hasConflict]; [|discriminate].
  rewrite value_bind.
  destruct (value (checkBusinessHours db _ _ _)) as [v|] eqn:Hhours;
    cbn [ret value fst hasConflict]; [|discriminate].
  destruct (ok v) eqn:Hv; cbn [negb ret value fst hasConflict]; [|discriminate].
  intros H. split; [reflexivity|]. split; [exists v; split; [reflexivity|exact Hv]|].
  destruct (check_barberId check) as [theBarber|] eqn:Hbarber.
  - destruct (truthy (Some theBarber)) eqn:Htruthy.
    + rewrite value_bind in H.
      destruct (ok (value (checkBarberAvailability db _ theBarber _ _ _))) eqn:Hok;
        cbn [negb] in H.
      * split; [|discriminate]. intros id Hid _. injection Hid as <-. exact Hok.
      * rewrite value_bind in H. cbn [ret value fst hasConflict] in H. discriminate H.
    + split.
      * intros id Hid Hne. injection Hid as <-. simpl in Htruthy.
        destruct (String.eqb_spec theBarber EmptyString); [contradiction|discriminate].
      * intros _. rewrite value_bind in H.
        destruct (value (findAvailableBarbers db _ _ _ _)); [|discriminate].
        cbn [List.length Nat.eqb ret value fst hasConflict] in H. discriminate H.
  - split; [discriminate|]. intros _. rewrite value_bind in H.
    destruct (value (findAvailableBarbers db _ _ _ _)); [|discriminate].
    cbn [List.length Nat.eqb ret value fst hasConflict] in H. discriminate H.
Qed.

(** X9: when [checkBookingConflicts] reports no conflict, the service is an
    active service of the store, the start and the end both lie inside the
    opening hours of an open row for that weekday, and the barber named in
    the request (or, when none is named, some barber) is an active barber
    of the store none of whose bookings that are neither cancelled nor
    excluded meets the overlap condition. *)
Theorem no_conflict_is_sound :
  forall (db : DB) (check : BookingConflictCheck),
    hasConflict (value (checkBookingConflicts db check)) = false ->
    (exists service, In service (services db)
                     /\ service_id service = check_serviceId check
                     /\ service_storeId service = check_storeId check
                     /\ service_isActive service = true)
    /\ (exists h businessStart businessEnd,
           In h (businessHours db)
           /\ Temporal.bh_storeId h = check_storeId check
           /\ Temporal.bh_dayOfWeek h = getDay (check_startTime check)
           /\ Temporal.bh_isClosed h = false
           /\ parseISO_on (startOfDay (check_startTime check)) (Temporal.bh_openTime h)
              = Some businessStart
           /\ parseISO_on (startOfDay (check_startTime check)) (Temporal.bh_closeTime h)
              = Some businessEnd
           /\ businessStart <= check_startTime check <= businessEnd
           /\ businessStart <= check_endTime check <= businessEnd)
    /\ (exists barber,
           In barber (barbers db)
           /\ barber_storeId barber = check_storeId check
           /\ barber_isActive barber = true
           /\ (forall id, check_barberId check = Some id -> id <> EmptyString ->
                 barber_id barber = id)
           /\ forall b,
               In b (bookings db) ->
               booking_storeId b = check_storeId check ->
               booking_barberId b = barber_id barber ->
               booking_status b <> cancelled ->
               (truthy (check_excludeBookingId check) = true ->
                check_excludeBookingId check <> Some (booking_id b)) ->
               overlapClause (check_startTime check) (check_endTime check) b = false).
Proof.
  intros db check H.
  destruct (checkBookingConflicts_accepted db check H)
    as (Hservice & (v & Hhours & Hv) & Hnamed & Hauto).
  split; [apply checkServiceAvailability_ok; exact Hservice|].
  split; [apply (checkBusinessHours_ok _ _ _ _ _ Hhours Hv)|].
  assert (Hfree : forall id,
            ok (value (checkBarberAvailability db (check_storeId check) id
                         (check_startTime check) (check_endTime check)
                         (check_excludeBookingId check))) = true ->
            exists barber,
              In barber (barbers db)
              /\ barber_storeId barber = check_storeId check
              /\ barber_isActive barber = true
              /\ barber_id barber = id
              /\ forall b,
                  In b (bookings db) ->
                  booking_storeId b = check_storeId check ->
                  booking_barberId b = barber_id barber ->
                  booking_status b <> cancelled ->
                  (truthy (check_excludeBookingId check) = true ->
                   check_excludeBookingId check <> Some (booking_id b)) ->
                  overlapClause (check_startTime check) (check_endTime check) b = false).
  { intros id Hok. apply checkBarberAvailability_ok in Hok.
    destruct Hok as [(barber & Hin & Hid & Hstore & Hactive) Hnone].
    exists barber. repeat split; try assumption.
    intros b Hb Hbs Hbb Hst Hex.
    destruct (overlapClause _ _ b) eqn:Hov; [|reflexivity].
    assert (Hw : In b (filter (whereClause (check_storeId check) id
                                 (check_startTime check) (check_endTime check)
                                 (check_excludeBookingId check)) (bookings db))).
    { apply filter_In. split; [exact Hb|]. apply whereClause_spec.
      repeat split; try assumption. congruence. }
    rewrite Hnone in Hw. contradiction. }
  destruct (truthy (check_barberId check)) eqn:Htruthy.
  - destruct (check_barberId check) as [id|] eqn:Hid; [|discriminate].
    assert (Hne : id <> EmptyString).
    { simpl in Htruthy. destruct (String.eqb_spec id EmptyString); [discriminate|assumption]. }
    destruct (Hfree id (Hnamed id eq_refl Hne)) as (barber & H1 & H2 & H3 & H4 & H5).
    exists barber. repeat split; try assumption.
    intros id' Hid' _. congruence.
  - specialize (Hauto eq_refl).
    destruct (value (findAvailableBarbers db _ _ _ _)) as [|a rest] eqn:Hscan;
      [contradiction|].
    assert (Ha : In a (value (findAvailableBarbers db (check_storeId check)
                                (check_startTime check) (check_endTime check)
                                (check_excludeBookingId check))))
      by (rewrite Hscan; left; reflexivity).
    apply findAvailableBarbers_In in Ha.
    destruct Ha as (b0 & _ & _ & _ & _ & Hok).
    destruct (Hfree _ Hok) as (barber & H1 & H2 & H3 & H4 & H5).
    exists barber. repeat split; try assumption.
    intros id Hid Hne. exfalso. rewrite Hid in Htruthy. simpl in Htruthy.
    destruct (String.eqb_spec id EmptyString); [contradiction|discriminate].
Qed.

(** X10: the result of [checkBookingConflicts] is well formed: a conflict
    always carries its type and a detail text; "no conflict" carries
    neither; and alternatives are attached only to [barber_unavailable],
    at most five of them. *)
Theorem conflict_result_shape :
  forall (db : DB) (check : BookingConflictCheck),
    let result := value (checkBookingConflicts db check) in
    (hasConflict result = true ->
     conflictType result <> None /\ conflictDetails result <> None)
    /\ (hasConflict result = false ->
        conflictType result = None /\ conflictDetails result = None
        /\ suggestedAlternatives result = None)
    /\ (forall alternatives,
          suggestedAlternatives result = Some alternatives ->
          conflictType result = Some barber_unavailable
          /\ (List.length alternatives <= 5)%nat).
Proof.
  intros db check. cbv zeta.
  unfold checkBookingConflicts. cbv zeta. rewrite value_bind.
  destruct (ok (value (checkServiceAvailability db _ _))) eqn:Hservice;
    cbn [negb ret value fst hasConflict conflictType conflictDetails
         suggestedAlternatives].
  2:{ repeat split; try discriminate.
      apply checkServiceAvailability_reason. exact Hservice. }
  rewrite value_bind.
  destruct (value (checkBusinessHours db _ _ _)) as [v|] eqn:Hhours;
    cbn [ret value fst hasConflict conflictType conflictDetails suggestedAlternatives].
  2:{ repeat split; discriminate. }
  destruct (ok v) eqn:Hv;
    cbn [negb ret value fst hasConflict conflictType conflictDetails
         suggestedAlternatives].
  2:{ repeat split; try discriminate.
      apply (checkBusinessHours_reason _ _ _ _ _ Hhours Hv). }
  assert (Hscan : forall r,
            r = value (availableBarbers <- findAvailableBarbers db (check_storeId check)
                         (check_startTime check) (check_endTime check)
                         (check_excludeBookingId check) ;;
                       if (List.length availableBarbers =? 0)%nat
                       then ret (mkConflictCheckResult true (Some time_overlap)
                                   (Some "該時段所有理髮師都已被預約") None)
                       else ret (mkConflictCheckResult false None None None)) ->
            (hasConflict r = true -> conflictType r <> None /\ conflictDetails r <> None)
            /\ (hasConflict r = false ->
                conflictType r = None /\ conflictDetails r = None
                /\ suggestedAlternatives r = None)
            /\ (forall alternatives,
                  suggestedAlternatives r = Some alternatives ->
                  conflictType r = Some barber_unavailable
                  /\ (List.length alternatives <= 5)%nat)).
  { intros r ->. rewrite value_bind.
    destruct (List.length _ =? 0)%nat;
      cbn [ret value fst hasConflict conflictType conflictDetails suggestedAlternatives];
      repeat split; discriminate. }
  destruct (check_barberId check) as [theBarber|]; [|apply Hscan; reflexivity].
  destruct (truthy (Some theBarber)); [|apply Hscan; reflexivity].
  rewrite value_bind.
  destruct (ok (value (checkBarberAvailability db _ theBarber _ _ _))) eqn:Hok;
    cbn [negb ret value fst hasConflict conflictType conflictDetails
         suggestedAlternatives].
  { repeat split; discriminate. }
  rewrite value_bind.
  cbn [ret value fst hasConflict conflictType conflictDetails suggestedAlternatives].
  repeat split; try discriminate.
  - apply checkBarberAvailability_reason. exact Hok.
  - injection H as <-. unfold findAlternativeBarbers. rewrite !value_bind.
    cbv [ret value fst]. rewrite length_firstn. lia.
Qed.

End Acceptance.

(** ** Rosters *)

Section Rosters.
Import Prisma DateFns ConflictDetectionService BookingService Tables.

Lemma scanBarbers_value (db : DB) (storeId : string) (s e : Date) (ex : option string) :
  forall roster,
    value (scanBarbers db storeId roster s e ex)
    = map (fun b => mkAlternative (barber_id b) (barber_name b) s e)
          (filter (fun b => ok (value (checkBarberAvailability db storeId (barber_id b)
                                         s e ex)))
                  roster).
Proof.
  induction roster as [|b rest IH]; cbn [scanBarbers filter]; [reflexivity|].
  rewrite !value_bind.
  destruct (ok (value (checkBarberAvailability db storeId (barber_id b) s e ex)));
    cbn [ret value fst map]; rewrite IH; reflexivity.
Qed.

Lemma scanCalendar_value (db : DB) (storeId : string) (s e : Date) :
  forall roster,
    value (scanCalendar db storeId roster s e)
    = map (fun b => (barber_id b, barber_name b))
          (filter (fun b => value (CalendarService.isTimeSlotAvailable db storeId
                                     (barber_id b) s e))
                  roster).
Proof.
  induction roster as [|b rest IH]; cbn [scanCalendar filter]; [reflexivity|].
  rewrite !value_bind.
  destruct (value (CalendarService.isTimeSlotAvailable db storeId (barber_id b) s e));
    cbn [ret value fst map]; rewrite IH; reflexivity.
Qed.

(** X11: both scans return the active barbers of the store that pass their
    availability test, each once per row and in storage order: the scan of
    the conflict service those that pass [checkBarberAvailability], the
    scan used for automatic assignment those for which
    [isTimeSlotAvailable] is true. *)
Theorem scans_keep_roster_order :
  forall (db : DB) (storeId : string) (s e : Date) (ex : option string),
    value (findAvailableBarbers db storeId s e ex)
    = map (fun b => mkAlternative (barber_id b) (barber_name b) s e)
          (filter (fun b => ok (value (checkBarberAvailability db storeId (barber_id b)
                                         s e ex)))
                  (filter (fun b => String.eqb (barber_storeId b) storeId
                                    && barber_isActive b)
                          (barbers db)))
    /\ value (findAvailableBarber db storeId s e)
       = map (fun b => (barber_id b, barber_name b))
             (filter (fun b => value (CalendarService.isTimeSlotAvailable db storeId
                                        (barber_id b) s e))
                     (filter (fun b => String.eqb (barber_storeId b) storeId
                                       && barber_isActive b)
                             (barbers db))).
Proof.
  intros db storeId s e ex. split.
  - unfold findAvailableBarbers. rewrite value_bind. cbn [query value fst].
    apply scanBarbers_value.
  - unfold findAvailableBarber. rewrite value_bind. cbn [query value fst].
    apply scanCalendar_value.
Qed.

Lemma isTimeSlotAvailable_true (db : DB) (storeId barberId : string) (s e : Date) :
  value (CalendarService.isTimeSlotAvailable db storeId barberId s e) = true ->
  filter (whereClause storeId barberId s e None) (bookings db) = []
  /\ exists hours businessStart businessEnd,
      value (CalendarService.getBusinessHours db storeId (startOfDay s)) = Some hours
      /\ parseISO_on (startOfDay s) (fst hours) = Some businessStart
      /\ parseISO_on (startOfDay s) (snd hours) = Some businessEnd
      /\ businessStart <= s <= businessEnd
      /\ businessStart <= e <= businessEnd.
Proof.
  unfold CalendarService.isTimeSlotAvailable. cbv zeta. rewrite value_bind.
  destruct (value (CalendarService.getBusinessHours db storeId (startOfDay s)))
    as [hours|]; [|discriminate].
  destruct (parseISO_on (startOfDay s) (fst hours)) as [bs|] eqn:Hbs;
    cbn [isWithinInterval]; [|discriminate].
  destruct (parseISO_on (startOfDay s) (snd hours)) as [be|] eqn:Hbe;
    cbn [isWithinInterval]; [|discriminate].
  destruct (bs <=? be); [|discriminate].
  destruct ((bs <=? s) && (s <=? be)) eqn:Hs; cbn [negb]; [|discriminate].
  destruct ((bs <=? e) && (e <=? be)) eqn:He; cbn [negb]; [|discriminate].
  rewrite value_bind. cbn [query ret value fst].
  destruct (filter _ (bookings db)); [|discriminate].
  intros _. split; [reflexivity|].
  rewrite andb_true_iff, !Z.leb_le in Hs, He.
  exists hours, bs, be. repeat split; try reflexivity; tauto.
Qed.

Lemma unique_barber (l : list Barber) (a b : Barber) :
  NoDup (map barber_id l) -> In a l -> In b l -> barber_id a = barber_id b -> a = b.
Proof.
  induction l as [|x l IH]; intros Hnd Ha Hb Heq; [contradiction|].
  cbn [map] in Hnd. inversion Hnd as [|? ? Hx Hl]; subst.
  destruct Ha as [<-|Ha], Hb as [<-|Hb].
  - reflexivity.
  - exfalso. apply Hx. rewrite Heq. apply in_map. exact Hb.
  - exfalso. apply Hx. rewrite <- Heq. apply in_map. exact Ha.
  - apply IH; assumption.
Qed.

(** X12: when barber keys are unique, every barber proposed by the
    automatic assignment of [createBooking] passes the barber check of the
    conflict service for the same interval, and the interval lies inside
    the opening hours the calendar reads for that day. *)
Theorem auto_assigned_barber_is_available :
  forall (db : DB) (storeId : string) (s e : Date) (candidate : string * string),
    NoDup (map barber_id (barbers db)) ->
    In candidate (value (findAvailableBarber db storeId s e)) ->
    ok (value (checkBarberAvailability db storeId (fst candidate) s e None)) = true
    /\ exists hours businessStart businessEnd,
        value (CalendarService.getBusinessHours db storeId (startOfDay s)) = Some hours
        /\ parseISO_on (startOfDay s) (fst hours) = Some businessStart
        /\ parseISO_on (startOfDay s) (snd hours) = Some businessEnd
        /\ businessStart <= s <= businessEnd
        /\ businessStart <= e <= businessEnd.
Proof.
  intros db storeId s e candidate Hnd Hin.
  unfold findAvailableBarber in Hin. rewrite value_bind in Hin.
  cbn [query value fst] in Hin. rewrite scanCalendar_value in Hin.
  apply in_map_iff in Hin. destruct Hin as (b & <- & Hb).
  apply filter_In in Hb. destruct Hb as [Hb Hfree].
  apply filter_In in Hb. destruct Hb as [Hin Hb].
  apply andb_true_iff in Hb. destruct Hb as [Hstore Hactive].
  apply isTimeSlotAvailable_true in Hfree. destruct Hfree as [Hnone Hhours].
  split; [|exact Hhours]. cbn [fst].
  assert (Hfind : find (fun x => String.eqb (barber_id x) (barber_id b)
                                 && String.eqb (barber_storeId x) storeId)
                       (barbers db) = Some b).
  { destruct (find _ (barbers db)) as [b'|] eqn:Hf.
    - apply find_some in Hf. destruct Hf as [Hin' H'].
      apply andb_true_iff in H'. destruct H' as [Hid' _]. apply String.eqb_eq in Hid'.
      f_equal. apply (unique_barber (barbers db)); assumption.
    - exfalso. apply (find_none _ _ Hf) in Hin.
      rewrite String.eqb_refl, Hstore in Hin. discriminate Hin. }
  apply (checkBarberAvailability_available_iff db storeId (barber_id b) s e None b
           Hfind Hactive).
  exact Hnone.
Qed.

End Rosters.

(** ** Cancelled bookings *)

Section LiveBookings.
Import Prisma DateFns ConflictDetectionService BookingService BookingCancel Tables.

Lemma filter_implied {A} (f g : A -> bool) (l : list A) :
  (forall x, f x = true -> g x = true) ->
  filter f (filter g l) = filter f l.
Proof.
  intros H. induction l as [|x l IH]; cbn [filter]; [reflexivity|].
  destruct (g x) eqn:Hg; cbn [filter].
  - rewrite IH. reflexivity.
  - rewrite IH. destruct (f x) eqn:Hf; [|reflexivity].
    rewrite (H x Hf) in Hg. discriminate Hg.
Qed.

Lemma whereClause_live (db : DB) (storeId barberId : string) (s e : Date)
    (ex : option string) :
  filter (whereClause storeId barberId s e ex) (bookings db)
  = filter (whereClause storeId barberId s e ex) (liveBookings db).
Proof.
  unfold liveBookings. symmetry. apply filter_implied.
  intros x Hx. unfold whereClause in Hx. rewrite !andb_true_iff in Hx. tauto.
Qed.

Section SameLive.
Variables db1 db2 : DB.
Hypothesis Hsame : sameLive db1 db2.

Lemma sameLive_checkBarberAvailability (storeId barberId : string) (s e : Date)
    (ex : option string) :
  checkBarberAvailability db1 storeId barberId s e ex
  = checkBarberAvailability db2 storeId barberId s e ex.
Proof.
  destruct Hsame as (_ & _ & Hbarbers & Hlive).
  unfold checkBarberAvailability. rewrite Hbarbers.
  apply bind_ext; [reflexivity|]. intros [barber|]; [|reflexivity].
  destruct (negb (barber_isActive barber)); [reflexivity|].
  apply bind_ext; [|reflexivity].
  unfold query. rewrite !whereClause_live, Hlive. reflexivity.
Qed.

Lemma sameLive_scanBarbers (storeId : string) (s e : Date) (ex : option string)
    (roster : list Barber) :
  scanBarbers db1 storeId roster s e ex = scanBarbers db2 storeId roster s e ex.
Proof.
  induction roster as [|b rest IH]; cbn [scanBarbers]; [reflexivity|].
  apply bind_ext; [apply sameLive_checkBarberAvailability|]. intros availability.
  apply bind_ext; [exact IH|]. reflexivity.
Qed.

Lemma sameLive_findAvailableBarbers (storeId : string) (s e : Date) (ex : option string) :
  findAvailableBarbers db1 storeId s e ex = findAvailableBarbers db2 storeId s e ex.
Proof.
  unfold findAvailableBarbers.
  destruct Hsame as (_ & _ & Hbarbers & _). rewrite Hbarbers.
  apply bind_ext; [reflexivity|]. intros roster. apply sameLive_scanBarbers.
Qed.

Lemma sameLive_scanSlots (storeId : string) (ex : option string)
    (windows : list (Date * Date)) :
  forall collected,
    scanSlots db1 storeId ex windows collected = scanSlots db2 storeId ex windows collected.
Proof.
  induction windows as [|w rest IH]; intros collected; cbn [scanSlots]; [reflexivity|].
  apply bind_ext; [apply sameLive_findAvailableBarbers|]. intros found.
  destruct (5 <=? List.length (collected ++ found))%nat; [reflexivity|apply IH].
Qed.

Lemma sameLive_findAlternativeBarbers (storeId : string) (s e : Date)
    (ex : option string) :
  findAlternativeBarbers db1 storeId s e ex = findAlternativeBarbers db2 storeId s e ex.
Proof.
  unfold findAlternativeBarbers.
  apply bind_ext; [apply sameLive_findAvailableBarbers|]. intros same.
  apply bind_ext; [|reflexivity].
  destruct (List.length ([] ++ same) =? 0)%nat; [apply sameLive_scanSlots|reflexivity].
Qed.

Lemma sameLive_checkBookingConflicts (check : BookingConflictCheck) :
  checkBookingConflicts db1 check = checkBookingConflicts db2 check.
Proof.
  pose proof Hsame as (Hservices & Hhours & _ & _).
  unfold checkBookingConflicts, checkServiceAvailability, checkBusinessHours. cbv zeta.
  rewrite Hservices, Hhours.
  apply bind_ext; [reflexivity|]. intros serviceCheck.
  destruct (negb (ok serviceCheck)); [reflexivity|].
  apply bind_ext; [reflexivity|]. intros [hoursCheck|]; [|reflexivity].
  destruct (negb (ok hoursCheck)); [reflexivity|].
  destruct (check_barberId check) as [theBarber|].
  - destruct (truthy (Some theBarber)).
    + apply bind_ext; [apply sameLive_checkBarberAvailability|]. intros barberCheck.
      destruct (negb (ok barberCheck)); [|reflexivity].
      apply bind_ext; [apply sameLive_findAlternativeBarbers|]. reflexivity.
    + apply bind_ext; [apply sameLive_findAvailableBarbers|]. reflexivity.
  - apply bind_ext; [apply sameLive_findAvailableBarbers|]. reflexivity.
Qed.

End SameLive.

(** X13: the conflict check looks at bookings that are not cancelled only:
    on two states of the tables that differ at most in cancelled bookings
    it returns the same result and runs the same queries, and so do the
    barber check and the alternative search. *)
Theorem checks_ignore_cancelled :
  forall (db1 db2 : DB),
    sameLive db1 db2 ->
    (forall check, checkBookingConflicts db1 check = checkBookingConflicts db2 check)
    /\ (forall storeId barberId s e ex,
          checkBarberAvailability db1 storeId barberId s e ex
          = checkBarberAvailability db2 storeId barberId s e ex)
    /\ (forall storeId s e ex,
          findAlternativeBarbers db1 storeId s e ex
          = findAlternativeBarbers db2 storeId s e ex).
Proof.
  intros db1 db2 Hsame. split; [|split]; intros.
  - apply sameLive_checkBookingConflicts. exact Hsame.
  - apply sameLive_checkBarberAvailability. exact Hsame.
  - apply sameLive_findAlternativeBarbers. exact Hsame.
Qed.

Lemma cancel_live (db : DB) (bookingId : string) (row : Booking) :
  booking_status row = cancelled ->
  filter (fun b => negb (status_eqb (booking_status b) cancelled))
         (map (fun b => if String.eqb (booking_id b) bookingId then row else b)
              (bookings db))
  = filter (fun b => negb (status_eqb (booking_status b) cancelled))
           (filter (fun b => negb (String.eqb (booking_id b) bookingId)) (bookings db)).
Proof.
  intros Hrow. induction (bookings db) as [|x l IH]; cbn [map filter]; [reflexivity|].
  destruct (String.eqb (booking_id x) bookingId); cbn [negb filter].
  - rewrite Hrow. cbn [status_eqb negb]. exact IH.
  - rewrite IH. reflexivity.
Qed.

(** X14: [cancelBooking] fails, changing nothing, for an unknown key and for
    a booking that is already cancelled; when it succeeds, every row with
    that key has status [cancelled] afterwards, the other rows are kept, and
    every later conflict check answers as if the booking had been removed. *)
Theorem cancelBooking_frees_the_slot :
  forall (db : DB) (bookingId : string) (why : option string),
    let run := value (cancelBooking db bookingId why) in
    (find (fun b => String.eqb (booking_id b) bookingId) (bookings db) = None ->
     run = (failure (Some "找不到指定的預約"), db))
    /\ (forall booking,
          find (fun b => String.eqb (booking_id b) bookingId) (bookings db) = Some booking ->
          booking_status booking = cancelled ->
          run = (failure (Some "預約已經被取消"), db))
    /\ (success (fst run) = true ->
        (forall b, In b (bookings (snd run)) ->
           (booking_id b = bookingId -> booking_status b = cancelled)
           /\ (booking_id b <> bookingId -> In b (bookings db)))
        /\ List.length (bookings (snd run)) = List.length (bookings db)
        /\ forall check,
            checkBookingConflicts (snd run) check
            = checkBookingConflicts (SpecWords.withoutBooking bookingId db) check).
Proof.
  intros db bookingId why. cbv zeta. unfold cancelBooking.
  rewrite value_bind. cbn [query value fst].
  destruct (find _ (bookings db)) as [booking|] eqn:Hfind.
  2:{ split; [reflexivity|]. split; [discriminate|]. discriminate. }
  split; [discriminate|].
  destruct (status_eqb (booking_status booking) cancelled) eqn:Hst.
  { split; [reflexivity|]. discriminate. }
  split.
  { intros b Hb Hc. injection Hb as <-. rewrite Hc in Hst. discriminate Hst. }
  cbv zeta.
  set (row := applyUpdate _ booking).
  assert (Hrow : booking_status row = cancelled) by reflexivity.
  assert (Hrowid : booking_id row = bookingId).
  { apply find_some in Hfind. destruct Hfind as [_ H]. apply String.eqb_eq in H.
    exact H. }
  destruct (includeNames db row) as [view|]; cbn [query ret value fst snd success failure];
    [|discriminate].
  intros _. cbn [bookings]. split; [|split].
  - intros b Hb. apply in_map_iff in Hb. destruct Hb as (x & Hx & Hin).
    destruct (String.eqb_spec (booking_id x) bookingId) as [Heq|Hne].
    + subst b. split; [intros _; exact Hrow|]. intros Hne. contradiction.
    + subst b. split; [intros Heq; contradiction|]. intros _. exact Hin.
  - apply length_map.
  - intros check. apply sameLive_checkBookingConflicts.
    unfold sameLive, liveBookings, SpecWords.withoutBooking. cbn [services businessHours
      barbers bookings].
    repeat split. apply cancel_live. exact Hrow.
Qed.

End LiveBookings.

(** ** Creating a booking *)

Section Creation.
Import Prisma DateFns ConflictDetectionService BookingService BookingCancel Tables.

Ltac split_run :=
  repeat (cbv beta iota;
          match goal with
          | |- context [match ?x with _ => _ end] =>
              lazymatch x with
              | context [match _ with _ => _ end] => fail
              | _ => destruct x
              end
          end).

(** X15: an operation that fails leaves the tables as they were: this holds
    for [createBooking], [updateBooking] and [cancelBooking]. *)
Theorem failure_changes_nothing :
  forall (db : DB) (now : Date) (newId : string) (request : CreateBookingRequest)
         (change : UpdateBookingRequest) (bookingId : string) (why : option string),
    (success (fst (value (createBooking db now newId request))) = false ->
     snd (value (createBooking db now newId request)) = db)
    /\ (success (fst (value (updateBooking db now change))) = false ->
        snd (value (updateBooking db now change)) = db)
    /\ (success (fst (value (cancelBooking db bookingId why))) = false ->
        snd (value (cancelBooking db bookingId why)) = db).
Proof.
  intros db now newId request change bookingId why. split; [|split].
  - unfold createBooking. cbv zeta. unfold bind, query, ret, value, failure.
    split_run; cbn [fst snd success]; try reflexivity; discriminate.
  - unfold updateBooking. cbv zeta. unfold bind, query, ret, value, failure.
    split_run; cbn [fst snd success]; try reflexivity; discriminate.
  - unfold cancelBooking. cbv zeta. unfold bind, query, ret, value, failure.
    split_run; cbn [fst snd success]; try reflexivity; discriminate.
Qed.

(** What a successful [createBooking] went through. *)
Lemma createBooking_success (db : DB) (now : Date) (newId : string)
    (request : CreateBookingRequest) :
  success (fst (value (createBooking db now newId request))) = true ->
  exists startTime service barberId view,
    let stop := addMinutes startTime (service_duration service) in
    let row := mkBooking newId (create_storeId request) barberId
                 (create_serviceId request) (create_customerName request)
                 (create_customerContact request) (create_contactType request)
                 startTime stop confirmed (create_notes request) in
    create_startTime request = ValidDate startTime
    /\ find (fun s => String.eqb (service_id s) (create_serviceId request)
                      && String.eqb (service_storeId s) (create_storeId request)
                      && service_isActive s)
            (services db) = Some service
    /\ ok (validateBookingTime now (ValidDate startTime)) = true
    /\ ((create_barberId request = Some barberId /\ barberId <> EmptyString)
        \/ (truthy (create_barberId request) = false
            /\ exists name rest,
                value (findAvailableBarber db (create_storeId request)
                         startTime stop) = (barberId, name) :: rest))
    /\ hasConflict (value (checkBookingConflicts db
                             (mkBookingConflictCheck (create_storeId request)
                                (Some barberId) (create_serviceId request)
                                startTime stop None))) = false
    /\ includeNames db row = Some view
    /\ value (createBooking db now newId request)
       = (mkBookingResult true (Some view) None None,
          mkDB (services db) (businessHours db) (barbers db) (bookings db ++ [row])).
Proof.
  unfold createBooking. cbv zeta. rewrite !value_bind. cbn [query value fst].
  destruct (find _ (services db)) as [service|] eqn:Hservice;
    [|cbn [ret value fst success failure]; discriminate].
  destruct (create_startTime request) as [startTime|] eqn:Hstart.
  2:{ destruct (negb (ok (validateBookingTime now InvalidDate)));
        [cbn [ret value fst success failure]; discriminate|].
      unfold checkBookingConflicts_invalidDate, findAvailableBarber_invalidDate.
      unfold bind, query, ret, value, failure.
      split_run; cbn [fst snd success]; discriminate. }
  destruct (ok (validateBookingTime now (ValidDate startTime))) eqn:Hvalid;
    cbn [negb]; [|cbn [ret value fst success failure]; discriminate].
  rewrite !value_bind.
  assert (Hfinish : forall barberId,
            success (fst (value
              (conflictCheck <- checkBookingConflicts db
                   (mkBookingConflictCheck (create_storeId request) (Some barberId)
                      (create_serviceId request) startTime
                      (addMinutes startTime (service_duration service))
                      None) ;;
               if hasConflict conflictCheck
               then ret (mkBookingResult false None (conflictDetails conflictCheck)
                           (suggestedAlternatives conflictCheck), db)
               else
                 match includeNames db
                         (mkBooking newId (create_storeId request) barberId
                            (create_serviceId request) (create_customerName request)
                            (create_customerContact request) (create_contactType request)
                            startTime
                            (addMinutes startTime
                               (service_duration service))
                            confirmed (create_notes request)) with
                 | None => ret (failure (Some "創建預約時發生錯誤"), db)
                 | Some view =>
                     query (booking_create newId)
                       (mkBookingResult true (Some view) None None,
                        mkDB (services db) (businessHours db) (barbers db)
                          (bookings db
                           ++ [mkBooking newId (create_storeId request) barberId
                                 (create_serviceId request) (create_customerName request)
                                 (create_customerContact request)
                                 (create_contactType request) startTime
                                 (addMinutes startTime
                                    (service_duration service))
                                 confirmed (create_notes request)]))
                 end))) = true ->
            exists view,
              hasConflict (value (checkBookingConflicts db
                             (mkBookingConflictCheck (create_storeId request)
                                (Some barberId) (create_serviceId request)
                                startTime
                                (addMinutes startTime
                                   (service_duration service)) None))) = false
              /\ includeNames db
                   (mkBooking newId (create_storeId request) barberId
                      (create_serviceId request) (create_customerName request)
                      (create_customerContact request) (create_contactType request)
                      startTime
                      (addMinutes startTime (service_duration service))
                      confirmed (create_notes request)) = Some view
              /\ value
                   (conflictCheck <- checkBookingConflicts db
                        (mkBookingConflictCheck (create_storeId request) (Some barberId)
                           (create_serviceId request) startTime
                           (addMinutes startTime
                              (service_duration service)) None) ;;
                    if hasConflict conflictCheck
                    then ret (mkBookingResult false None (conflictDetails conflictCheck)
                                (suggestedAlternatives conflictCheck), db)
                    else
                      match includeNames db
                              (mkBooking newId (create_storeId request) barberId
                                 (create_serviceId request) (create_customerName request)
                                 (create_customerContact request)
                                 (create_contactType request) startTime
                                 (addMinutes startTime
                                    (service_duration service))
                                 confirmed (create_notes request)) with
                      | None => ret (failure (Some "創建預約時發生錯誤"), db)
                      | Some view =>
                          query (booking_create newId)
                            (mkBookingResult true (Some view) None None,
                             mkDB (services db) (businessHours db) (barbers db)
                               (bookings db
                                ++ [mkBooking newId (create_storeId request) barberId
                                      (create_serviceId request)
                                      (create_customerName request)
                                      (create_customerContact request)
                                      (create_contactType request)
                                      startTime
                                      (addMinutes startTime
                                         (service_duration service))
                                      confirmed (create_notes request)]))
                      end)
                 = (mkBookingResult true (Some view) None None,
                    mkDB (services db) (businessHours db) (barbers db)
                      (bookings db
                       ++ [mkBooking newId (create_storeId request) barberId
                             (create_serviceId request) (create_customerName request)
                             (create_customerContact request) (create_contactType request)
                             startTime
                             (addMinutes startTime
                                (service_duration service))
                             confirmed (create_notes request)]))).
  { intros barberId. rewrite !value_bind.
    destruct (hasConflict (value (checkBookingConflicts db _)));
      [cbn [ret value fst success]; discriminate|].
    destruct (includeNames db _) as [view|];
      [|cbn [ret value fst success failure]; discriminate].
    intros _. exists view. repeat split. }
  destruct (truthy (create_barberId request)) eqn:Htruthy.
  - cbn [ret value fst].
    destruct (create_barberId request) as [barberId|] eqn:Hbarber; [|discriminate].
    intros H. destruct (Hfinish barberId H) as (view & Hno & Hview & Hrun).
    exists startTime, service, barberId, view. cbv zeta.
    split; [reflexivity|]. split; [reflexivity|]. split; [exact Hvalid|].
    split; [|split; [exact Hno|split; [exact Hview|exact Hrun]]].
    left. split; [reflexivity|].
    simpl in Htruthy. destruct (String.eqb_spec barberId EmptyString);
      [discriminate|assumption].
  - rewrite !value_bind.
    destruct (value (findAvailableBarber db _ _ _)) as [|[barberId name] rest] eqn:Hscan;
      cbn [ret value fst]; [cbn [success failure]; discriminate|].
    cbn [fst]. intros H. destruct (Hfinish barberId H) as (view & Hno & Hview & Hrun).
    exists startTime, service, barberId, view. cbv zeta.
    split; [reflexivity|]. split; [reflexivity|]. split; [exact Hvalid|].
    split; [|split; [exact Hno|split; [exact Hview|exact Hrun]]].
    right. split; [reflexivity|]. exists name, rest. exact Hscan.
Qed.

Lemma nth_error_snoc {A} (l : list A) (x a : A) (i : nat) :
  nth_error (l ++ [x]) i = Some a ->
  ((i < List.length l)%nat /\ nth_error l i = Some a) \/ (i = List.length l /\ a = x).
Proof.
  intros H. destruct (Nat.lt_ge_cases i (List.length l)) as [Hlt|Hge].
  - left. split; [exact Hlt|]. rewrite nth_error_app1 in H by exact Hlt. exact H.
  - right. rewrite nth_error_app2 in H by exact Hge.
    destruct (i - List.length l)%nat as [|n] eqn:Hn; cbn in H.
    + injection H as <-. split; [lia|reflexivity].
    + destruct n; discriminate H.
Qed.

Lemma noDoubleBooking_snoc (l : list Booking) (row : Booking) :
  noDoubleBooking l ->
  (forall b, In b l ->
     booking_storeId b = booking_storeId row ->
     booking_barberId b = booking_barberId row ->
     booking_status b <> cancelled ->
     ~ bookingsOverlap row b) ->
  noDoubleBooking (l ++ [row]).
Proof.
  intros Hl Hrow i j a b Hi Hj Hij Hstore Hbarber Ha Hb.
  apply nth_error_snoc in Hi. apply nth_error_snoc in Hj.
  destruct Hi as [[Hi Hia]|[Hi ->]], Hj as [[Hj Hjb]|[Hj ->]].
  - apply (Hl i j a b); assumption.
  - intros [H1 H2]. apply (Hrow a); try assumption.
    + apply nth_error_In in Hia. exact Hia.
    + split; assumption.
  - apply Hrow; try (symmetry; assumption); try assumption.
    apply nth_error_In in Hjb. exact Hjb.
  - lia.
Qed.

(** X16: when barber keys are not empty, a successful [createBooking] was
    given a start time that is a valid date and adds exactly one row, after
    the others: a confirmed booking of an active
    service and an active barber of the store, starting inside the booking
    window, ending one service duration after its start, lying inside the
    opening hours of that weekday, and overlapping no booking of that
    barber that is not cancelled; so tables without double bookings stay
    without double bookings. *)
Theorem createBooking_keeps_invariant :
  forall (db : DB) (now : Date) (newId : string) (request : CreateBookingRequest),
    (forall b, In b (barbers db) -> barber_id b <> EmptyString) ->
    success (fst (value (createBooking db now newId request))) = true ->
    exists startTime service barber h businessStart businessEnd,
      let stop := addMinutes startTime (service_duration service) in
      let row := mkBooking newId (create_storeId request) (barber_id barber)
                   (create_serviceId request) (create_customerName request)
                   (create_customerContact request) (create_contactType request)
                   startTime stop confirmed (create_notes request) in
      create_startTime request = ValidDate startTime
      /\ In service (services db)
      /\ service_id service = create_serviceId request
      /\ service_storeId service = create_storeId request
      /\ service_isActive service = true
      /\ In barber (barbers db)
      /\ barber_storeId barber = create_storeId request
      /\ barber_isActive barber = true
      /\ SpecWords.inBookingWindow now startTime
      /\ In h (businessHours db)
      /\ Temporal.bh_storeId h = create_storeId request
      /\ Temporal.bh_dayOfWeek h = getDay startTime
      /\ Temporal.bh_isClosed h = false
      /\ parseISO_on (startOfDay startTime) (Temporal.bh_openTime h)
         = Some businessStart
      /\ parseISO_on (startOfDay startTime) (Temporal.bh_closeTime h)
         = Some businessEnd
      /\ businessStart <= startTime
      /\ stop <= businessEnd
      /\ snd (value (createBooking db now newId request))
         = mkDB (services db) (businessHours db) (barbers db) (bookings db ++ [row])
      /\ (forall b, In b (bookings db) ->
            booking_storeId b = create_storeId request ->
            booking_barberId b = barber_id barber ->
            booking_status b <> cancelled ->
            ~ bookingsOverlap row b)
      /\ (noDoubleBooking (bookings db) ->
          noDoubleBooking (bookings (snd (value (createBooking db now newId request))))).
Proof.
  intros db now newId request Hkeys Hok.
  destruct (createBooking_success db now newId request Hok)
    as (startTime & service & barberId & view & Hstart & Hservice & Hvalid & Hassigned
        & Hno & _ & Hrun).
  cbv zeta in *.
  set (stop := addMinutes startTime (service_duration service)) in *.
  assert (Hne : barberId <> EmptyString).
  { destruct Hassigned as [[_ Hne]|[_ (name & rest & Hscan)]]; [exact Hne|].
    assert (Hin : In (barberId, name)
                     (value (findAvailableBarber db (create_storeId request)
                               startTime stop)))
      by (rewrite Hscan; left; reflexivity).
    unfold findAvailableBarber in Hin. rewrite value_bind in Hin.
    cbn [query value fst] in Hin. rewrite scanCalendar_value in Hin.
    apply in_map_iff in Hin. destruct Hin as (b & Hb & Hin).
    injection Hb as <- _. apply filter_In in Hin. destruct Hin as [Hin _].
    apply filter_In in Hin. destruct Hin as [Hin _]. apply Hkeys. exact Hin. }
  destruct (checkBookingConflicts_accepted db _ Hno)
    as (_ & (v & Hhours & Hv) & Hnamed & _).
  cbn [check_storeId check_barberId check_serviceId check_startTime check_endTime
       check_excludeBookingId] in Hhours, Hnamed.
  specialize (Hnamed barberId eq_refl Hne).
  apply checkBarberAvailability_ok in Hnamed.
  destruct Hnamed as [(barber & Hbin & Hbid & Hbstore & Hbactive) Hnone].
  destruct (checkBusinessHours_ok _ _ _ _ _ Hhours Hv)
    as (h & bs & be & Hh1 & Hh2 & Hh3 & Hh4 & Hh5 & Hh6 & Hh7 & Hh8).
  apply find_some in Hservice. destruct Hservice as [Hsin Hs].
  rewrite !andb_true_iff, !String.eqb_eq in Hs.
  subst barberId.
  assert (Hfree : forall b, In b (bookings db) ->
            booking_storeId b = create_storeId request ->
            booking_barberId b = barber_id barber ->
            booking_status b <> cancelled ->
            ~ bookingsOverlap
                (mkBooking newId (create_storeId request) (barber_id barber)
                   (create_serviceId request) (create_customerName request)
                   (create_customerContact request) (create_contactType request)
                   startTime stop confirmed (create_notes request)) b).
  { intros b Hb Hbs Hbb Hst [H1 H2]. cbn [booking_startTime booking_endTime] in H1, H2.
    assert (Hw : In b (filter (whereClause (create_storeId request) (barber_id barber)
                                 startTime stop None) (bookings db))).
    { apply filter_In. split; [exact Hb|]. apply whereClause_spec.
      repeat split; try assumption; [|discriminate].
      apply slotOverlaps_overlapClause. unfold CalendarService.slotOverlaps.
      apply andb_true_iff. split; apply Z.ltb_lt; assumption. }
    rewrite Hnone in Hw. contradiction. }
  exists startTime, service, barber, h, bs, be. cbv zeta. fold stop.
  split; [exact Hstart|]. split; [exact Hsin|]. split; [tauto|]. split; [tauto|]. split; [tauto|].
  split; [exact Hbin|]. split; [exact Hbstore|]. split; [exact Hbactive|].
  split; [apply validateBookingTime_spec; exact Hvalid|].
  split; [exact Hh1|]. split; [exact Hh2|]. split; [exact Hh3|]. split; [exact Hh4|].
  split; [exact Hh5|]. split; [exact Hh6|]. split; [lia|]. split; [lia|].
  split; [rewrite Hrun; reflexivity|]. split; [exact Hfree|].
  intros Hinv. rewrite Hrun. cbn [snd bookings].
  apply noDoubleBooking_snoc; [exact Hinv|].
  intros b Hb Hbs Hbb Hst. apply Hfree; assumption.
Qed.

End Creation.

(** ** Instances *)

Section Instances.
Import Prisma DateFns ConflictDetectionService CalendarService BookingService
  BookingCancel Tables Scenarios MoreScenarios.

Lemma getAvailableTimeSlots_sorted_within_hours_witness :
  StronglySorted startsNotAfter
    (sortSlots (generateBarberTimeSlots barberA monday ("09:00", "18:00") 30 [])).
Proof.
  apply (proj1 (getAvailableTimeSlots_sorted_within_hours dbFree queryFree
                  (sortSlots (generateBarberTimeSlots barberA monday ("09:00", "18:00")
                                30 []))
                  ltac:(vm_compute; reflexivity))).
Defined.

Lemma listed_slot_consistent_witness :
  slot_isAvailable (mkTimeSlot (at_ 9 0) (at_ 9 30) "barber-A" "A" true) = true.
Proof.
  apply (listed_slot_consistent dbFree queryFree
           (sortSlots (generateBarberTimeSlots barberA monday ("09:00", "18:00") 30 []))
           (mkTimeSlot (at_ 9 0) (at_ 9 30) "barber-A" "A" true)).
  - vm_compute. reflexivity.
  - vm_compute. left. reflexivity.
  - vm_compute. reflexivity.
Defined.

Lemma no_conflict_is_sound_witness :
  exists service, In service (services dbFree)
                  /\ service_id service = "service-1"
                  /\ service_storeId service = "store-1"
                  /\ service_isActive service = true.
Proof.
  apply (proj1 (no_conflict_is_sound dbFree requestAtNine
                  ltac:(vm_compute; reflexivity))).
Defined.

Lemma conflict_result_shape_witness :
  conflictType (value (checkBookingConflicts dbOneBusy requestNoBarber)) <> None
  /\ conflictDetails (value (checkBookingConflicts dbOneBusy requestNoBarber)) <> None.
Proof.
  apply (proj1 (conflict_result_shape dbOneBusy requestNoBarber)).
  vm_compute. reflexivity.
Defined.

Lemma auto_assigned_barber_is_available_witness :
  ok (value (checkBarberAvailability dbFree "store-1" "barber-A" (at_ 9 0) (at_ 9 30)
               None)) = true.
Proof.
  apply (proj1 (auto_assigned_barber_is_available dbFree "store-1" (at_ 9 0) (at_ 9 30)
                  ("barber-A", "A")
                  ltac:(vm_compute; constructor; [intros []|constructor])
                  ltac:(vm_compute; left; reflexivity))).
Defined.

Lemma checks_ignore_cancelled_witness :
  checkBookingConflicts dbCancelled requestTwoBarbers
  = checkBookingConflicts dbFree requestTwoBarbers.
Proof.
  apply (proj1 (checks_ignore_cancelled dbCancelled dbFree
                  ltac:(repeat split; reflexivity))).
Defined.

Lemma cancelBooking_frees_the_slot_witness :
  checkBookingConflicts (snd (value (cancelBooking dbOneBusy "booking-1" None)))
    requestTwoBarbers
  = checkBookingConflicts (SpecWords.withoutBooking "booking-1" dbOneBusy)
      requestTwoBarbers.
Proof.
  apply (proj2 (proj2 (cancelBooking_frees_the_slot dbOneBusy "booking-1" None))).
  vm_compute. reflexivity.
Defined.

Lemma failure_changes_nothing_witness :
  snd (value (createBooking dbOneBusy (at_ 8 0) "booking-2" createTooSoon)) = dbOneBusy.
Proof.
  apply (proj1 (failure_changes_nothing dbOneBusy (at_ 8 0) "booking-2" createTooSoon
                  updateTooSoon "booking-1" None)).
  vm_compute. reflexivity.
Defined.

Lemma createBooking_keeps_invariant_witness :
  exists service barber h businessStart businessEnd,
    In service (services dbFree)
    /\ In barber (barbers dbFree)
    /\ In h (businessHours dbFree)
    /\ businessStart <= at_ 9 0
    /\ addMinutes (at_ 9 0) (service_duration service) <= businessEnd.
Proof.
  destruct (createBooking_keeps_invariant dbFree (at_ 8 0) "booking-9" createAtNine)
    as (t & service & barber & h & bs & be & Hstart & H).
  - intros b [<-|[]]. discriminate.
  - vm_compute. reflexivity.
  - injection Hstart as <-.
    exists service, barber, h, bs, be. cbv zeta in H.
    repeat split; apply H.
Defined.

End Instances.

(** ** Updating a booking *)

Section Updates.
Import Prisma DateFns ConflictDetectionService BookingService Tables.

Lemma updateCheck_inr (db : DB) (now : Date) (request : UpdateBookingRequest)
    (existingBooking : Booking) (existingService : Service)
    (newStartTime newEndTime : Date) (conflictCheck : ConflictCheckResult) :
  value (updateCheck db now request existingBooking existingService)
    = inr (newStartTime, newEndTime, conflictCheck) ->
  exists newService,
    In newService (existingService :: services db)
    /\ ValidDate newStartTime
       = orElse (update_startTime request)
           (ValidDate (booking_startTime existingBooking))
    /\ newEndTime = addMinutes newStartTime (service_duration newService)
    /\ conflictCheck
       = value (checkBookingConflicts db
                  (mkBookingConflictCheck (booking_storeId existingBooking)
                     (Some (orElse (keepTruthy (update_barberId request))
                              (booking_barberId existingBooking)))
                     (service_id newService) newStartTime newEndTime
                     (Some (update_bookingId request)))).
Proof.
  unfold updateCheck. rewrite value_bind.
  destruct (value (if truthy (update_serviceId request) then _ else _))
    as [newService|] eqn:Hf; [|cbn [ret value fst]; discriminate].
  destruct (negb (ok _)); [cbn [ret value fst]; discriminate|].
  destruct (orElse (update_startTime request) _) as [t|] eqn:Hstart.
  - rewrite value_bind. cbn [ret value fst]. intros H. injection H as <- <- <-.
    exists newService. split; [|repeat split].
    destruct (truthy (update_serviceId request)).
    + rewrite value_bind in Hf. cbn [query ret value fst] in Hf.
      apply find_some in Hf. right. apply Hf.
    + cbn [ret value fst] in Hf. injection Hf as <-. left. reflexivity.
  - rewrite value_bind. destruct (hasConflict _); cbn [ret value fst]; discriminate.
Qed.

Lemma updateCheck_inl (db : DB) (now : Date) (request : UpdateBookingRequest)
    (existingBooking : Booking) (existingService : Service) (early : BookingResult) :
  value (updateCheck db now request existingBooking existingService) = inl early ->
  success early = false.
Proof.
  unfold updateCheck. rewrite value_bind.
  destruct (value (if truthy (update_serviceId request) then _ else _))
    as [newService|]; [|cbn [ret value fst]; intros H; injection H as <-; reflexivity].
  destruct (negb (ok _));
    [cbn [ret value fst]; intros H; injection H as <-; reflexivity|].
  destruct (orElse (update_startTime request) _) as [t|].
  - rewrite value_bind. cbn [ret value fst]. discriminate.
  - rewrite value_bind.
    destruct (hasConflict _); cbn [ret value fst]; intros H; injection H as <-;
      reflexivity.
Qed.

Lemma validTime_orElse (o : option JSDate) (d t : Date) :
  ValidDate t = orElse o (ValidDate d) -> orElse (validTime o) d = t.
Proof.
  destruct o as [[x|]|]; cbn [orElse validTime]; intros H;
    [injection H as ->; reflexivity|discriminate|injection H as ->; reflexivity].
Qed.

(** What a successful [updateBooking] that ran the conflict check went
    through. *)
Lemma updateBooking_success (db : DB) (now : Date) (request : UpdateBookingRequest) :
  truthy (update_serviceId request)
  || (match update_startTime request with Some _ => true | None => false end)
  || truthy (update_barberId request) = true ->
  success (fst (value (updateBooking db now request))) = true ->
  exists existingBooking existingService newStartTime newEndTime conflictCheck,
    find (fun b => String.eqb (booking_id b) (update_bookingId request)) (bookings db)
      = Some existingBooking
    /\ find (fun s => String.eqb (service_id s) (booking_serviceId existingBooking))
         (services db) = Some existingService
    /\ value (updateCheck db now request existingBooking existingService)
       = inr (newStartTime, newEndTime, conflictCheck)
    /\ hasConflict conflictCheck = false
    /\ snd (value (updateBooking db now request))
       = mkDB (services db) (businessHours db) (barbers db)
           (map (fun b =>
                   if String.eqb (booking_id b) (update_bookingId request)
                   then applyUpdate
                          (mkUpdateData (keepTruthy (update_customerName request))
                             (keepTruthy (update_customerContact request))
                             (update_notes request) (update_status request)
                             (keepTruthy (update_serviceId request))
                             (validTime (update_startTime request))
                             (keepTruthy (update_barberId request))
                             (Some newEndTime))
                          existingBooking
                   else b)
                (bookings db)).
Proof.
  intros Hcond. unfold updateBooking. cbv zeta. rewrite Hcond.
  rewrite !value_bind. cbn [query value fst].
  destruct (find _ (bookings db)) as [existingBooking|] eqn:Hbooking;
    [|cbn [ret value fst success failure]; discriminate].
  destruct (find _ (services db)) as [existingService|] eqn:Hservice;
    [|cbn [ret value fst success failure]; discriminate].
  rewrite !value_bind.
  destruct (value (updateCheck db now request existingBooking existingService))
    as [early|[[newStartTime newEndTime] conflictCheck]] eqn:Hcheck.
  - cbn [ret value fst]. rewrite (updateCheck_inl _ _ _ _ _ _ Hcheck). discriminate.
  - destruct (hasConflict conflictCheck) eqn:Hno; cbn [ret value fst success];
      [discriminate|].
    cbn [data_customerName data_customerContact data_notes data_status].
    destruct (includeNames db _) as [view|];
      cbn [query ret value fst snd success failure]; [|discriminate].
    intros _.
    exists existingBooking, existingService, newStartTime, newEndTime, conflictCheck.
    split; [reflexivity|]. split; [exact Hservice|]. split; [exact Hcheck|].
    split; [exact Hno|]. reflexivity.
Qed.

Lemma nth_error_replace (l : list Booking) (bookingId : string) (row : Booking)
    (i : nat) (a : Booking) :
  nth_error (map (fun b => if String.eqb (booking_id b) bookingId then row else b) l) i
    = Some a ->
  exists a0, nth_error l i = Some a0
             /\ a = (if String.eqb (booking_id a0) bookingId then row else a0).
Proof.
  rewrite nth_error_map. destruct (nth_error l i) as [a0|]; cbn [option_map];
    [|discriminate].
  intros H. injection H as <-. exists a0. split; reflexivity.
Qed.

Lemma unique_index (l : list Booking) (i j : nat) (a b : Booking) :
  NoDup (map booking_id l) ->
  nth_error l i = Some a -> nth_error l j = Some b ->
  booking_id a = booking_id b -> i = j.
Proof.
  intros Hnd Hi Hj Heq.
  apply (proj1 (NoDup_nth_error (map booking_id l)) Hnd).
  - rewrite length_map. apply nth_error_Some. congruence.
  - rewrite !nth_error_map, Hi, Hj. cbn [option_map]. congruence.
Qed.

(** X17: with unique booking keys and bookings that name a barber, a
    successful [updateBooking] that changes the service, the start or the
    barber rewrites exactly the row of the key: the new row ends one duration
    of a service of the tables after its start, it overlaps no other booking
    of its barber that is not cancelled, and tables without double bookings
    stay without double bookings. *)
Theorem updateBooking_keeps_invariant :
  forall (db : DB) (now : Date) (request : UpdateBookingRequest),
    NoDup (map booking_id (bookings db)) ->
    (forall b, In b (bookings db) -> booking_barberId b <> EmptyString) ->
    truthy (update_serviceId request)
    || (match update_startTime request with Some _ => true | None => false end)
    || truthy (update_barberId request) = true ->
    success (fst (value (updateBooking db now request))) = true ->
    exists existing row service,
      In existing (bookings db)
      /\ booking_id existing = update_bookingId request
      /\ booking_id row = update_bookingId request
      /\ booking_storeId row = booking_storeId existing
      /\ In service (services db)
      /\ booking_endTime row
         = addMinutes (booking_startTime row) (service_duration service)
      /\ snd (value (updateBooking db now request))
         = mkDB (services db) (businessHours db) (barbers db)
             (map (fun b => if String.eqb (booking_id b) (update_bookingId request)
                            then row else b)
                  (bookings db))
      /\ (forall b,
            In b (bookings db) ->
            booking_id b <> update_bookingId request ->
            booking_storeId b = booking_storeId row ->
            booking_barberId b = booking_barberId row ->
            booking_status b <> cancelled ->
            ~ bookingsOverlap row b)
      /\ (noDoubleBooking (bookings db) ->
          noDoubleBooking (bookings (snd (value (updateBooking db now request))))).
Proof.
  intros db now request Hnd Hbarbers Hcond Hok.
  destruct (updateBooking_success db now request Hcond Hok)
    as (existing & existingService & ns & ne & cc & Hfind & Hfsvc & Hcheck & Hno & Hrun).
  destruct (updateCheck_inr _ _ _ _ _ _ _ _ Hcheck)
    as (newService & Hsvc & Hns & Hne & Hcc).
  pose proof (find_some _ _ Hfind) as [Hexin Hexid]. apply String.eqb_eq in Hexid.
  pose proof (find_some _ _ Hfsvc) as [Hsvcin _].
  set (newBarber := orElse (keepTruthy (update_barberId request))
                      (booking_barberId existing)) in *.
  set (row := applyUpdate
                (mkUpdateData (keepTruthy (update_customerName request))
                   (keepTruthy (update_customerContact request))
                   (update_notes request) (update_status request)
                   (keepTruthy (update_serviceId request))
                   (validTime (update_startTime request))
                   (keepTruthy (update_barberId request)) (Some ne))
                existing) in *.
  assert (Hrow : booking_id row = update_bookingId request
                 /\ booking_storeId row = booking_storeId existing
                 /\ booking_barberId row = newBarber
                 /\ booking_startTime row = ns
                 /\ booking_endTime row = ne).
  { unfold row, applyUpdate.
    cbn [booking_id booking_storeId booking_barberId booking_startTime
         booking_endTime data_barberId data_startTime data_endTime orElse].
    rewrite (validTime_orElse _ _ _ Hns).
    split; [exact Hexid|]. repeat split. }
  destruct Hrow as (Hrid & Hrstore & Hrbarber & Hrstart & Hrend).
  assert (Hnb : newBarber <> EmptyString).
  { unfold newBarber, keepTruthy.
    destruct (truthy (update_barberId request)) eqn:Ht.
    - destruct (update_barberId request) as [x|]; [|discriminate]. cbn [orElse].
      intros ->. discriminate.
    - cbn [orElse]. apply Hbarbers. exact Hexin. }
  assert (Hnone : filter (whereClause (booking_storeId existing) newBarber ns ne
                            (Some (update_bookingId request))) (bookings db) = []).
  { rewrite Hcc in Hno. apply checkBookingConflicts_accepted in Hno.
    destruct Hno as (_ & _ & Hnamed & _).
    cbn [check_storeId check_barberId check_startTime check_endTime
         check_excludeBookingId] in Hnamed.
    specialize (Hnamed newBarber eq_refl Hnb).
    apply checkBarberAvailability_ok in Hnamed. apply Hnamed. }
  assert (Hfree : forall b,
            In b (bookings db) ->
            booking_id b <> update_bookingId request ->
            booking_storeId b = booking_storeId row ->
            booking_barberId b = booking_barberId row ->
            booking_status b <> cancelled ->
            ~ bookingsOverlap row b).
  { intros b Hb Hid Hbs Hbb Hst [H1 H2]. rewrite Hrstart in H1. rewrite Hrend in H2.
    assert (Hw : In b (filter (whereClause (booking_storeId existing) newBarber ns ne
                                 (Some (update_bookingId request))) (bookings db))).
    { apply filter_In. split; [exact Hb|]. apply whereClause_spec.
      split; [congruence|]. split; [congruence|]. split; [exact Hst|].
      split.
      - apply slotOverlaps_overlapClause. unfold CalendarService.slotOverlaps.
        apply andb_true_iff. split; apply Z.ltb_lt; assumption.
      - intros _ Heq. injection Heq as Heq. apply Hid. symmetry. exact Heq. }
    rewrite Hnone in Hw. contradiction. }
  exists existing, row, newService.
  split; [exact Hexin|]. split; [exact Hexid|]. split; [exact Hrid|].
  split; [exact Hrstore|].
  split; [destruct Hsvc as [<-|Hin]; assumption|].
  split; [rewrite Hrend, Hrstart; exact Hne|].
  split; [exact Hrun|]. split; [exact Hfree|].
  intros Hinv. rewrite Hrun. cbn [bookings].
  intros i j a b Hi Hj Hij Hs Hb Hsa Hsb.
  apply nth_error_replace in Hi. destruct Hi as (a0 & Hi & ->).
  apply nth_error_replace in Hj. destruct Hj as (b0 & Hj & ->).
  destruct (String.eqb_spec (booking_id a0) (update_bookingId request)) as [Ha|Ha];
    destruct (String.eqb_spec (booking_id b0) (update_bookingId request)) as [Hb0|Hb0].
  - exfalso. apply Hij. apply (unique_index (bookings db) i j a0 b0 Hnd Hi Hj).
    congruence.
  - apply Hfree; try assumption; try (symmetry; assumption).
    apply nth_error_In with j. exact Hj.
  - intros [H1 H2]. apply (Hfree a0); try assumption.
    + apply nth_error_In with i. exact Hi.
    + split; assumption.
  - apply (Hinv i j); assumption.
Qed.

(** What a successful [updateBooking] that skipped the conflict check went
    through. *)
Lemma updateBooking_details (db : DB) (now : Date) (request : UpdateBookingRequest) :
  truthy (update_serviceId request)
  || (match update_startTime request with Some _ => true | None => false end)
  || truthy (update_barberId request) = false ->
  success (fst (value (updateBooking db now request))) = true ->
  exists existingBooking,
    find (fun b => String.eqb (booking_id b) (update_bookingId request)) (bookings db)
      = Some existingBooking
    /\ snd (value (updateBooking db now request))
       = mkDB (services db) (businessHours db) (barbers db)
           (map (fun b =>
                   if String.eqb (booking_id b) (update_bookingId request)
                   then applyUpdate
                          (mkUpdateData (keepTruthy (update_customerName request))
                             (keepTruthy (update_customerContact request))
                             (update_notes request) (update_status request)
                             None None None None)
                          existingBooking
                   else b)
                (bookings db)).
Proof.
  intros Hcond. unfold updateBooking. cbv zeta. rewrite Hcond.
  rewrite !value_bind. cbn [query value fst].
  destruct (find _ (bookings db)) as [existingBooking|] eqn:Hbooking;
    [|cbn [ret value fst success failure]; discriminate].
  destruct (find _ (services db)) as [existingService|] eqn:Hservice;
    [|cbn [ret value fst success failure]; discriminate].
  rewrite !value_bind. cbn [ret value fst].
  destruct (includeNames db _) as [view|];
    cbn [query ret value fst snd success failure]; [|discriminate].
  intros _. exists existingBooking. split; reflexivity.
Qed.

(** X18: with unique booking keys, a successful [updateBooking] that names
    no service, start or barber runs no conflict check and leaves key,
    store, barber, service, start and end of the row as they were; tables
    without double bookings stay so when the request gives no status or the
    booking was not cancelled. *)
Theorem updateBooking_details_only :
  forall (db : DB) (now : Date) (request : UpdateBookingRequest),
    NoDup (map booking_id (bookings db)) ->
    truthy (update_serviceId request)
    || (match update_startTime request with Some _ => true | None => false end)
    || truthy (update_barberId request) = false ->
    success (fst (value (updateBooking db now request))) = true ->
    exists existing row,
      In existing (bookings db)
      /\ booking_id existing = update_bookingId request
      /\ snd (value (updateBooking db now request))
         = mkDB (services db) (businessHours db) (barbers db)
             (map (fun b => if String.eqb (booking_id b) (update_bookingId request)
                            then row else b)
                  (bookings db))
      /\ booking_id row = booking_id existing
      /\ booking_storeId row = booking_storeId existing
      /\ booking_barberId row = booking_barberId existing
      /\ booking_serviceId row = booking_serviceId existing
      /\ booking_startTime row = booking_startTime existing
      /\ booking_endTime row = booking_endTime existing
      /\ booking_status row = orElse (update_status request) (booking_status existing)
      /\ queries (updateBooking db now request)
         = [booking_findUnique (update_bookingId request);
            booking_update (update_bookingId request)]
      /\ (update_status request = None \/ booking_status existing <> cancelled ->
          noDoubleBooking (bookings db) ->
          noDoubleBooking (bookings (snd (value (updateBooking db now request))))).
Proof.
  intros db now request Hnd Hcond Hok.
  destruct (updateBooking_details db now request Hcond Hok)
    as (existing & Hfind & Hrun).
  pose proof (find_some _ _ Hfind) as [Hexin Hexid]. apply String.eqb_eq in Hexid.
  set (row := applyUpdate
                (mkUpdateData (keepTruthy (update_customerName request))
                   (keepTruthy (update_customerContact request))
                   (update_notes request) (update_status request)
                   None None None None)
                existing) in *.
  exists existing, row.
  split; [exact Hexin|]. split; [exact Hexid|]. split; [exact Hrun|].
  do 7 (split; [reflexivity|]).
  split.
  { revert Hok. unfold updateBooking. cbv zeta. rewrite Hcond.
    rewrite !queries_bind, !value_bind. cbn [query value queries fst snd].
    rewrite Hfind.
    destruct (find _ (services db)) as [existingService|];
      [|cbn [ret value fst success failure]; discriminate].
    rewrite !queries_bind, !value_bind. cbn [ret value queries fst snd].
    fold row.
    destruct (includeNames db row) as [view|];
      cbn [query ret value queries fst snd success failure]; [|discriminate].
    intros _. reflexivity. }
  intros Hstatus Hinv. rewrite Hrun. cbn [bookings].
  assert (Hlive : booking_status row <> cancelled ->
                  booking_status existing <> cancelled).
  { unfold row, applyUpdate. cbn [booking_status data_status].
    destruct Hstatus as [->|Hlive]; [cbn [orElse]; tauto|]. intros _. exact Hlive. }
  destruct (In_nth_error _ _ Hexin) as [k Hk].
  assert (Hat : forall i a0,
             nth_error (bookings db) i = Some a0 ->
             booking_id a0 = update_bookingId request -> a0 = existing).
  { intros i a0 Hi Hid.
    assert (i = k) as ->
      by (apply (unique_index (bookings db) i k a0 existing Hnd Hi Hk); congruence).
    congruence. }
  intros i j a b Hi Hj Hij Hs Hb Hsa Hsb.
  apply nth_error_replace in Hi. destruct Hi as (a0 & Hi & ->).
  apply nth_error_replace in Hj. destruct Hj as (b0 & Hj & ->).
  destruct (String.eqb_spec (booking_id a0) (update_bookingId request)) as [Ha|Ha];
    destruct (String.eqb_spec (booking_id b0) (update_bookingId request)) as [Hb0|Hb0].
  - exfalso. apply Hij. apply (unique_index (bookings db) i j a0 b0 Hnd Hi Hj).
    congruence.
  - rewrite (Hat i a0 Hi Ha) in Hi.
    intros Hover. apply (Hinv i j existing b0 Hi Hj Hij Hs Hb (Hlive Hsa) Hsb).
    exact Hover.
  - rewrite (Hat j b0 Hj Hb0) in Hj.
    intros Hover. apply (Hinv i j a0 existing Hi Hj Hij Hs Hb Hsa (Hlive Hsb)).
    exact Hover.
  - apply (Hinv i j); assumption.
Qed.

Import Scenarios MoreScenarios.

Lemma updateBooking_keeps_invariant_witness :
  exists row,
    bookings (snd (value (updateBooking dbTwoBookings (at_ 8 0) updateToEleven)))
      = [row; bookingAfter]
    /\ booking_startTime row = at_ 11 0
    /\ booking_endTime row = at_ 11 30
    /\ noDoubleBooking [row; bookingAfter].
Proof.
  destruct (updateBooking_keeps_invariant dbTwoBookings (at_ 8 0) updateToEleven)
    as (existing & row & service & Hin & _ & _ & _ & Hsvc & Hend & Hrun & Hfree & Hinv).
  - vm_compute. repeat constructor; simpl; intuition discriminate.
  - intros b [<-|[<-|[]]]; discriminate.
  - reflexivity.
  - vm_compute. reflexivity.
  - exists row.
    assert (Hrow : bookings (snd (value (updateBooking dbTwoBookings (at_ 8 0)
                                           updateToEleven))) = [row; bookingAfter]).
    { rewrite Hrun. reflexivity. }
    split; [exact Hrow|].
    assert (Hstart : booking_startTime row = at_ 11 0).
    { assert (H : booking_startTime
                    (nth 0 (bookings (snd (value (updateBooking dbTwoBookings (at_ 8 0)
                                                    updateToEleven)))) bookingAfter)
                  = at_ 11 0) by (vm_compute; reflexivity).
      rewrite Hrow in H. exact H. }
    split; [exact Hstart|].
    split.
    + rewrite Hend, Hstart. destruct Hsvc as [<-|[]]. vm_compute. reflexivity.
    + rewrite <- Hrow. apply Hinv.
      intros i j a b Hi Hj Hij _ _ _ _ [H1 H2].
      destruct i as [|[|i]]; destruct j as [|[|j]]; cbn in Hi, Hj;
        try (destruct i; discriminate); try (destruct j; discriminate);
        try (apply Hij; reflexivity);
        injection Hi as <-; injection Hj as <-;
        vm_compute in H1, H2; discriminate.
Defined.

Lemma updateBooking_details_only_witness :
  exists row,
    bookings (snd (value (updateBooking dbTwoBookings (at_ 8 0) updateNotes)))
      = [row; bookingAfter]
    /\ booking_startTime row = at_ 10 0
    /\ booking_endTime row = at_ 10 30
    /\ booking_status row = completed.
Proof.
  destruct (updateBooking_details_only dbTwoBookings (at_ 8 0) updateNotes)
    as (existing & row & Hin & Hid & Hrun & _ & _ & _ & _ & Hstart & Hend & Hstatus & _).
  - vm_compute. repeat constructor; simpl; intuition discriminate.
  - reflexivity.
  - vm_compute. reflexivity.
  - assert (Hex : existing = bookingOf "booking-1" "barber-A" (at_ 10 0) (at_ 10 30)
                               confirmed).
    { destruct Hin as [<-|[<-|[]]]; [reflexivity|discriminate]. }
    exists row. split; [rewrite Hrun; reflexivity|].
    rewrite Hstart, Hend, Hstatus, Hex. repeat split.
Defined.

End Updates.

(** ** Which bookings take part in an availability check *)

Section CandidatesClaim.
Import Prisma DateFns ConflictDetectionService CalendarService SpecWords.
Import Scenarios MoreScenarios.

Lemma isTimeSlotAvailable_inside (db : DB) (storeId barberId : string) (s e : Date)
    (hours : string * string) (businessStart businessEnd : Date) :
  value (getBusinessHours db storeId (startOfDay s)) = Some hours ->
  parseISO_on (startOfDay s) (fst hours) = Some businessStart ->
  parseISO_on (startOfDay s) (snd hours) = Some businessEnd ->
  businessStart <= s <= businessEnd ->
  businessStart <= e <= businessEnd ->
  value (isTimeSlotAvailable db storeId barberId s e)
  = (List.length (filter (whereClause storeId barberId s e None) (bookings db))
     =? 0)%nat.
Proof.
  intros Hhours Hbs Hbe Hs He. unfold isTimeSlotAvailable. cbv zeta.
  rewrite value_bind, Hhours, Hbs, Hbe. cbn [isWithinInterval].
  destruct (Z.leb_spec businessStart businessEnd) as [_|]; [|lia].
  destruct (Z.leb_spec businessStart s) as [_|]; [|lia].
  destruct (Z.leb_spec s businessEnd) as [_|]; [|lia].
  destruct (Z.leb_spec businessStart e) as [_|]; [|lia].
  destruct (Z.leb_spec e businessEnd) as [_|]; [|lia].
  cbn [andb negb]. rewrite value_bind. reflexivity.
Qed.

Lemma all_cancelled_iff (db : DB) (storeId barberId : string) (s e : Date)
    (ex : option string) :
  filter (whereClause storeId barberId s e ex) (bookings db) = []
  <-> forall b,
      In b (bookings db) ->
      booking_storeId b = storeId ->
      booking_barberId b = barberId ->
      overlapClause s e b = true ->
      (truthy ex = true -> ex <> Some (booking_id b)) ->
      booking_status b = cancelled.
Proof.
  rewrite filter_nil_iff. split.
  - intros Hnone b Hin Hstore Hbarber Hover Hex.
    destruct (status_eqb (booking_status b) cancelled) eqn:Hst;
      [apply status_eqb_eq; exact Hst|].
    assert (Hw : whereClause storeId barberId s e ex b = true).
    { apply whereClause_spec. repeat split; try assumption.
      intros Hc. apply status_eqb_eq in Hc. congruence. }
    rewrite (Hnone b Hin) in Hw. discriminate.
  - intros Hall b Hin.
    destruct (whereClause storeId barberId s e ex b) eqn:Hw; [|reflexivity].
    apply whereClause_spec in Hw. destruct Hw as (H1 & H2 & H3 & H4 & H5).
    exfalso. apply H3. apply Hall; assumption.
Qed.

Lemma getExistingBookings_In (db : DB) (storeId : string) (date : Date)
    (ids : list string) (b : Booking) :
  In b (value (getExistingBookings db storeId date ids))
  <-> In b (bookings db)
      /\ booking_storeId b = storeId
      /\ In (booking_barberId b) ids
      /\ booking_status b <> cancelled
      /\ startOfDay date <= booking_startTime b <= endOfDay date.
Proof.
  unfold getExistingBookings.
  cbn [query value fst]. rewrite filter_In, !andb_true_iff, String.eqb_eq,
    negb_true_iff, !Z.leb_le, existsb_exists.
  assert (Hst : status_eqb (booking_status b) cancelled = false
                <-> booking_status b <> cancelled).
  { rewrite <- status_eqb_eq. destruct (status_eqb (booking_status b) cancelled);
      split; congruence. }
  rewrite Hst.
  assert (Hids : (exists x, In x ids /\ String.eqb (booking_barberId b) x = true)
                 <-> In (booking_barberId b) ids).
  { split.
    - intros (x & Hx & Heq). apply String.eqb_eq in Heq. congruence.
    - intros Hin. exists (booking_barberId b). split; [exact Hin|].
      apply String.eqb_refl. }
  rewrite Hids. tauto.
Qed.

(** The flag of a listed slot, as [generateBarberTimeSlots] computes it. *)
Lemma listed_flag (db : DB) (q : AvailabilityQuery) (slots : list TimeSlot)
    (slot : TimeSlot) :
  value (getAvailableTimeSlots db q) = Some slots ->
  In slot slots ->
  let ids := map barber_id (value (getAvailableBarbers db (q_storeId q) (q_barberId q))) in
  In (slot_barberId slot) ids
  /\ slot_isAvailable slot
     = negb (existsb (slotOverlaps (slot_startTime slot) (slot_endTime slot))
               (filter (fun b => String.eqb (booking_barberId b) (slot_barberId slot))
                  (value (getExistingBookings db (q_storeId q) (q_date q) ids)))).
Proof.
  intros Hrun Hin. cbv zeta.
  destruct (getAvailableTimeSlots_inv db q slots Hrun)
    as [->|(service & hours & _ & _ & ->)]; [contradiction|].
  apply (proj1 (sortSlots_In _ _)) in Hin. apply in_flat_map in Hin.
  destruct Hin as (barber & Hbarber & Hin).
  unfold generateBarberTimeSlots in Hin.
  destruct (parseISO_on (q_date q) (fst hours)) as [bs|]; [|contradiction].
  destruct (parseISO_on (q_date q) (snd hours)) as [be|]; [|contradiction].
  apply slotsFrom_shape in Hin. destruct Hin as (k & _ & _ & ->).
  cbn [slot_barberId slot_isAvailable slot_startTime slot_endTime].
  split; [apply in_map; exact Hbarber|reflexivity].
Qed.

(** C5, as the code has it: in every availability or conflict check the
    bookings tested against the candidate interval are those of the barber
    whose status is not [cancelled], so confirmed and completed bookings
    both take part.  The overlap query of the conflict service returns
    exactly those; a barber who exists and is active passes
    [checkBarberAvailability] exactly when every overlapping booking that
    is not excluded is cancelled; inside the opening hours
    [isTimeSlotAvailable] answers true exactly when every overlapping
    booking is cancelled; the bookings read for the slot listing are those
    of the day that are not cancelled; and a listed slot is marked
    unavailable exactly when such a booking of its barber overlaps it. *)
Theorem conflict_candidates_not_cancelled :
  forall (db : DB) (storeId barberId : string) (s e : Date) (ex : option string),
    (forall b,
        In b (filter (whereClause storeId barberId s e ex) (bookings db))
        <-> In b (bookings db)
            /\ booking_storeId b = storeId
            /\ booking_barberId b = barberId
            /\ booking_status b <> cancelled
            /\ overlapClause s e b = true
            /\ (truthy ex = true -> ex <> Some (booking_id b)))
    /\ (forall barber,
          find (fun x => String.eqb (barber_id x) barberId
                         && String.eqb (barber_storeId x) storeId)
               (barbers db) = Some barber ->
          barber_isActive barber = true ->
          (ok (value (checkBarberAvailability db storeId barberId s e ex)) = true
           <-> forall b,
               In b (bookings db) ->
               booking_storeId b = storeId ->
               booking_barberId b = barberId ->
               overlapClause s e b = true ->
               (truthy ex = true -> ex <> Some (booking_id b)) ->
               booking_status b = cancelled))
    /\ (forall hours businessStart businessEnd,
          value (getBusinessHours db storeId (startOfDay s)) = Some hours ->
          parseISO_on (startOfDay s) (fst hours) = Some businessStart ->
          parseISO_on (startOfDay s) (snd hours) = Some businessEnd ->
          businessStart <= s <= businessEnd ->
          businessStart <= e <= businessEnd ->
          (value (isTimeSlotAvailable db storeId barberId s e) = true
           <-> forall b,
               In b (bookings db) ->
               booking_storeId b = storeId ->
               booking_barberId b = barberId ->
               overlapClause s e b = true ->
               booking_status b = cancelled))
    /\ (value (isTimeSlotAvailable db storeId barberId s e) = true ->
        forall b,
          In b (bookings db) ->
          booking_storeId b = storeId ->
          booking_barberId b = barberId ->
          overlapClause s e b = true ->
          booking_status b = cancelled)
    /\ (forall date ids b,
          In b (value (getExistingBookings db storeId date ids))
          <-> In b (bookings db)
              /\ booking_storeId b = storeId
              /\ In (booking_barberId b) ids
              /\ booking_status b <> cancelled
              /\ startOfDay date <= booking_startTime b <= endOfDay date)
    /\ (forall q slots slot,
          value (getAvailableTimeSlots db q) = Some slots ->
          In slot slots ->
          (slot_isAvailable slot = false
           <-> exists b,
               In b (bookings db)
               /\ booking_storeId b = q_storeId q
               /\ booking_barberId b = slot_barberId slot
               /\ booking_status b <> cancelled
               /\ startOfDay (q_date q) <= booking_startTime b <= endOfDay (q_date q)
               /\ slot_startTime slot < booking_endTime b
               /\ booking_startTime b < slot_endTime slot)).
Proof.
  intros db storeId barberId s e ex.
  split; [|split; [|split; [|split; [|split]]]].
  - intros b. rewrite filter_In, whereClause_spec. tauto.
  - intros barber Hfind Hactive.
    rewrite (checkBarberAvailability_available_iff db storeId barberId s e ex barber
               Hfind Hactive).
    apply all_cancelled_iff.
  - intros hours bs be Hhours Hbs Hbe Hs He.
    rewrite (isTimeSlotAvailable_inside db storeId barberId s e hours bs be
               Hhours Hbs Hbe Hs He).
    rewrite Nat.eqb_eq, length_zero_iff_nil, all_cancelled_iff.
    split; intros H b Hin Hstore Hbarber Hover; [|intros _];
      apply H; try assumption. discriminate.
  - intros Havailable b Hin Hstore Hbarber Hover.
    apply isTimeSlotAvailable_true in Havailable. destruct Havailable as [Hnone _].
    apply (proj1 (all_cancelled_iff db storeId barberId s e None) Hnone);
      try assumption. discriminate.
  - intros date ids b. apply getExistingBookings_In.
  - intros q slots slot Hrun Hin.
    destruct (listed_flag db q slots slot Hrun Hin) as [Hid Hflag].
    cbv zeta in Hid, Hflag. rewrite Hflag, negb_false_iff, existsb_exists.
    split.
    + intros (b & Hb & Hover). apply filter_In in Hb. destruct Hb as [Hb Hbarber].
      apply getExistingBookings_In in Hb.
      destruct Hb as (Hb & Hstore & _ & Hstatus & Hday).
      apply String.eqb_eq in Hbarber.
      unfold slotOverlaps in Hover. rewrite andb_true_iff, !Z.ltb_lt in Hover.
      exists b. tauto.
    + intros (b & Hb & Hstore & Hbarber & Hstatus & Hday & H1 & H2).
      exists b. split.
      * apply filter_In. split; [|apply String.eqb_eq; exact Hbarber].
        apply getExistingBookings_In. rewrite Hbarber. tauto.
      * unfold slotOverlaps. rewrite andb_true_iff, !Z.ltb_lt. tauto.
Qed.

(** C5 fails as stated: a completed booking at 10:00-10:30 is among the
    bookings tested, and it makes the barber unavailable for that time in
    the conflict check, in the availability test of the calendar and in the
    slot listing. *)
Lemma completed_booking_blocks :
  booking_status completedBooking = completed
  /\ In completedBooking
       (filter (whereClause "store-1" "barber-A" (at_ 10 0) (at_ 10 30) None)
               (bookings dbCompleted))
  /\ value (checkBarberAvailability dbCompleted "store-1" "barber-A"
              (at_ 10 0) (at_ 10 30) None)
     = mkVerdict false (Some "該理髮師在 10:00 已有其他預約")
  /\ value (isTimeSlotAvailable dbCompleted "store-1" "barber-A" (at_ 10 0) (at_ 10 30))
     = false
  /\ In completedBooking
       (value (getExistingBookings dbCompleted "store-1" monday ["barber-A"]))
  /\ (exists slots,
         value (getAvailableTimeSlots dbCompleted queryFree) = Some slots
         /\ In (mkTimeSlot (at_ 10 0) (at_ 10 30) "barber-A" "A" false) slots).
Proof.
  split; [reflexivity|]. split; [vm_compute; left; reflexivity|].
  split; [vm_compute; reflexivity|]. split; [vm_compute; reflexivity|].
  split; [vm_compute; left; reflexivity|].
  eexists. split; [vm_compute; reflexivity|].
  do 2 right. left. reflexivity.
Qed.

(** Barber A of [dbMixed]: free at 10:00, where the only booking is
    cancelled, for the conflict check and for the calendar; taken at 11:00
    by the completed booking. *)
Lemma conflict_candidates_not_cancelled_witness :
  ok (value (checkBarberAvailability dbMixed "store-1" "barber-A"
               (at_ 10 0) (at_ 10 30) None)) = true
  /\ value (isTimeSlotAvailable dbMixed "store-1" "barber-A" (at_ 10 0) (at_ 10 30))
     = true
  /\ value (isTimeSlotAvailable dbMixed "store-1" "barber-A" (at_ 11 0) (at_ 11 30))
     <> true.
Proof.
  assert (Hfree : forall b,
             In b (bookings dbMixed) ->
             overlapClause (at_ 10 0) (at_ 10 30) b = true ->
             booking_status b = cancelled).
  { intros b [<-|[<-|[<-|[]]]] Hover; [reflexivity|discriminate Hover..]. }
  split; [|split].
  - apply (proj2 (proj1 (proj2 (conflict_candidates_not_cancelled dbMixed "store-1"
                                  "barber-A" (at_ 10 0) (at_ 10 30) None))
                    barberA eq_refl eq_refl)).
    intros b Hin _ _ Hover _. apply Hfree; assumption.
  - apply (proj2 (proj1 (proj2 (proj2 (conflict_candidates_not_cancelled dbMixed
                                         "store-1" "barber-A" (at_ 10 0) (at_ 10 30)
                                         None)))
                    ("09:00", "18:00") (at_ 9 0) (at_ 18 0) eq_refl eq_refl eq_refl
                    ltac:(vm_compute; split; discriminate)
                    ltac:(vm_compute; split; discriminate))).
    intros b Hin _ _ Hover. apply Hfree; assumption.
  - intros Havailable.
    assert (H := proj1 (proj2 (proj2 (proj2 (conflict_candidates_not_cancelled dbMixed
                                               "store-1" "barber-A" (at_ 11 0)
                                               (at_ 11 30) None))))
                   Havailable
                   (bookingOf "booking-2" "barber-A" (at_ 11 0) (at_ 11 30) completed)
                   ltac:(right; left; reflexivity) eq_refl eq_refl eq_refl).
    discriminate H.
Defined.

End CandidatesClaim.

(** ** Service durations and the slot listing *)

Section DurationsClaim.
Import Prisma DateFns ConflictDetectionService CalendarService.
Import Scenarios MoreScenarios.





End DurationsClaim.

(** ** The booking window, for start times that are valid dates *)

Section TimeGate.
Import Prisma DateFns ConflictDetectionService BookingService SpecWords.

Lemma truthy_Some (x : string) : x <> EmptyString -> truthy (Some x) = true.
Proof.
  intros Hx. cbn [truthy]. destruct (String.eqb_spec x EmptyString);
    [contradiction|reflexivity].
Qed.

Lemma validateBookingTime_too_soon (now t : Date) :
  t < addMinutes now 30 ->
  validateBookingTime now (ValidDate t)
  = mkVerdict false (Some "預約時間必須至少提前30分鐘").
Proof.
  intros H. unfold validateBookingTime. cbv zeta. cbn [getTime Temporal.nan_ltb].
  destruct (Z.ltb_spec t (addMinutes now 30)); [reflexivity|lia].
Qed.

Lemma validateBookingTime_too_late (now t : Date) :
  addMinutes now (90 * 24 * 60) < t ->
  validateBookingTime now (ValidDate t)
  = mkVerdict false (Some "預約時間不能超過3個月").
Proof.
  intros H. unfold validateBookingTime. cbv zeta. cbn [getTime Temporal.nan_ltb].
  assert (addMinutes now 30 <= addMinutes now (90 * 24 * 60))
    by (unfold addMinutes, msPerMinute; lia).
  destruct (Z.ltb_spec t (addMinutes now 30)); [lia|].
  destruct (Z.ltb_spec (addMinutes now (90 * 24 * 60)) t); [reflexivity|lia].
Qed.

Lemma validateBookingTime_outside (now t : Date) :
  ~ inBookingWindow now t -> ok (validateBookingTime now (ValidDate t)) = false.
Proof.
  intros Hout. destruct (ok (validateBookingTime now (ValidDate t))) eqn:H;
    [|reflexivity].
  apply validateBookingTime_spec in H. contradiction.
Qed.

Lemma createBooking_outside_window (db : DB) (now : Date) (newId : string)
    (request : CreateBookingRequest) (t : Date) (service : Service) :
  create_startTime request = ValidDate t ->
  ~ inBookingWindow now t ->
  find (fun s => String.eqb (service_id s) (create_serviceId request)
                 && String.eqb (service_storeId s) (create_storeId request)
                 && service_isActive s)
       (services db) = Some service ->
  createBooking db now newId request
  = ((failure (reason (validateBookingTime now (ValidDate t))), db),
     [service_findFirst (create_storeId request) (create_serviceId request) true]).
Proof.
  intros Hstart Hout Hfind. unfold createBooking. cbv zeta.
  rewrite Hstart. cbn [bind query]. rewrite Hfind.
  rewrite (validateBookingTime_outside now t Hout). cbn [negb ret app]. reflexivity.
Qed.

Lemma createBooking_inside_window (db : DB) (now : Date) (newId : string)
    (request : CreateBookingRequest) (t : Date) (service : Service)
    (barberId : string) :
  create_startTime request = ValidDate t ->
  inBookingWindow now t ->
  find (fun s => String.eqb (service_id s) (create_serviceId request)
                 && String.eqb (service_storeId s) (create_storeId request)
                 && service_isActive s)
       (services db) = Some service ->
  create_barberId request = Some barberId ->
  barberId <> EmptyString ->
  let stop := addMinutes t (service_duration service) in
  let conflictCheck :=
    checkBookingConflicts db
      (mkBookingConflictCheck (create_storeId request) (Some barberId)
         (create_serviceId request) t stop None) in
  let row := mkBooking newId (create_storeId request) barberId
               (create_serviceId request) (create_customerName request)
               (create_customerContact request) (create_contactType request)
               t stop confirmed (create_notes request) in
  (hasConflict (value conflictCheck) = true ->
   createBooking db now newId request
   = ((mkBookingResult false None (conflictDetails (value conflictCheck))
         (suggestedAlternatives (value conflictCheck)), db),
      service_findFirst (create_storeId request) (create_serviceId request) true
      :: queries conflictCheck))
  /\ (hasConflict (value conflictCheck) = false ->
      forall view,
        includeNames db row = Some view ->
        createBooking db now newId request
        = ((mkBookingResult true (Some view) None None,
            mkDB (services db) (businessHours db) (barbers db) (bookings db ++ [row])),
           service_findFirst (create_storeId request) (create_serviceId request) true
           :: queries conflictCheck ++ [booking_create newId])).
Proof.
  intros Hstart Hin Hfind Hbarber Hne. cbv zeta.
  apply validateBookingTime_spec in Hin.
  pose proof (truthy_Some barberId Hne) as Htruthy.
  split.
  - intros Hconflict. apply run_ext.
    + unfold createBooking. cbv zeta. rewrite Hstart, Hbarber.
      rewrite !value_bind. cbn [query value fst]. rewrite Hfind, Hin. cbn [negb].
      rewrite ?value_bind, Htruthy. cbn [ret value fst]. rewrite ?value_bind.
      rewrite Hconflict. reflexivity.
    + unfold createBooking. cbv zeta. rewrite Hstart, Hbarber.
      rewrite ?queries_bind, ?value_bind. cbn [query value queries fst snd].
      rewrite Hfind, Hin. cbn [negb].
      rewrite ?queries_bind, ?value_bind, Htruthy. cbn [ret value queries fst snd].
      rewrite ?queries_bind, ?value_bind, Hconflict. cbn [ret queries snd].
      rewrite !app_nil_r. reflexivity.
  - intros Hconflict view Hview. apply run_ext.
    + unfold createBooking. cbv zeta. rewrite Hstart, Hbarber.
      rewrite !value_bind. cbn [query value fst]. rewrite Hfind, Hin. cbn [negb].
      rewrite ?value_bind, Htruthy. cbn [ret value fst]. rewrite ?value_bind.
      rewrite Hconflict, Hview. reflexivity.
    + unfold createBooking. cbv zeta. rewrite Hstart, Hbarber.
      rewrite ?queries_bind, ?value_bind. cbn [query value queries fst snd].
      rewrite Hfind, Hin. cbn [negb].
      rewrite ?queries_bind, ?value_bind, Htruthy. cbn [ret value queries fst snd].
      rewrite ?queries_bind, ?value_bind, Hconflict, Hview.
      cbn [query ret queries snd]. reflexivity.
Qed.

(** The service an update is checked with, and the query that reads it:
    the service of the booking, or the one the request names. *)
Lemma updateCheck_window (db : DB) (now : Date) (request : UpdateBookingRequest)
    (t : Date) (existingBooking : Booking) (existingService newService : Service)
    (lookup : list Query) :
  update_startTime request = Some (ValidDate t) ->
  (truthy (update_serviceId request) = false
   /\ newService = existingService /\ lookup = [])
  \/ (truthy (update_serviceId request) = true
      /\ find (fun s => String.eqb (service_id s)
                          (orElse (update_serviceId request) EmptyString)
                        && String.eqb (service_storeId s)
                             (booking_storeId existingBooking)
                        && service_isActive s)
              (services db) = Some newService
      /\ lookup = [service_findFirst (booking_storeId existingBooking)
                     (orElse (update_serviceId request) EmptyString) true]) ->
  let stop := addMinutes t (service_duration newService) in
  let conflictCheck :=
    checkBookingConflicts db
      (mkBookingConflictCheck (booking_storeId existingBooking)
         (Some (orElse (keepTruthy (update_barberId request))
                  (booking_barberId existingBooking)))
         (service_id newService) t stop (Some (update_bookingId request))) in
  (~ inBookingWindow now t ->
   updateCheck db now request existingBooking existingService
   = (inl (failure (reason (validateBookingTime now (ValidDate t)))), lookup))
  /\ (inBookingWindow now t ->
      updateCheck db now request existingBooking existingService
      = (inr (t, stop, value conflictCheck), lookup ++ queries conflictCheck)).
Proof.
  intros Hstart Hservice. cbv zeta. split.
  - intros Hout. apply validateBookingTime_outside in Hout.
    unfold updateCheck. rewrite Hstart, Hout. cbn [negb].
    destruct Hservice as [(Hs & -> & ->)|(Hs & Hfind & ->)]; rewrite Hs.
    + reflexivity.
    + cbn [bind query ret]. rewrite Hfind. reflexivity.
  - intros Hin. apply validateBookingTime_spec in Hin.
    unfold updateCheck. rewrite Hstart, Hin. cbn [negb orElse].
    destruct Hservice as [(Hs & -> & ->)|(Hs & Hfind & ->)]; rewrite Hs.
    + apply run_ext.
      * rewrite ?value_bind. cbn [ret value fst]. rewrite ?value_bind.
        reflexivity.
      * rewrite ?queries_bind, ?value_bind. cbn [ret queries value fst snd].
        rewrite ?queries_bind. cbn [ret queries snd]. rewrite ?app_nil_r.
        reflexivity.
    + apply run_ext.
      * rewrite ?value_bind. cbn [query ret value fst]. rewrite Hfind.
        rewrite ?value_bind. reflexivity.
      * rewrite ?queries_bind, ?value_bind. cbn [query ret queries value fst snd].
        rewrite Hfind. rewrite ?queries_bind. cbn [ret queries snd].
        rewrite ?app_nil_r. reflexivity.
Qed.

Lemma updateBooking_window (db : DB) (now : Date) (request : UpdateBookingRequest)
    (t : Date) (existingBooking : Booking) (existingService newService : Service)
    (lookup : list Query) :
  update_startTime request = Some (ValidDate t) ->
  find (fun b => String.eqb (booking_id b) (update_bookingId request)) (bookings db)
    = Some existingBooking ->
  find (fun s => String.eqb (service_id s) (booking_serviceId existingBooking))
       (services db) = Some existingService ->
  (truthy (update_serviceId request) = false
   /\ newService = existingService /\ lookup = [])
  \/ (truthy (update_serviceId request) = true
      /\ find (fun s => String.eqb (service_id s)
                          (orElse (update_serviceId request) EmptyString)
                        && String.eqb (service_storeId s)
                             (booking_storeId existingBooking)
                        && service_isActive s)
              (services db) = Some newService
      /\ lookup = [service_findFirst (booking_storeId existingBooking)
                     (orElse (update_serviceId request) EmptyString) true]) ->
  let stop := addMinutes t (service_duration newService) in
  let conflictCheck :=
    checkBookingConflicts db
      (mkBookingConflictCheck (booking_storeId existingBooking)
         (Some (orElse (keepTruthy (update_barberId request))
                  (booking_barberId existingBooking)))
         (service_id newService) t stop (Some (update_bookingId request))) in
  let row := applyUpdate
               (mkUpdateData (keepTruthy (update_customerName request))
                  (keepTruthy (update_customerContact request))
                  (update_notes request) (update_status request)
                  (keepTruthy (update_serviceId request)) (Some t)
                  (keepTruthy (update_barberId request)) (Some stop))
               existingBooking in
  (~ inBookingWindow now t ->
   updateBooking db now request
   = ((failure (reason (validateBookingTime now (ValidDate t))), db),
      booking_findUnique (update_bookingId request) :: lookup))
  /\ (inBookingWindow now t ->
      (hasConflict (value conflictCheck) = true ->
       updateBooking db now request
       = ((mkBookingResult false None (conflictDetails (value conflictCheck))
             (suggestedAlternatives (value conflictCheck)), db),
          booking_findUnique (update_bookingId request)
          :: lookup ++ queries conflictCheck))
      /\ (hasConflict (value conflictCheck) = false ->
          forall view,
            includeNames db row = Some view ->
            updateBooking db now request
            = ((mkBookingResult true (Some view) None None,
                mkDB (services db) (businessHours db) (barbers db)
                  (map (fun b => if String.eqb (booking_id b) (update_bookingId request)
                                 then row else b)
                       (bookings db))),
               booking_findUnique (update_bookingId request)
               :: lookup ++ queries conflictCheck
                  ++ [booking_update (update_bookingId request)]))).
Proof.
  intros Hstart Hbooking Hexisting Hservice. cbv zeta.
  destruct (updateCheck_window db now request t existingBooking existingService
              newService lookup Hstart Hservice) as [Hout Hin].
  cbv zeta in Hout, Hin.
  assert (Hcond : truthy (update_serviceId request)
                  || (match update_startTime request with
                      | Some _ => true
                      | None => false
                      end)
                  || truthy (update_barberId request) = true).
  { rewrite Hstart, orb_true_r. reflexivity. }
  split; [|intros Hwindow; split].
  - intros Hwindow. unfold updateBooking. cbv zeta. rewrite Hcond.
    cbn [bind query]. rewrite Hbooking, Hexisting, (Hout Hwindow).
    cbn [bind ret]. rewrite !app_nil_r. reflexivity.
  - intros Hconflict. unfold updateBooking. cbv zeta. rewrite Hcond.
    cbn [bind query]. rewrite Hbooking, Hexisting, (Hin Hwindow).
    cbn [bind ret]. rewrite Hconflict. cbn [bind ret].
    rewrite !app_nil_r. reflexivity.
  - intros Hconflict view Hview. unfold updateBooking. cbv zeta. rewrite Hcond.
    cbn [bind query]. rewrite Hbooking, Hexisting, (Hin Hwindow).
    cbn [bind ret]. rewrite Hconflict.
    cbn [bind ret data_customerName data_customerContact data_notes data_status].
    rewrite Hstart. cbn [validTime]. rewrite Hview.
    cbn [bind query ret]. rewrite ?app_nil_r, <- ?app_assoc. reflexivity.
Qed.

(** X19: for a start time that is a valid date, the time validation accepts
    it exactly when it lies between 30 minutes and 90 days after the clock,
    and answers one of its two errors otherwise.  For an active service of
    the store, [createBooking] answers that error after the service lookup
    alone when the start is outside the window; inside the window, with a
    barber named, it runs the conflict check, and the result is the failure
    the check reports or the success with the new row.  [updateBooking] of
    an existing booking to a new start does the same, after the lookup of
    the booking and of a newly named service. *)
Theorem booking_window_gates :
  forall (db : DB) (now : Date) (newId : string) (request : CreateBookingRequest)
         (change : UpdateBookingRequest) (t : Date),
    (ok (validateBookingTime now (ValidDate t)) = true <-> inBookingWindow now t)
    /\ (t < addMinutes now 30 ->
        validateBookingTime now (ValidDate t)
        = mkVerdict false (Some "預約時間必須至少提前30分鐘"))
    /\ (addMinutes now (90 * 24 * 60) < t ->
        validateBookingTime now (ValidDate t)
        = mkVerdict false (Some "預約時間不能超過3個月"))
    /\ (forall service,
          create_startTime request = ValidDate t ->
          find (fun s => String.eqb (service_id s) (create_serviceId request)
                         && String.eqb (service_storeId s) (create_storeId request)
                         && service_isActive s)
               (services db) = Some service ->
          (~ inBookingWindow now t ->
           createBooking db now newId request
           = ((failure (reason (validateBookingTime now (ValidDate t))), db),
              [service_findFirst (create_storeId request) (create_serviceId request)
                 true]))
          /\ (inBookingWindow now t ->
              forall barberId,
                create_barberId request = Some barberId ->
                barberId <> EmptyString ->
                let stop := addMinutes t (service_duration service) in
                let conflictCheck :=
                  checkBookingConflicts db
                    (mkBookingConflictCheck (create_storeId request) (Some barberId)
                       (create_serviceId request) t stop None) in
                let row := mkBooking newId (create_storeId request) barberId
                             (create_serviceId request) (create_customerName request)
                             (create_customerContact request)
                             (create_contactType request)
                             t stop confirmed (create_notes request) in
                (hasConflict (value conflictCheck) = true ->
                 createBooking db now newId request
                 = ((mkBookingResult false None (conflictDetails (value conflictCheck))
                       (suggestedAlternatives (value conflictCheck)), db),
                    service_findFirst (create_storeId request)
                      (create_serviceId request) true
                    :: queries conflictCheck))
                /\ (hasConflict (value conflictCheck) = false ->
                    forall view,
                      includeNames db row = Some view ->
                      createBooking db now newId request
                      = ((mkBookingResult true (Some view) None None,
                          mkDB (services db) (businessHours db) (barbers db)
                            (bookings db ++ [row])),
                         service_findFirst (create_storeId request)
                           (create_serviceId request) true
                         :: queries conflictCheck ++ [booking_create newId]))))
    /\ (forall existingBooking existingService newService lookup,
          update_startTime change = Some (ValidDate t) ->
          find (fun b => String.eqb (booking_id b) (update_bookingId change))
               (bookings db) = Some existingBooking ->
          find (fun s => String.eqb (service_id s) (booking_serviceId existingBooking))
               (services db) = Some existingService ->
          (truthy (update_serviceId change) = false
           /\ newService = existingService /\ lookup = [])
          \/ (truthy (update_serviceId change) = true
              /\ find (fun s => String.eqb (service_id s)
                                  (orElse (update_serviceId change) EmptyString)
                                && String.eqb (service_storeId s)
                                     (booking_storeId existingBooking)
                                && service_isActive s)
                      (services db) = Some newService
              /\ lookup = [service_findFirst (booking_storeId existingBooking)
                             (orElse (update_serviceId change) EmptyString) true]) ->
          let stop := addMinutes t (service_duration newService) in
          let conflictCheck :=
            checkBookingConflicts db
              (mkBookingConflictCheck (booking_storeId existingBooking)
                 (Some (orElse (keepTruthy (update_barberId change))
                          (booking_barberId existingBooking)))
                 (service_id newService) t stop (Some (update_bookingId change))) in
          let row := applyUpdate
                       (mkUpdateData (keepTruthy (update_customerName change))
                          (keepTruthy (update_customerContact change))
                          (update_notes change) (update_status change)
                          (keepTruthy (update_serviceId change)) (Some t)
                          (keepTruthy (update_barberId change)) (Some stop))
                       existingBooking in
          (~ inBookingWindow now t ->
           updateBooking db now change
           = ((failure (reason (validateBookingTime now (ValidDate t))), db),
              booking_findUnique (update_bookingId change) :: lookup))
          /\ (inBookingWindow now t ->
              (hasConflict (value conflictCheck) = true ->
               updateBooking db now change
               = ((mkBookingResult false None (conflictDetails (value conflictCheck))
                     (suggestedAlternatives (value conflictCheck)), db),
                  booking_findUnique (update_bookingId change)
                  :: lookup ++ queries conflictCheck))
              /\ (hasConflict (value conflictCheck) = false ->
                  forall view,
                    includeNames db row = Some view ->
                    updateBooking db now change
                    = ((mkBookingResult true (Some view) None None,
                        mkDB (services db) (businessHours db) (barbers db)
                          (map (fun b =>
                                  if String.eqb (booking_id b) (update_bookingId change)
                                  then row else b)
                               (bookings db))),
                       booking_findUnique (update_bookingId change)
                       :: lookup ++ queries conflictCheck
                          ++ [booking_update (update_bookingId change)])))).
Proof.
  intros db now newId request change t.
  split; [apply validateBookingTime_spec|].
  split; [apply validateBookingTime_too_soon|].
  split; [apply validateBookingTime_too_late|].
  split.
  - intros service Hstart Hfind. split.
    + intros Hout. apply (createBooking_outside_window _ _ _ _ _ service); assumption.
    + intros Hin barberId Hbarber Hne.
      apply (createBooking_inside_window db now newId request t service barberId);
        assumption.
  - intros existingBooking existingService newService lookup Hstart Hbooking
      Hexisting Hservice.
    apply (updateBooking_window db now change t existingBooking existingService
             newService lookup); assumption.
Qed.

Import Scenarios MoreScenarios.

Lemma booking_window_gates_witness :
  createBooking dbOneBusy (at_ 8 0) "booking-2" createTooSoon
  = ((failure (Some "預約時間必須至少提前30分鐘"), dbOneBusy),
     [service_findFirst "store-1" "service-1" true])
  /\ success (fst (value (updateBooking dbTwoBookings (at_ 8 0) updateToEleven)))
     = true.
Proof.
  split.
  - apply (proj1 (proj1 (proj2 (proj2 (proj2
             (booking_window_gates dbOneBusy (at_ 8 0) "booking-2" createTooSoon
                updateTooSoon (at_ 8 20)))))
             haircut eq_refl eq_refl)).
    unfold inBookingWindow. vm_compute. intros [H _]. apply H. reflexivity.
  - destruct (proj2 (proj2 (proj2 (proj2
                (booking_window_gates dbTwoBookings (at_ 8 0) "booking-9" createAtNine
                   updateToEleven (at_ 11 0)))))
                (bookingOf "booking-1" "barber-A" (at_ 10 0) (at_ 10 30) confirmed)
                haircut haircut [] eq_refl eq_refl eq_refl
                (or_introl (conj eq_refl (conj eq_refl eq_refl))))
      as [_ Hinside].
    destruct Hinside as [_ Hfree].
    + unfold inBookingWindow. vm_compute. split; discriminate.
    + rewrite (Hfree eq_refl
                 (mkBookingView "booking-1" "barber-A" "A" "haircut" (at_ 11 0)
                    (at_ 11 30) "customer" confirmed)
                 eq_refl).
      reflexivity.
Defined.

End TimeGate.
